(** * diffpy.Structure: the XYZ parser ([Structure/Parsers/P_xyz.py])

    A shallow embedding of [Parser.parseLines] and [Parser.toLines] and of
    the Python string primitives they use, followed by the properties of the
    specification that concern them.  The source is Python 2: strings are
    byte strings, [str.split()] splits on ASCII white space, and
    [raise E, msg] raises [E(msg)]. *)

From Stdlib Require Import String Ascii List ZArith Lia Bool Arith.
From Stdlib Require Import DecimalString DecimalZ DecimalNat DecimalFacts.
From Stdlib Require Import SpecFloat.
Import ListNotations.

#[local] Open Scope list_scope.
#[local] Open Scope string_scope.

(** ** Python exceptions and the error monad *)

(** The exceptions that the statements of [parseLines] can raise.
    [InvalidStructureFormat] carries the message given at the [raise]; it
    is defined in [Structure.structure] and is taken to derive from
    [Exception] directly, so that no [except] clause of [parseLines]
    catches it. *)
Inductive exn : Type :=
| InvalidStructureFormat (msg : string)
| IndexError
| ValueError.

Inductive result (A : Type) : Type :=
| Return (a : A)
| Raise (e : exn).
Arguments Return {A} a.
Arguments Raise {A} e.

Definition bind {A B} (m : result A) (k : A -> result B) : result B :=
  match m with
  | Return a => k a
  | Raise e => Raise e
  end.

Declare Scope py_scope.
Delimit Scope py_scope with py.
Notation "x <- m ;; k" := (bind m (fun x => k))
  (at level 61, m at next level, right associativity) : py_scope.
Notation "' pat <- m ;; k" := (bind m (fun x => match x with pat => k end))
  (at level 61, pat pattern, m at next level, right associativity) : py_scope.
#[local] Open Scope py_scope.

(** [try: m  except (IndexError, ValueError): h] *)
Definition try_except_index_value {A} (m : result A) (h : result A) : result A :=
  match m with
  | Raise IndexError | Raise ValueError => h
  | r => r
  end.

(** [try: m  except ValueError: h] *)
Definition try_except_value {A} (m : result A) (h : result A) : result A :=
  match m with
  | Raise ValueError => h
  | r => r
  end.

(** [l[i]] for a non-negative index. *)
Definition index {A} (l : list A) (i : nat) : result A :=
  match nth_error l i with
  | Some a => Return a
  | None => Raise IndexError
  end.

(** [[f(x) for x in l]], evaluated left to right. *)
Fixpoint comprehension {A B} (f : A -> result B) (l : list A) : result (list B) :=
  match l with
  | [] => Return []
  | x :: l' => y <- f x ;; ys <- comprehension f l' ;; Return (y :: ys)
  end.

(** ** Python 2 byte-string primitives *)

(** [c.isspace()] in the C locale: space, and \t \n \v \f \r. *)
Definition isspace (c : ascii) : bool :=
  let n := nat_of_ascii c in
  ((n =? 32) || ((9 <=? n) && (n <=? 13)))%nat.

Definition is_empty (s : string) : bool :=
  match s with EmptyString => true | _ => false end.

Definition is_digit (c : ascii) : bool :=
  let n := nat_of_ascii c in ((48 <=? n) && (n <=? 57))%nat.

(** [s.split()]: the maximal runs of non-space characters.  [cur] is the
    token being read, empty when none is. *)
Fixpoint split_from (cur : string) (s : string) : list string :=
  match s with
  | EmptyString => if is_empty cur then [] else [cur]
  | String c r =>
      if isspace c
      then (if is_empty cur then split_from "" r else cur :: split_from "" r)
      else split_from (cur ++ String c "") r
  end.

Definition split (s : string) : list string := split_from "" s.

Fixpoint lstrip (s : string) : string :=
  match s with
  | EmptyString => ""
  | String c r => if isspace c then lstrip r else s
  end.

Fixpoint rstrip (s : string) : string :=
  match s with
  | EmptyString => ""
  | String c r =>
      match rstrip r with
      | EmptyString => if isspace c then "" else String c ""
      | r' => String c r'
      end
  end.

(** [s.strip()] *)
Definition strip (s : string) : string := rstrip (lstrip s).

Definition upper_char (c : ascii) : ascii :=
  let n := nat_of_ascii c in
  if ((97 <=? n) && (n <=? 122))%nat then ascii_of_nat (n - 32) else c.

Definition lower_char (c : ascii) : ascii :=
  let n := nat_of_ascii c in
  if ((65 <=? n) && (n <=? 90))%nat then ascii_of_nat (n + 32) else c.

Fixpoint map_string (f : ascii -> ascii) (s : string) : string :=
  match s with
  | EmptyString => ""
  | String c r => String (f c) (map_string f r)
  end.

(** [s.upper()] and [s.lower()] *)
Definition upper : string -> string := map_string upper_char.
Definition lower : string -> string := map_string lower_char.

(** [str(n)] and ["%d" % n] for an integer: the canonical decimal numeral. *)
Definition py_str (n : Z) : string := NilZero.string_of_int (Z.to_int n).

(** [int(s)] for a token [s] (no white space inside): an optional sign and
    at least one decimal digit; [None] stands for [ValueError]. *)
Definition py_int (s : string) : option Z :=
  match s with
  | EmptyString => None
  | String c r =>
      if Ascii.eqb c "-" then option_map (fun d => Z.opp (Z.of_uint d)) (NilZero.uint_of_string r)
      else if Ascii.eqb c "+" then option_map Z.of_uint (NilZero.uint_of_string r)
      else option_map Z.of_uint (NilZero.uint_of_string s)
  end.

Definition int (s : string) : result Z :=
  match py_int s with
  | Some n => Return n
  | None => Raise ValueError
  end.

(** ["%-3s" % s]: left-justified in a field of width [w]. *)
Fixpoint spaces (n : nat) : string :=
  match n with
  | O => ""
  | S n' => String " " (spaces n')
  end.

Definition ljust (w : nat) (s : string) : string :=
  s ++ spaces (w - String.length s).

(** ["%d: " + reason] *)
Definition at_line (n : nat) (reason : string) : string :=
  py_str (Z.of_nat n) ++ ": " ++ reason.

(** ** The environment of the parser

    [float(...)], the ["%g"] conversion and the lattice of a [Structure] are
    not defined in [P_xyz.py]; the parser is embedded over any
    implementation of them. *)
Class Runtime : Type := {
  float : Type;
  (** [float(s)]; [None] stands for [ValueError] *)
  py_float : string -> option float;
  (** ["%g" % x] *)
  fmt_g : float -> string;
  Lattice : Type;
  (** the lattice of [Structure()] *)
  default_lattice : Lattice;
  (** [Lattice.cartesian] *)
  to_cartesian : Lattice -> list float -> list float
}.

Section XYZ.
Context {RT : Runtime}.

Definition float_of (s : string) : result float :=
  match py_float s with
  | Some x => Return x
  | None => Raise ValueError
  end.

(** ** Data model *)

(** Modelled from the spec: the class [Atom] of [Structure.atom], of which
    the parser uses the constructor [Atom(element, xyz=xyz)] and the
    attribute [element]. *)
Record Atom : Type := { element : string; xyz : list float }.

(** Modelled from the spec: the class [Structure] of [Structure.structure],
    an ordered sequence of atoms with a title and a lattice. *)
Record Structure : Type := {
  title : string;
  lattice : Lattice;
  atoms : list Atom
}.

(** [Structure()] *)
Definition Structure_new : Structure :=
  {| title := ""; lattice := default_lattice; atoms := [] |}.

(** [stru.title = t] *)
Definition set_title (stru : Structure) (t : string) : Structure :=
  {| title := t; lattice := lattice stru; atoms := atoms stru |}.

(** [stru.append(a)] *)
Definition append (stru : Structure) (a : Atom) : Structure :=
  {| title := title stru; lattice := lattice stru; atoms := (atoms stru ++ [a])%list |}.

(** [len(stru)] *)
Definition len (stru : Structure) : Z := Z.of_nat (List.length (atoms stru)).

(** [stru.cartesian(a)] *)
Definition cartesian (stru : Structure) (a : Atom) : list float :=
  to_cartesian (lattice stru) (xyz a).

(** ** [Parser.parseLines] *)

Definition msg_missing : string := "invalid XYZ format, missing number of atoms".
Definition msg_columns4 : string := "invalid XYZ format, expected 4 columns".
Definition msg_columns : string := "all lines must have the same number of columns".
Definition msg_number : string := "invalid number format".
Definition msg_expected (p_natoms n : Z) : string :=
  "expected " ++ py_str p_natoms ++ " atoms, read " ++ py_str n.

(** The first loop: [start] counts the leading lines that have no field or
    whose first field is ["#"]. *)
Fixpoint skip_leading (linefields : list (list string)) (start : nat) : nat :=
  match linefields with
  | [] => start
  | field :: rest =>
      match field with
      | [] => skip_leading rest (S start)
      | f0 :: _ => if String.eqb f0 "#" then skip_leading rest (S start) else start
      end
  end.

(** The first [try] block: the number of atoms and the title.  It returns
    [p_natoms] and the value assigned to [stru.title]. *)
Definition read_count (lines : list string) (linefields : list (list string))
    (start : nat) : result (Z * string) :=
  try_except_index_value
    (lfs <- index linefields start ;;
     w1 <- (l <- index linefields start ;; index l 0) ;;
     if Nat.eqb (List.length lfs) 1 then
       n <- int w1 ;;
       if String.eqb (py_str n) w1 then
         p_natoms <- int w1 ;;
         l <- index lines (start + 1) ;;
         Return (p_natoms, strip l)
       else Raise (InvalidStructureFormat (at_line (start + 1) msg_missing))
     else Raise (InvalidStructureFormat (at_line (start + 1) msg_missing)))
    (Raise (InvalidStructureFormat (at_line (start + 1) msg_missing))).

(** The [while] loop that finds the last valid record. *)
Fixpoint find_stop (linefields : list (list string)) (start stop : nat) : nat :=
  match stop with
  | O => O
  | S stop' =>
      if ((start <? stop) && (List.length (nth stop' linefields []) =? 0))%nat
      then find_stop linefields start stop'
      else stop
  end.

(** The body of the [for] loop over the record lines, after the column
    check: the atom of one record. *)
Definition read_atom (fields : list string) : result Atom :=
  element <- index fields 0 ;;
  element <- match element with
             | EmptyString => Raise IndexError
             | String c r => Return (upper (String c "") ++ lower r)
             end ;;
  xyz <- comprehension float_of (firstn 3 (skipn 1 fields)) ;;
  Return {| element := element; xyz := xyz |}.

(** The second [try] block: the [for] loop over [linefields[start:]], with
    the line counter [p_nl] and the structure being filled.  The handler
    of [ValueError] is applied at the record that raises, where [p_nl] has
    the value that the handler reads. *)
Fixpoint read_records (nfields : nat) (records : list (list string))
    (p_nl : nat) (stru : Structure) : result Structure :=
  match records with
  | [] => Return stru
  | fields :: rest =>
      let p_nl := p_nl + 1 in
      match fields with
      | [] => read_records nfields rest p_nl stru
      | _ =>
          if negb (List.length fields =? nfields)%nat
          then Raise (InvalidStructureFormat (at_line p_nl msg_columns))
          else
            a <- try_except_value (read_atom fields)
                   (Raise (InvalidStructureFormat (at_line p_nl msg_number))) ;;
            read_records nfields rest p_nl (append stru a)
      end
  end.

(** The statements after the title has been read. *)
Definition read_body (lines : list string) (linefields : list (list string))
    (start : nat) (p_natoms : Z) (stru : Structure) : result Structure :=
  let stop := find_stop linefields start (List.length lines) in
  if (p_natoms =? 0)%Z || (stop <=? start)%nat then Return stru
  else
    lfs <- index linefields start ;;
    let nfields := List.length lfs in
    if negb (nfields =? 4)%nat
    then Raise (InvalidStructureFormat (at_line (start + 1) msg_columns4))
    else
      stru <- read_records nfields (skipn start linefields) start stru ;;
      if negb (len stru =? p_natoms)%Z
      then Raise (InvalidStructureFormat (msg_expected p_natoms (len stru)))
      else Return stru.

Definition parseLines (lines : list string) : result Structure :=
  let linefields := map split lines in
  let stru := Structure_new in
  let start := skip_leading linefields 0 in
  '(p_natoms, t) <- read_count lines linefields start ;;
  let stru := set_title stru t in
  let start := start + 2 in
  read_body lines linefields start p_natoms stru.

(** ** [Parser.toLines] *)

Definition atom_line (stru : Structure) (a : Atom) : result string :=
  let rc := cartesian stru a in
  x <- index rc 0 ;;
  y <- index rc 1 ;;
  z <- index rc 2 ;;
  Return (ljust 3 (element a) ++ " " ++ fmt_g x ++ " " ++ fmt_g y ++ " " ++ fmt_g z).

Definition toLines (stru : Structure) : result (list string) :=
  let lines := [py_str (len stru); title stru] in
  records <- comprehension (atom_line stru) (atoms stru) ;;
  Return (lines ++ records)%list.

(** ** [Parser.parseLines] on the store of objects

    The same statements with the objects of the call made explicit: the
    list that [lines] names, and the [Structure] objects, each at an
    address.  A raise leaves the store as it is at that point. *)

Record Store : Type := {
  list_objects : list (list string);
  structure_objects : list Structure
}.

Definition Py (A : Type) : Type := Store -> result A * Store.

Definition pure {A} (r : result A) : Py A := fun s => (r, s).

Definition bind_py {A B} (m : Py A) (k : A -> Py B) : Py B :=
  fun s =>
    match m s with
    | (Return a, s') => k a s'
    | (Raise e, s') => (Raise e, s')
    end.

Notation "x <~ m ;; k" := (bind_py m (fun x => k))
  (at level 61, m at next level, right associativity) : py_scope.
Notation "' pat <~ m ;; k" := (bind_py m (fun x => match x with pat => k end))
  (at level 61, pat pattern, m at next level, right associativity) : py_scope.

(** The list that the argument [lines] refers to. *)
Definition deref (r : nat) : Py (list string) :=
  fun s => (Return (nth r (list_objects s) []), s).

(** [Structure()]: a new object, at the next free address. *)
Definition new_Structure : Py nat :=
  fun s =>
    (Return (List.length (structure_objects s)),
     {| list_objects := list_objects s;
        structure_objects := (structure_objects s ++ [Structure_new])%list |}).

Fixpoint update_at {A} (i : nat) (f : A -> A) (l : list A) : list A :=
  match l, i with
  | [], _ => []
  | x :: l', O => f x :: l'
  | x :: l', S i' => x :: update_at i' f l'
  end.

(** An assignment to, or a method that changes, the object at [a]. *)
Definition modify (a : nat) (f : Structure -> Structure) : Py unit :=
  fun s =>
    (Return tt,
     {| list_objects := list_objects s;
        structure_objects := update_at a f (structure_objects s) |}).

(** [len(stru)] for the object at [a]. *)
Definition len_at (a : nat) : Py Z :=
  fun s => (Return (len (nth a (structure_objects s) Structure_new)), s).

Fixpoint read_records_in (nfields : nat) (records : list (list string))
    (p_nl : nat) (stru : nat) : Py unit :=
  match records with
  | [] => pure (Return tt)
  | fields :: rest =>
      let p_nl := p_nl + 1 in
      match fields with
      | [] => read_records_in nfields rest p_nl stru
      | _ =>
          if negb (List.length fields =? nfields)%nat
          then pure (Raise (InvalidStructureFormat (at_line p_nl msg_columns)))
          else
            a <~ pure (try_except_value (read_atom fields)
                         (Raise (InvalidStructureFormat (at_line p_nl msg_number)))) ;;
            _ <~ modify stru (fun s => append s a) ;;
            read_records_in nfields rest p_nl stru
      end
  end.

Definition read_body_in (lines : list string) (linefields : list (list string))
    (start : nat) (p_natoms : Z) (stru : nat) : Py nat :=
  let stop := find_stop linefields start (List.length lines) in
  if (p_natoms =? 0)%Z || (stop <=? start)%nat then pure (Return stru)
  else
    lfs <~ pure (index linefields start) ;;
    let nfields := List.length lfs in
    if negb (nfields =? 4)%nat
    then pure (Raise (InvalidStructureFormat (at_line (start + 1) msg_columns4)))
    else
      _ <~ read_records_in nfields (skipn start linefields) start stru ;;
      n <~ len_at stru ;;
      if negb (n =? p_natoms)%Z
      then pure (Raise (InvalidStructureFormat (msg_expected p_natoms n)))
      else pure (Return stru).

Definition parseLines_in (lines : nat) : Py nat :=
  lines <~ deref lines ;;
  let linefields := map split lines in
  stru <~ new_Structure ;;
  let start := skip_leading linefields 0 in
  '(p_natoms, t) <~ pure (read_count lines linefields start) ;;
  _ <~ modify stru (fun s => set_title s t) ;;
  let start := start + 2 in
  read_body_in lines linefields start p_natoms stru.

End XYZ.

(** ** IEEE binary64, for running the parser

    Python's [float] is the C [double].  [float(s)] and ["%g" % x] are
    given here for CPython 2.7 on the values of [SpecFloat.spec_float] at
    precision 53, so that [parseLines] and [toLines] can be evaluated. *)
Module Binary64.

Definition prec : Z := 53.
Definition emax : Z := 1024.

(** The longest prefix of digits, and what follows it. *)
Fixpoint take_digits (s : string) : string * string :=
  match s with
  | EmptyString => ("", "")
  | String c r =>
      if is_digit c
      then let '(d, rest) := take_digits r in (String c d, rest)
      else ("", s)
  end.

Fixpoint digits_value (acc : Z) (s : string) : Z :=
  match s with
  | EmptyString => acc
  | String c r => digits_value (10 * acc + Z.of_nat (nat_of_ascii c - 48)) r
  end.

(** [neg], [n] and [k] stand for (-1)^neg * n * 10^k, rounded to nearest,
    ties to even. *)
Definition of_decimal (neg : bool) (n k : Z) : spec_float :=
  match n with
  | Zpos p =>
      match k with
      | Zneg _ =>
          let '(q, e, l) := SFdiv_core_binary prec emax n 0 (10 ^ (- k)) 0 in
          binary_round_aux prec emax neg q e l
      | _ => binary_round prec emax neg (Z.to_pos (n * 10 ^ k)) 0
      end
  | _ => S754_zero neg
  end.

(** The exponent part of a literal: empty, or [e] or [E], an optional sign
    and digits. *)
Definition exponent_of (s : string) : option Z :=
  match s with
  | EmptyString => Some 0%Z
  | String c r =>
      if Ascii.eqb c "e" || Ascii.eqb c "E" then
        let '(neg, r) := match r with
                         | String "-" r' => (true, r')
                         | String "+" r' => (false, r')
                         | _ => (false, r)
                         end in
        let '(d, rest) := take_digits r in
        if is_empty d || negb (is_empty rest) then None
        else Some (if neg then (- digits_value 0 d)%Z else digits_value 0 d)
      else None
  end.

Definition unsigned_of_string (neg : bool) (s : string) : option spec_float :=
  let l := lower s in
  if String.eqb l "inf" || String.eqb l "infinity" then Some (S754_infinity neg)
  else if String.eqb l "nan" then Some S754_nan
  else
    let '(ip, r1) := take_digits s in
    let '(fp, r2) := match r1 with
                     | String "." r => take_digits r
                     | _ => ("", r1)
                     end in
    if is_empty ip && is_empty fp then None
    else match exponent_of r2 with
         | Some x => Some (of_decimal neg (digits_value 0 (ip ++ fp))
                                      (x - Z.of_nat (String.length fp)))
         | None => None
         end.

(** [float(s)] for a token [s]. *)
Definition of_string (s : string) : option spec_float :=
  match s with
  | String "-" r => unsigned_of_string true r
  | String "+" r => unsigned_of_string false r
  | _ => unsigned_of_string false s
  end.

(** Division rounded to nearest, ties to even, of a non-negative [a] by a
    positive [b]. *)
Definition div_half_even (a b : Z) : Z :=
  let q := (a / b)%Z in
  let r := (a mod b)%Z in
  match (2 * r ?= b)%Z with
  | Lt => q
  | Gt => (q + 1)%Z
  | Eq => if Z.even q then q else (q + 1)%Z
  end.

(** [num / den >= 10 ^ x] *)
Definition ge_pow10 (num den x : Z) : bool :=
  match x with
  | Zneg _ => (den <=? num * 10 ^ (- x))%Z
  | _ => (den * 10 ^ x <=? num)%Z
  end.

Definition ndigits (n : Z) : Z := Z.of_nat (String.length (py_str n)).

Fixpoint rstrip_zeros (s : string) : string :=
  match s with
  | EmptyString => ""
  | String c r =>
      match rstrip_zeros r with
      | EmptyString => if Ascii.eqb c "0" then "" else String c ""
      | r' => String c r'
      end
  end.

Fixpoint zeros (n : nat) : string :=
  match n with
  | O => ""
  | S n' => String "0" (zeros n')
  end.

Definition with_fraction (ip fp : string) : string :=
  match rstrip_zeros fp with
  | EmptyString => ip
  | f => ip ++ "." ++ f
  end.

(** ["%g"] of the positive rational [num / den]: six significant digits,
    the style chosen by the decimal exponent. *)
Definition g_of_ratio (num den : Z) : string :=
  let x0 := (ndigits num - ndigits den)%Z in
  let x := if ge_pow10 num den x0 then x0 else (x0 - 1)%Z in
  let scaled := match (5 - x)%Z with
                | Zneg _ => div_half_even num (den * 10 ^ (x - 5))
                | _ => div_half_even (num * 10 ^ (5 - x)) den
                end in
  let '(d, x) := if (scaled =? 1000000)%Z then (100000%Z, (x + 1)%Z) else (scaled, x) in
  let ds := py_str d in
  if (x <? -4)%Z || (6 <=? x)%Z then
    let ex := py_str (Z.abs x) in
    with_fraction (substring 0 1 ds) (substring 1 5 ds)
      ++ "e" ++ (if (x <? 0)%Z then "-" else "+")
      ++ (if (String.length ex <? 2)%nat then "0" ++ ex else ex)
  else if (x <? 0)%Z then
    with_fraction "0" (zeros (Z.to_nat (- x - 1)) ++ ds)
  else
    with_fraction (substring 0 (Z.to_nat (x + 1)) ds)
                  (substring (Z.to_nat (x + 1)) (Z.to_nat (5 - x)) ds).

(** ["%g" % x] *)
Definition to_g (x : spec_float) : string :=
  match x with
  | S754_zero s => if s then "-0" else "0"
  | S754_infinity s => if s then "-inf" else "inf"
  | S754_nan => "nan"
  | S754_finite s m e =>
      (if s then "-" else "") ++
      match e with
      | Zneg _ => g_of_ratio (Zpos m) (2 ^ (- e))
      | _ => g_of_ratio (Zpos m * 2 ^ e) 1
      end
  end.

(** Modelled from the spec: the lattice is a matrix of three basis vectors,
    and the cartesian coordinates of a 3-vector are its product with it;
    the default lattice is the orthonormal unit cell. *)
Definition base : Type := list (list spec_float).

Definition one : spec_float := S754_finite false 4503599627370496 (-52).
Definition zero : spec_float := S754_zero false.

Definition unit_cell : base :=
  [[one; zero; zero]; [zero; one; zero]; [zero; zero; one]].

Definition dot3 (u : list spec_float) (b : base) (j : nat) : spec_float :=
  match u with
  | [x; y; z] =>
      SFadd prec emax
        (SFadd prec emax
           (SFmul prec emax x (nth j (nth 0 b []) S754_nan))
           (SFmul prec emax y (nth j (nth 1 b []) S754_nan)))
        (SFmul prec emax z (nth j (nth 2 b []) S754_nan))
  | _ => S754_nan
  end.

Definition dot (b : base) (u : list spec_float) : list spec_float :=
  match u with
  | [_; _; _] => [dot3 u b 0; dot3 u b 1; dot3 u b 2]
  | _ => []
  end.

#[global] Instance runtime : Runtime := {|
  float := spec_float;
  py_float := of_string;
  fmt_g := to_g;
  Lattice := base;
  default_lattice := unit_cell;
  to_cartesian := dot
|}.

(** Atoms and structures over binary64, with the default lattice. *)
Definition atom (e : string) (c : list spec_float) : @Atom runtime :=
  @Build_Atom runtime e c.

Definition structure (t : string) (l : list (@Atom runtime)) : @Structure runtime :=
  @Build_Structure runtime t unit_cell l.

End Binary64.

(** ** Vocabulary of the statements *)

Fixpoint all_space (s : string) : bool :=
  match s with
  | EmptyString => true
  | String c r => isspace c && all_space r
  end.

Fixpoint no_space (s : string) : bool :=
  match s with
  | EmptyString => true
  | String c r => negb (isspace c) && no_space r
  end.

(** A token: what [split] can return as a field. *)
Definition is_token (s : string) : bool := negb (is_empty s) && no_space s.

(** A line without fields: [len(field) == 0]. *)
Definition blank (l : string) : bool :=
  match split l with [] => true | _ => false end.

(** A line that the first loop of [parseLines] passes over. *)
Definition skipped (l : string) : bool :=
  match split l with [] => true | f0 :: _ => String.eqb f0 "#" end.

(** First character in upper case, the others in lower case. *)
Definition capitalize (tok : string) : string :=
  match tok with
  | EmptyString => ""
  | String c r => String (upper_char c) (lower r)
  end.

(** The first and the last character of a string are not white space. *)
Definition starts_with_space (s : string) : bool :=
  match s with String c _ => isspace c | EmptyString => false end.

Fixpoint ends_with_space (s : string) : bool :=
  match s with
  | EmptyString => false
  | String c EmptyString => isspace c
  | String _ r => ends_with_space r
  end.

(** A string of decimal digits. *)
Fixpoint all_digits (s : string) : bool :=
  match s with
  | EmptyString => true
  | String c r => is_digit c && all_digits r
  end.

(** The count line in the form that [parseLines] takes: one token, which
    [int] reads and [str] gives back unchanged. *)
Definition count_of (l : string) : option Z :=
  match split l with
  | [w] => match py_int w with
           | Some n => if String.eqb (py_str n) w then Some n else None
           | None => None
           end
  | _ => None
  end.

Definition no_fields (fields : list string) : bool :=
  (List.length fields =? 0)%nat.

Definition has_fields (fields : list string) : bool := negb (no_fields fields).

Section Views.
Context {RT : Runtime}.

(** What [parseLines] does with the lines after the title, as a function
    of their fields; [start] is the number of lines before them. *)
Definition check_count (p_natoms : Z) (stru : Structure) : result Structure :=
  if negb (len stru =? p_natoms)%Z
  then Raise (InvalidStructureFormat (msg_expected p_natoms (len stru)))
  else Return stru.

Definition parse_records (start : nat) (p_natoms : Z) (t : string)
    (records : list (list string)) : result Structure :=
  let stru := set_title Structure_new t in
  if (p_natoms =? 0)%Z || forallb no_fields records then Return stru
  else
    match records with
    | [] => Return stru
    | lfs :: _ =>
        if negb (List.length lfs =? 4)%nat
        then Raise (InvalidStructureFormat (at_line (start + 1) msg_columns4))
        else stru <- read_records 4 records start stru ;; check_count p_natoms stru
    end.

(** [stru] after the atoms of [l] have been appended to it. *)
Definition extend (stru : Structure) (l : list Atom) : Structure :=
  {| title := title stru; lattice := lattice stru; atoms := (atoms stru ++ l)%list |}.

(** A record that [read_atom] turns into the atom [a]. *)
Definition record_of (nfields : nat) (fields : list string) (a : Atom) : Prop :=
  List.length fields = nfields /\ read_atom fields = Return a.

(** The structure that [parseLines] returns for an input: its title is
    the stripped title line, and it has either no atom, when the count is
    zero or no record follows, or one atom for each record that has fields,
    as many as the count says. *)
Definition fully_populated (lines : list string) (stru : Structure) : Prop :=
  exists pre cl tl recs n,
    lines = (pre ++ cl :: tl :: recs)%list
    /\ Forall (fun l => skipped l = true) pre
    /\ split cl = [py_str n]
    /\ title stru = strip tl
    /\ lattice stru = default_lattice
    /\ ((atoms stru = [] /\ (n = 0%Z \/ Forall (fun l => blank l = true) recs))
        \/ (Z.of_nat (List.length (atoms stru)) = n
            /\ Forall2 (record_of 4) (filter has_fields (map split recs)) (atoms stru))).

(** The store [s] with one more [Structure] object. *)
Definition with_new (s : Store) (stru : Structure) : Store :=
  {| list_objects := list_objects s;
     structure_objects := (structure_objects s ++ [stru])%list |}.

(** What the caller gets of a call that built its structure at [a]. *)
Definition handed_back {A B} (r : result A) (a : B) : result B :=
  match r with
  | Return _ => Return a
  | Raise e => Raise e
  end.

(** An atom that the XYZ format can hold. *)
Definition expressible (stru : Structure) (a : Atom) : Prop :=
  is_token (element a) = true
  /\ capitalize (element a) = element a
  /\ cartesian stru a = xyz a
  /\ List.length (xyz a) = 3
  /\ Forall (fun v => is_token (fmt_g v) = true /\ py_float (fmt_g v) = Some v)
            (xyz a).

End Views.

(** ** The script [anyeye] ([diffpy/Structure/applications/anyeye.py])

    [parseFormula], the statements of [convertStructureFile] that set the
    elements of the structure it has loaded, and the exit status of
    [signalHandler].  What the script does with files and processes is
    not embedded. *)
Module Anyeye.

(** The exceptions of the statements embedded here; [RuntimeError]
    carries the message given at the [raise]. *)
Inductive error : Type :=
| RuntimeError (msg : string)
| ValueError
| IndexError
| OverflowError.

Inductive outcome (A : Type) : Type :=
| Returns (a : A)
| Raises (e : error).
Arguments Returns {A} a.
Arguments Raises {A} e.

(** [[A-Z]] and [[a-z]] *)
Definition is_upper (c : ascii) : bool :=
  let n := nat_of_ascii c in ((65 <=? n) && (n <=? 90))%nat.

Definition is_lower (c : ascii) : bool :=
  let n := nat_of_ascii c in ((97 <=? n) && (n <=? 122))%nat.

(** [re.sub('\s', '', s)]: without flags, the class of the pattern is the
    space, tab, newline, carriage return, form feed and vertical tab. *)
Fixpoint remove_blanks (s : string) : string :=
  match s with
  | EmptyString => ""
  | String c r => if isspace c then remove_blanks r else String c (remove_blanks r)
  end.

(** [re.match('^[A-Z]', s)], as a truth value *)
Definition match_upper (s : string) : bool :=
  match s with
  | String c _ => is_upper c
  | EmptyString => false
  end.

(** [re.split('([A-Z][a-z]?)', s)]: the texts between the matches of the
    pattern, from left to right, each followed by the match that ends it,
    since the pattern is a group.  A match starts at every upper-case
    letter and takes the letter after it when that one is lower-case.
    [cur] is the text read since the last match. *)
Fixpoint re_split (cur : string) (s : string) : list string :=
  match s with
  | EmptyString => [cur]
  | String c r =>
      if is_upper c then
        match r with
        | String d r' =>
            if is_lower d
            then cur :: String c (String d "") :: re_split "" r'
            else cur :: String c "" :: re_split "" r
        | EmptyString => cur :: String c "" :: re_split "" r
        end
      else re_split (cur ++ String c "") r
  end.

(** The double quote. *)
Definition dquote : ascii := ascii_of_nat 34.

Fixpoint contains (c : ascii) (s : string) : bool :=
  match s with
  | EmptyString => false
  | String d r => Ascii.eqb c d || contains c r
  end.

Definition hex_digit (n : nat) : string :=
  String (nth n (list_ascii_of_string "0123456789abcdef") "0"%char) "".

(** The backslash. *)
Definition backslash : ascii := ascii_of_nat 92.

(** One character of [repr(s)], between the quotes [quote]: the quote and
    the backslash after a backslash, tab, newline and carriage return as
    their letters, the other bytes outside the printable ASCII as two
    hexadecimal digits. *)
Definition repr_char (quote c : ascii) : string :=
  let n := nat_of_ascii c in
  if Ascii.eqb c quote || Ascii.eqb c backslash then String backslash (String c "")
  else if (n =? 9)%nat then String backslash "t"
  else if (n =? 10)%nat then String backslash "n"
  else if (n =? 13)%nat then String backslash "r"
  else if ((n <? 32) || (127 <=? n))%nat
       then String backslash "x" ++ hex_digit (n / 16) ++ hex_digit (n mod 16)
  else String c "".

Fixpoint repr_chars (quote : ascii) (s : string) : string :=
  match s with
  | EmptyString => ""
  | String c r => repr_char quote c ++ repr_chars quote r
  end.

(** ["%r" % s] for a byte string: [repr(s)], in single quotes unless [s]
    has a single quote and no double quote. *)
Definition py_repr (s : string) : string :=
  let quote := if contains "'" s && negb (contains dquote s)
               then dquote else "'"%char in
  String quote (repr_chars quote s ++ String quote "").

Section Formula.

(** [sys.maxsize], the largest index of the platform. *)
Variable maxsize : Z.

(** [cnt * [el]]: [cnt] copies of [el], none for a negative [cnt]; a
    [cnt] that is not an index of the platform raises [OverflowError].
    The memory of the machine is not a limit here. *)
Definition times (cnt : Z) (el : string) : outcome (list string) :=
  if ((cnt <? - maxsize - 1) || (maxsize <? cnt))%Z then Raises OverflowError
  else Returns (repeat el (Z.to_nat cnt)).

(** [(cnt == "") and 1 or int(cnt)] *)
Definition count_value (cnt : string) : outcome Z :=
  if is_empty cnt then Returns 1%Z
  else match py_int cnt with
       | Some n => Returns n
       | None => Raises ValueError
       end.

(** The [try] block: the loop over the entries of [elcnt] at the even
    indices, each with the entry [elcnt[i+1]] after it.  The handler of
    [ValueError] is applied at the entry that raises, where [i] has the
    value that the handler reads. *)
Fixpoint expand (elcnt : list string) (ellst : list string)
    : outcome (list string) :=
  match elcnt with
  | [] => Returns ellst
  | el :: after =>
      match after with
      | [] => Raises IndexError
      | cnt :: rest =>
          match count_value cnt with
          | Raises ValueError =>
              Raises (RuntimeError
                        ("Invalid formula, " ++ py_repr cnt ++ " is not valid count"))
          | Raises e => Raises e
          | Returns n =>
              match times n el with
              | Returns l => expand rest (ellst ++ l)%list
              | Raises e => Raises e
              end
          end
      end
  end.

Definition parseFormula (formula : string) : outcome (list string) :=
  let formula := remove_blanks formula in
  if negb (match_upper formula)
  then Raises (RuntimeError ("InvalidFormula '" ++ formula ++ "'"))
  else
    let elcnt := tl (re_split "" formula) in
    expand elcnt [].

End Formula.

Section Elements.
Context {RT : Runtime}.

(** [a.element = e] *)
Definition set_element (a : Atom) (e : string) : Atom :=
  {| element := e; xyz := xyz a |}.

(** [stru[i].element = e] *)
Fixpoint set_element_at (l : list Atom) (i : nat) (e : string)
    : outcome (list Atom) :=
  match l, i with
  | [], _ => Raises IndexError
  | a :: l', O => Returns (set_element a e :: l')
  | a :: l', S i' =>
      match set_element_at l' i' e with
      | Returns l'' => Returns (a :: l'')
      | Raises x => Raises x
      end
  end.

(** [for i in range(len(stru)): stru[i].element = formula[i]], over the
    indices that are left. *)
Fixpoint assign_elements (indices : list nat) (formula : list string)
    (l : list Atom) : outcome (list Atom) :=
  match indices with
  | [] => Returns l
  | i :: rest =>
      match nth_error formula i with
      | None => Raises IndexError
      | Some e =>
          match set_element_at l i e with
          | Returns l' => assign_elements rest formula l'
          | Raises x => Raises x
          end
      end
  end.

(** [if a.element == "": a.element = "C"] *)
Definition default_element (a : Atom) : Atom :=
  if is_empty (element a) then set_element a "C" else a.

(** The statements of [convertStructureFile] between the loading of
    [stru] and its writing, lines 90 to 100: [formula] is [pd['formula']]
    when [pd] has the key, and [format] the format of the file. *)
Definition convertStructureFile_elements (formula : option (list string))
    (format : string) (stru : Structure) : outcome Structure :=
  match formula with
  | Some formula =>
      if negb (List.length formula =? List.length (atoms stru))%nat
      then Raises (RuntimeError
                     ("Formula has " ++ py_str (Z.of_nat (List.length formula))
                      ++ " atoms while structure " ++ py_str (len stru)))
      else
        match assign_elements (seq 0 (List.length (atoms stru))) formula (atoms stru) with
        | Returns l =>
            Returns {| title := title stru; lattice := lattice stru; atoms := l |}
        | Raises x => Raises x
        end
  | None =>
      if String.eqb format "rawxyz"
      then Returns {| title := title stru; lattice := lattice stru;
                      atoms := map default_element (atoms stru) |}
      else Returns stru
  end.

End Elements.

(** [signalHandler]: the status that the script exits with for a signal;
    [sigcld] says that the signal is [signal.SIGCLD], and [wait_status]
    is the status that [os.wait()] gives then. *)
Definition signalHandler (sigcld : bool) (wait_status : Z) : Z :=
  if sigcld
  then (Z.shiftr wait_status 8 + Z.land wait_status 255)%Z
  else 1%Z.

(** *** Vocabulary *)

(** An element symbol: an upper-case letter, or one followed by a
    lower-case letter. *)
Definition is_symbol (s : string) : bool :=
  match s with
  | String c EmptyString => is_upper c
  | String c (String d EmptyString) => is_upper c && is_lower d
  | _ => false
  end.

Fixpoint no_upper (s : string) : bool :=
  match s with
  | EmptyString => true
  | String c r => negb (is_upper c) && no_upper r
  end.

Definition starts_lower (s : string) : bool :=
  match s with
  | String c _ => is_lower c
  | EmptyString => false
  end.

(** The text of a formula: each symbol followed by its count. *)
Fixpoint formula_text (items : list (string * string)) : string :=
  match items with
  | [] => ""
  | (sym, cnt) :: rest => sym ++ cnt ++ formula_text rest
  end.

(** A piece of a formula as [re.split] cuts it: a symbol and the text up
    to the next upper-case letter, which does not start with a lower-case
    letter when the symbol has one letter. *)
Definition is_item (it : string * string) : Prop :=
  is_symbol (fst it) = true /\ no_upper (snd it) = true
  /\ (String.length (fst it) = 2 \/ starts_lower (snd it) = false).

(** A count: nothing, or what [int] reads. *)
Definition is_count (cnt : string) : bool :=
  is_empty cnt || match py_int cnt with Some _ => true | None => false end.

(** The number that a count stands for: 1 when it is empty. *)
Definition number_of (cnt : string) : Z :=
  if is_empty cnt then 1%Z
  else match py_int cnt with Some n => n | None => 0%Z end.

(** A number that is an index of the platform. *)
Definition fits (maxsize n : Z) : Prop := (- maxsize - 1 <= n <= maxsize)%Z.

(** The elements that the items of a formula stand for. *)
Definition elements_of (items : list (string * string)) : list string :=
  flat_map (fun it => repeat (fst it) (Z.to_nat (number_of (snd it)))) items.

End Anyeye.

(** * Properties *)

(** ** Strings *)

Lemma append_nil_r (s : string) : s ++ "" = s.
Proof. induction s as [|c s IH]; simpl; [reflexivity | now rewrite IH]. Qed.

Lemma append_assoc (a b c : string) : (a ++ b) ++ c = a ++ (b ++ c).
Proof. induction a as [|x a IH]; simpl; [reflexivity | now rewrite IH]. Qed.

Lemma append_is_empty (a b : string) :
  is_empty (a ++ b) = is_empty a && is_empty b.
Proof. destruct a; reflexivity. Qed.

Lemma no_space_append (a b : string) :
  no_space (a ++ b) = no_space a && no_space b.
Proof.
  induction a as [|x a IH]; simpl; [reflexivity|].
  rewrite IH. now rewrite andb_assoc.
Qed.

Lemma all_space_append (a b : string) :
  all_space (a ++ b) = all_space a && all_space b.
Proof.
  induction a as [|x a IH]; simpl; [reflexivity|].
  rewrite IH. now rewrite andb_assoc.
Qed.

(** *** [split] *)

Lemma split_from_no_space (t : string) :
  no_space t = true ->
  forall cur s, split_from cur (t ++ s) = split_from (cur ++ t) s.
Proof.
  induction t as [|c t IH]; simpl; intros H cur s.
  - now rewrite append_nil_r.
  - apply andb_true_iff in H as [Hc Ht].
    apply negb_true_iff in Hc. rewrite Hc.
    rewrite IH by assumption. now rewrite append_assoc.
Qed.

Lemma split_from_all_space (a : string) :
  all_space a = true ->
  forall s, split_from "" (a ++ s) = split_from "" s.
Proof.
  induction a as [|c a IH]; simpl; intros H s; [reflexivity|].
  apply andb_true_iff in H as [Hc Ha]. rewrite Hc. now apply IH.
Qed.

Lemma split_from_token_space (t : string) (c : ascii) (s : string) :
  is_token t = true -> isspace c = true ->
  split_from "" (t ++ String c s) = t :: split_from "" s.
Proof.
  intros Ht Hc. apply andb_true_iff in Ht as [Hne Hns].
  rewrite split_from_no_space by assumption. simpl.
  rewrite Hc. destruct t; [discriminate | reflexivity].
Qed.

Lemma split_token (t : string) : is_token t = true -> split t = [t].
Proof.
  intros Ht. apply andb_true_iff in Ht as [Hne Hns].
  unfold split. rewrite <- (append_nil_r t) at 1.
  rewrite split_from_no_space by assumption. simpl.
  destruct t; [discriminate | reflexivity].
Qed.

Lemma split_from_tokens (s : string) :
  forall cur, no_space cur = true ->
  Forall (fun t => is_token t = true) (split_from cur s).
Proof.
  induction s as [|c s IH]; simpl; intros cur Hcur.
  - destruct cur; simpl; constructor; [|constructor].
    unfold is_token. simpl. exact Hcur.
  - destruct (isspace c) eqn:Hc.
    + destruct cur; simpl.
      * now apply IH.
      * constructor; [unfold is_token; simpl; exact Hcur | now apply IH].
    + apply IH. rewrite no_space_append, Hcur. simpl. now rewrite Hc.
Qed.

Lemma split_tokens (s : string) : Forall (fun t => is_token t = true) (split s).
Proof. now apply split_from_tokens. Qed.

Lemma split_from_cons_nonempty (s : string) :
  forall c cur, split_from (String c cur) s <> [].
Proof.
  induction s as [|x s IH]; simpl; intros c cur; [discriminate|].
  destruct (isspace x); [discriminate | apply IH].
Qed.

Lemma split_nil_iff (s : string) : split s = [] <-> all_space s = true.
Proof.
  unfold split. induction s as [|c s IH]; simpl; [tauto|].
  destruct (isspace c) eqn:Hc; simpl; [exact IH|].
  split; [intros H | discriminate].
  now apply split_from_cons_nonempty in H.
Qed.

Lemma blank_iff (l : string) : blank l = true <-> all_space l = true.
Proof.
  rewrite <- split_nil_iff. unfold blank. destruct (split l); split; congruence.
Qed.

(** *** [strip] *)

Lemma lstrip_spec (s : string) :
  exists a, s = a ++ lstrip s /\ all_space a = true
            /\ starts_with_space (lstrip s) = false.
Proof.
  induction s as [|c s (a & E & Ha & Hs)]; simpl.
  - exists "". auto.
  - destruct (isspace c) eqn:Hc.
    + exists (String c a). simpl. rewrite Hc, Ha, <- E. auto.
    + exists "". simpl. auto.
Qed.

Lemma rstrip_spec (s : string) :
  exists b, s = rstrip s ++ b /\ all_space b = true
            /\ ends_with_space (rstrip s) = false.
Proof.
  induction s as [|c s (b & E & Hb & Hs)]; simpl.
  - exists "". auto.
  - destruct (rstrip s) as [|x r] eqn:Hr.
    + simpl in E. subst b. destruct (isspace c) eqn:Hc.
      * exists (String c s). simpl. rewrite Hc, Hb. auto.
      * exists s. simpl. rewrite Hc. auto.
    + exists b. rewrite E at 1. simpl in *. auto.
Qed.

Lemma rstrip_head (s : string) :
  starts_with_space s = false -> starts_with_space (rstrip s) = false.
Proof.
  destruct s as [|c s]; simpl; [reflexivity|].
  intros Hc. destruct (rstrip s); [rewrite Hc|]; simpl; auto.
Qed.

Lemma lstrip_id (s : string) : starts_with_space s = false -> lstrip s = s.
Proof. destruct s as [|c s]; simpl; [reflexivity | now intros ->]. Qed.

Lemma rstrip_id (s : string) : ends_with_space s = false -> rstrip s = s.
Proof.
  induction s as [|c s IH]; simpl; [reflexivity|].
  destruct s as [|x s].
  - simpl. now intros ->.
  - intros H. rewrite (IH H). reflexivity.
Qed.

(** [strip] removes a white-space prefix and a white-space suffix, and what
    is left neither starts nor ends with white space. *)
Lemma strip_spec (s : string) :
  exists a b, s = a ++ strip s ++ b
              /\ all_space a = true /\ all_space b = true
              /\ starts_with_space (strip s) = false
              /\ ends_with_space (strip s) = false.
Proof.
  unfold strip.
  destruct (lstrip_spec s) as (a & Ea & Ha & Hs).
  destruct (rstrip_spec (lstrip s)) as (b & Eb & Hb & He).
  exists a, b. repeat split; auto using rstrip_head.
  now rewrite <- Eb.
Qed.

Lemma strip_id (s : string) :
  starts_with_space s = false -> ends_with_space s = false -> strip s = s.
Proof.
  intros Hs He. unfold strip. rewrite (lstrip_id s Hs). now apply rstrip_id.
Qed.

Lemma strip_idempotent (s : string) : strip (strip s) = strip s.
Proof.
  destruct (strip_spec s) as (a & b & _ & _ & _ & Hs & He).
  now apply strip_id.
Qed.

(** *** [str] and [int] *)

Lemma digit_not_space (c : ascii) : is_digit c = true -> isspace c = false.
Proof.
  unfold is_digit, isspace. intros H.
  apply andb_true_iff in H as [H1 H2].
  apply Nat.leb_le in H1. apply Nat.leb_le in H2.
  apply orb_false_iff. split.
  - apply Nat.eqb_neq. lia.
  - apply andb_false_iff. right. apply Nat.leb_gt. lia.
Qed.

Lemma all_digits_no_space (s : string) : all_digits s = true -> no_space s = true.
Proof.
  induction s as [|c s IH]; simpl; [reflexivity|].
  intros H. apply andb_true_iff in H as [Hc Hs].
  now rewrite (digit_not_space c Hc), IH.
Qed.

Lemma string_of_uint_digits (d : Decimal.uint) :
  all_digits (NilEmpty.string_of_uint d) = true.
Proof. induction d; simpl; auto. Qed.

Lemma string_of_uint_nonempty (d : Decimal.uint) :
  d <> Decimal.Nil -> is_empty (NilEmpty.string_of_uint d) = false.
Proof. destruct d; simpl; congruence. Qed.

Lemma nilzero_string_of_uint (d : Decimal.uint) :
  d <> Decimal.Nil -> NilZero.string_of_uint d = NilEmpty.string_of_uint d.
Proof. destruct d; simpl; congruence. Qed.

(** The numeral of [n]: an optional minus sign and a non-empty string of
    digits. *)
Lemma py_str_shape (n : Z) :
  exists ds, all_digits ds = true /\ is_empty ds = false
             /\ py_str n = (if (n <? 0)%Z then String "-" ds else ds).
Proof.
  unfold py_str. destruct n as [|p|p]; simpl.
  - exists "0". auto.
  - exists (NilEmpty.string_of_uint (Pos.to_uint p)).
    pose proof (DecimalPos.Unsigned.to_uint_nonnil p) as Hn.
    rewrite nilzero_string_of_uint by assumption.
    auto using string_of_uint_digits, string_of_uint_nonempty.
  - exists (NilEmpty.string_of_uint (Pos.to_uint p)).
    pose proof (DecimalPos.Unsigned.to_uint_nonnil p) as Hn.
    rewrite nilzero_string_of_uint by assumption.
    auto using string_of_uint_digits, string_of_uint_nonempty.
Qed.

Lemma py_str_token (n : Z) : is_token (py_str n) = true.
Proof.
  destruct (py_str_shape n) as (ds & Hd & He & ->).
  apply all_digits_no_space in Hd.
  unfold is_token. destruct (n <? 0)%Z; simpl; [exact Hd|].
  now rewrite He, Hd.
Qed.

Lemma split_py_str (n : Z) : split (py_str n) = [py_str n].
Proof. apply split_token, py_str_token. Qed.

Lemma py_str_not_hash (n : Z) : String.eqb (py_str n) "#" = false.
Proof.
  destruct (py_str_shape n) as (ds & Hd & He & ->).
  destruct (n <? 0)%Z; [reflexivity|].
  destruct ds as [|c ds]; [discriminate|].
  simpl in Hd. apply andb_true_iff in Hd as [Hc _].
  apply String.eqb_neq. intros [= -> _]. discriminate.
Qed.

(** [int(str(n)) == n] *)
Lemma py_int_py_str (n : Z) : py_int (py_str n) = Some n.
Proof.
  unfold py_str. destruct n as [|p|p]; [reflexivity| |].
  - pose proof (DecimalPos.Unsigned.to_uint_nonnil p) as Hn.
    cbn [Z.to_int NilZero.string_of_int].
    pose proof (NilZero.usu _ Hn) as Hu.
    pose proof (string_of_uint_digits (Pos.to_uint p)) as Hd.
    rewrite nilzero_string_of_uint in * by assumption.
    destruct (NilEmpty.string_of_uint (Pos.to_uint p)) as [|c r] eqn:E.
    + now destruct (Pos.to_uint p).
    + unfold py_int. simpl in Hd. apply andb_true_iff in Hd as [Hc _].
      destruct (Ascii.eqb_spec c "-") as [->|_]; [discriminate|].
      destruct (Ascii.eqb_spec c "+") as [->|_]; [discriminate|].
      rewrite Hu. simpl. unfold Z.of_uint.
      now rewrite DecimalPos.Unsigned.of_to.
  - pose proof (DecimalPos.Unsigned.to_uint_nonnil p) as Hn.
    cbn [Z.to_int NilZero.string_of_int]. unfold py_int.
    rewrite Ascii.eqb_refl, (NilZero.usu _ Hn). simpl. unfold Z.of_uint.
    now rewrite DecimalPos.Unsigned.of_to.
Qed.

Lemma int_py_str (n : Z) : int (py_str n) = Return n.
Proof. unfold int. now rewrite py_int_py_str. Qed.

Lemma py_str_inj (n m : Z) : py_str n = py_str m -> n = m.
Proof.
  intros E. pose proof (py_int_py_str n) as Hn.
  rewrite E, py_int_py_str in Hn. congruence.
Qed.

(** ** The phases of [parseLines] *)

Section Phases.
Context {RT : Runtime}.

Lemma count_of_iff (l : string) (n : Z) :
  count_of l = Some n <-> split l = [py_str n].
Proof.
  unfold count_of. split.
  - destruct (split l) as [|w [|]]; try discriminate.
    destruct (py_int w) as [m|]; try discriminate.
    destruct (String.eqb_spec (py_str m) w); congruence.
  - intros ->. now rewrite py_int_py_str, String.eqb_refl.
Qed.

Lemma skipped_count (l : string) (n : Z) : count_of l = Some n -> skipped l = false.
Proof.
  intros H. apply count_of_iff in H. unfold skipped. rewrite H.
  apply py_str_not_hash.
Qed.

(** *** The first loop *)

Lemma skip_leading_app (pre rest : list string) (k : nat) :
  Forall (fun l => skipped l = true) pre ->
  skip_leading (map split (pre ++ rest)) k
  = skip_leading (map split rest) (List.length pre + k).
Proof.
  intros H. revert k. induction H as [|l pre Hl _ IH]; intros k; [reflexivity|].
  simpl. unfold skipped in Hl.
  destruct (split l) as [|f0 fs]; [|rewrite Hl]; rewrite IH; f_equal; lia.
Qed.

Lemma skip_leading_stop (l : string) (rest : list string) (k : nat) :
  skipped l = false -> skip_leading (map split (l :: rest)) k = k.
Proof.
  unfold skipped. simpl. destruct (split l) as [|f0 fs]; [discriminate|].
  now intros ->.
Qed.

(** The lines before [start] are passed over, the line at [start] is not. *)
Lemma skip_leading_spec (lines : list string) (k : nat) :
  exists pre rest,
    lines = (pre ++ rest)%list
    /\ skip_leading (map split lines) k = List.length pre + k
    /\ Forall (fun l => skipped l = true) pre
    /\ match rest with [] => True | l :: _ => skipped l = false end.
Proof.
  revert k. induction lines as [|l lines IH]; intros k.
  - exists [], []. simpl. auto.
  - destruct (skipped l) eqn:Hl.
    + destruct (IH (S k)) as (pre & rest & E & Hs & Hp & Hr).
      exists (l :: pre), rest. subst lines.
      split; [reflexivity|]. split; [|split; [now constructor | exact Hr]].
      pose proof (skip_leading_app [l] (pre ++ rest) k) as E.
      simpl List.length in E. rewrite Nat.add_1_l in E.
      simpl app in *. rewrite E, Hs by (now constructor). simpl List.length. lia.
    + exists [], (l :: lines). repeat split; auto.
      now rewrite skip_leading_stop.
Qed.

(** *** The count line and the title *)

Lemma read_count_spec (lines : list string) (start : nat) :
  read_count lines (map split lines) start =
  match nth_error lines start with
  | Some cl =>
      match count_of cl, nth_error lines (start + 1) with
      | Some n, Some tl => Return (n, strip tl)
      | _, _ => Raise (InvalidStructureFormat (at_line (start + 1) msg_missing))
      end
  | None => Raise (InvalidStructureFormat (at_line (start + 1) msg_missing))
  end.
Proof.
  unfold read_count, index, count_of. rewrite nth_error_map.
  destruct (nth_error lines start) as [cl|]; simpl; [|reflexivity].
  destruct (split cl) as [|w [|w' ws]]; simpl; try reflexivity.
  unfold int. destruct (py_int w) as [n|]; simpl; [|reflexivity].
  destruct (String.eqb (py_str n) w); simpl; [|reflexivity].
  destruct (nth_error lines (start + 1)); reflexivity.
Qed.

(** *** The last valid record *)

Lemma firstn_succ_nth {A} (d : A) (l : list A) (j : nat) :
  j < List.length l -> firstn (S j) l = (firstn j l ++ [nth j l d])%list.
Proof.
  revert j. induction l as [|x l IH]; intros j H; simpl in H; [lia|].
  destruct j; simpl; [reflexivity|]. f_equal. apply IH. lia.
Qed.

Lemma nth_skipn {A} (d : A) (l : list A) (i j : nat) :
  nth j (skipn i l) d = nth (i + j) l d.
Proof.
  revert l. induction i as [|i IH]; intros l; [reflexivity|].
  destruct l; simpl; [now destruct j | apply IH].
Qed.

Lemma find_stop_spec (lf : list (list string)) (start stop : nat) :
  stop <= List.length lf ->
  (find_stop lf start stop <=? start)%nat
  = ((stop <=? start)%nat || forallb no_fields (firstn (stop - start) (skipn start lf))).
Proof.
  induction stop as [|k IH]; intros Hk; [reflexivity|].
  cbn [find_stop].
  destruct (start <? S k)%nat eqn:Hlt; simpl andb.
  - apply Nat.ltb_lt in Hlt.
    assert (Hle : (S k <=? start)%nat = false) by (apply Nat.leb_gt; lia).
    replace (S k - start) with (S (k - start)) by lia.
    rewrite (firstn_succ_nth []) by (rewrite length_skipn; lia).
    rewrite forallb_app, nth_skipn. simpl forallb.
    replace (start + (k - start)) with k by lia.
    fold (no_fields (nth k lf [])).
    destruct (no_fields (nth k lf [])) eqn:Hb.
    + rewrite IH by lia. rewrite Hle. simpl.
      rewrite andb_true_r.
      destruct (k <=? start)%nat eqn:Hks; [|reflexivity].
      apply Nat.leb_le in Hks. now replace (k - start) with 0 by lia.
    + rewrite Hle, andb_false_r. reflexivity.
  - apply Nat.ltb_ge in Hlt.
    assert (Hle : (S k <=? start)%nat = true) by (apply Nat.leb_le; lia).
    now rewrite Hle.
Qed.

Lemma find_stop_all (lf : list (list string)) (start : nat) :
  (find_stop lf start (List.length lf) <=? start)%nat
  = forallb no_fields (skipn start lf).
Proof.
  rewrite find_stop_spec by lia.
  destruct (List.length lf <=? start)%nat eqn:H.
  - apply Nat.leb_le in H. now rewrite skipn_all2 by lia.
  - simpl. rewrite firstn_all2; [reflexivity|]. rewrite length_skipn. lia.
Qed.

Lemma nth_error_skipn_hd {A} (l : list A) (i : nat) :
  nth_error l i = hd_error (skipn i l).
Proof.
  revert l. induction i as [|i IH]; intros [|x l]; simpl; auto.
Qed.

(** *** The lines after the title *)

Lemma read_body_spec (lines : list string) (start : nat) (n : Z) (t : string) :
  read_body lines (map split lines) start n (set_title Structure_new t)
  = parse_records start n t (skipn start (map split lines)).
Proof.
  unfold read_body, parse_records.
  rewrite <- (length_map split lines), find_stop_all.
  unfold index. rewrite nth_error_skipn_hd.
  destruct (skipn start (map split lines)) as [|lfs rest].
  - simpl. now rewrite orb_true_r.
  - destruct ((n =? 0)%Z || forallb no_fields (lfs :: rest)); [reflexivity|].
    cbn [hd_error bind].
    destruct (List.length lfs =? 4)%nat eqn:E; [|reflexivity].
    apply Nat.eqb_eq in E. now rewrite E.
Qed.

(** *** The whole function in terms of its phases *)

Lemma parseLines_spec (lines : list string) :
  parseLines lines =
  let start := skip_leading (map split lines) 0 in
  match nth_error lines start with
  | Some cl =>
      match count_of cl, nth_error lines (start + 1) with
      | Some n, Some tl =>
          parse_records (start + 2) n (strip tl) (skipn (start + 2) (map split lines))
      | _, _ => Raise (InvalidStructureFormat (at_line (start + 1) msg_missing))
      end
  | None => Raise (InvalidStructureFormat (at_line (start + 1) msg_missing))
  end.
Proof.
  unfold parseLines. rewrite read_count_spec. cbv zeta.
  destruct (nth_error lines _) as [cl|]; [|reflexivity].
  destruct (count_of cl) as [n|]; [|reflexivity].
  destruct (nth_error lines _) as [tl|]; [|reflexivity].
  cbn [bind]. apply read_body_spec.
Qed.

Lemma skip_leading_count (pre : list string) (cl : string) (rest : list string) (n : Z) :
  Forall (fun l => skipped l = true) pre -> count_of cl = Some n ->
  skip_leading (map split (pre ++ cl :: rest)) 0 = List.length pre.
Proof.
  intros Hp Hc. rewrite skip_leading_app by assumption.
  rewrite skip_leading_stop by (now apply skipped_count with n). lia.
Qed.

(** An input that consists of passed-over lines, a count line, a title line
    and a block of records. *)
Lemma parseLines_shape (pre : list string) (cl tl : string) (recs : list string) (n : Z) :
  Forall (fun l => skipped l = true) pre -> count_of cl = Some n ->
  parseLines (pre ++ cl :: tl :: recs)
  = parse_records (List.length pre + 2) n (strip tl) (map split recs).
Proof.
  intros Hp Hc. rewrite parseLines_spec. cbv zeta.
  rewrite (skip_leading_count pre cl (tl :: recs) n Hp Hc).
  rewrite nth_error_app2, Nat.sub_diag by lia. cbn [nth_error]. rewrite Hc.
  rewrite nth_error_app2 by lia.
  replace (List.length pre + 1 - List.length pre) with 1 by lia.
  cbn [nth_error]. f_equal.
  rewrite skipn_map. f_equal.
  rewrite skipn_app, skipn_all2 by lia.
  replace (List.length pre + 2 - List.length pre) with 2 by lia.
  reflexivity.
Qed.

(** Every input either has that shape for a unique count, or is rejected
    for its count line. *)
Lemma parseLines_cases (lines : list string) :
  (exists pre cl tl recs n,
      lines = (pre ++ cl :: tl :: recs)%list
      /\ Forall (fun l => skipped l = true) pre
      /\ count_of cl = Some n
      /\ skip_leading (map split lines) 0 = List.length pre)
  \/ parseLines lines
     = Raise (InvalidStructureFormat
                (at_line (skip_leading (map split lines) 0 + 1) msg_missing)).
Proof.
  destruct (skip_leading_spec lines 0) as (pre & rest & E & Hs & Hp & Hr).
  rewrite Nat.add_0_r in Hs.
  rewrite parseLines_spec. cbv zeta. rewrite Hs. subst lines.
  rewrite nth_error_app2, Nat.sub_diag by lia.
  destruct rest as [|cl rest]; cbn [nth_error]; [now right|].
  destruct (count_of cl) as [n|] eqn:Hc; [|now right].
  rewrite nth_error_app2 by lia.
  replace (List.length pre + 1 - List.length pre) with 1 by lia.
  destruct rest as [|tl recs]; cbn [nth_error]; [now right|].
  left. exists pre, cl, tl, recs, n. auto.
Qed.

(** *** The record loop *)

Lemma read_records_blank (nf : nat) (rest : list (list string)) (p_nl : nat)
    (stru : Structure) :
  read_records nf ([] :: rest) p_nl stru = read_records nf rest (p_nl + 1) stru.
Proof. reflexivity. Qed.

Lemma read_records_record (nf : nat) (fields : list string)
    (rest : list (list string)) (p_nl : nat) (stru : Structure) (a : Atom) :
  record_of nf fields a -> has_fields fields = true ->
  read_records nf (fields :: rest) p_nl stru
  = read_records nf rest (p_nl + 1) (append stru a).
Proof.
  intros [Hl Ha] Hf. destruct fields as [|f0 fs]; [discriminate|].
  cbn [read_records]. rewrite Hl, Nat.eqb_refl, Ha. reflexivity.
Qed.

Lemma read_records_columns (nf : nat) (fields : list string)
    (rest : list (list string)) (p_nl : nat) (stru : Structure) :
  has_fields fields = true -> List.length fields <> nf ->
  read_records nf (fields :: rest) p_nl stru
  = Raise (InvalidStructureFormat (at_line (p_nl + 1) msg_columns)).
Proof.
  intros Hf Hl. destruct fields as [|f0 fs]; [discriminate|].
  cbn [read_records]. apply Nat.eqb_neq in Hl. now rewrite Hl.
Qed.

Lemma read_records_number (nf : nat) (fields : list string)
    (rest : list (list string)) (p_nl : nat) (stru : Structure) :
  has_fields fields = true -> List.length fields = nf ->
  read_atom fields = Raise ValueError ->
  read_records nf (fields :: rest) p_nl stru
  = Raise (InvalidStructureFormat (at_line (p_nl + 1) msg_number)).
Proof.
  intros Hf Hl Ha. destruct fields as [|f0 fs]; [discriminate|].
  cbn [read_records]. rewrite Hl, Nat.eqb_refl, Ha. reflexivity.
Qed.

Lemma extend_nil (stru : Structure) : extend stru [] = stru.
Proof. destruct stru. unfold extend. simpl. now rewrite List.app_nil_r. Qed.

Lemma extend_append (stru : Structure) (a : Atom) (l : list Atom) :
  extend (append stru a) l = extend stru (a :: l).
Proof. unfold extend, append. simpl. now rewrite <- List.app_assoc. Qed.

(** Records that are all read leave the loop at the next record. *)
Lemma read_records_prefix (nf : nat) (good : list (list string)) :
  forall (l : list Atom) (rest : list (list string)) (p_nl : nat) (stru : Structure),
  Forall2 (record_of nf) (filter has_fields good) l ->
  read_records nf (good ++ rest) p_nl stru
  = read_records nf rest (p_nl + List.length good) (extend stru l).
Proof.
  induction good as [|fields good IH]; intros l rest p_nl stru H.
  - simpl in *. inversion H. now rewrite extend_nil, Nat.add_0_r.
  - simpl filter in H. destruct (has_fields fields) eqn:Hf.
    + inversion H as [|? a ? l' Ha Hl]; subst.
      cbn [app]. rewrite (read_records_record nf fields _ p_nl stru a Ha Hf).
      rewrite (IH l') by assumption. rewrite extend_append.
      f_equal. simpl. lia.
    + destruct fields; [|discriminate].
      cbn [app]. rewrite read_records_blank, (IH l) by assumption.
      f_equal. simpl. lia.
Qed.

Lemma read_records_complete (nf : nat) (recs : list (list string))
    (l : list Atom) (p_nl : nat) (stru : Structure) :
  Forall2 (record_of nf) (filter has_fields recs) l ->
  read_records nf recs p_nl stru = Return (extend stru l).
Proof.
  intros H. rewrite <- (List.app_nil_r recs).
  now rewrite (read_records_prefix nf recs l [] p_nl stru H).
Qed.

(** A loop that returns has read every record that has fields. *)
Lemma read_records_sound (nf : nat) (recs : list (list string)) :
  forall (p_nl : nat) (stru stru' : Structure),
  read_records nf recs p_nl stru = Return stru' ->
  exists l, stru' = extend stru l
            /\ Forall2 (record_of nf) (filter has_fields recs) l.
Proof.
  induction recs as [|fields recs IH]; intros p_nl stru stru' H.
  - simpl in H. injection H as <-. exists []. split; [now rewrite extend_nil | constructor].
  - destruct fields as [|f0 fs].
    + rewrite read_records_blank in H. apply IH in H. exact H.
    + cbn [read_records] in H. cbn [filter has_fields no_fields List.length Nat.eqb negb].
      destruct (List.length (f0 :: fs) =? nf)%nat eqn:Hl; [|discriminate].
      apply Nat.eqb_eq in Hl. cbn [negb] in H.
      destruct (read_atom (f0 :: fs)) as [a|e] eqn:Ha.
      * cbn [try_except_value bind] in H. apply IH in H as (l & -> & Hl').
        exists (a :: l). split; [apply extend_append|].
        constructor; [split; assumption | assumption].
      * destruct e; discriminate.
Qed.

Lemma comprehension_float_raises (l : list string) (e : exn) :
  comprehension float_of l = Raise e -> e = ValueError.
Proof.
  induction l as [|x l IH]; simpl; [discriminate|].
  unfold float_of at 1. destruct (py_float x); simpl; [|congruence].
  destruct (comprehension float_of l); simpl; [discriminate|].
  intros [= <-]. now apply IH.
Qed.

(** The only exceptions of [read_atom] on fields that [split] made are
    those of [float]. *)
Lemma read_atom_raises (fields : list string) (e : exn) :
  Forall (fun t => is_token t = true) fields -> fields <> [] ->
  read_atom fields = Raise e -> e = ValueError.
Proof.
  intros Ht Hne. destruct fields as [|f0 fs]; [congruence|].
  inversion Ht as [|? ? H0 _]; subst.
  unfold read_atom. cbn [index nth_error bind].
  destruct f0 as [|c r]; [discriminate|]. cbn [bind].
  destruct (comprehension float_of _) eqn:Hc; simpl; [discriminate|].
  intros [= <-]. now apply comprehension_float_raises in Hc.
Qed.

Lemma read_records_raises (nf : nat) (recs : list (list string)) :
  Forall (Forall (fun t => is_token t = true)) recs ->
  forall (p_nl : nat) (stru : Structure) (e : exn),
  read_records nf recs p_nl stru = Raise e ->
  exists msg, e = InvalidStructureFormat msg.
Proof.
  induction 1 as [|fields recs Hf _ IH]; intros p_nl stru e H; [discriminate|].
  destruct fields as [|f0 fs].
  - rewrite read_records_blank in H. now apply IH in H.
  - cbn [read_records] in H.
    destruct (negb _); [injection H as <-; eauto|].
    destruct (read_atom (f0 :: fs)) as [a|e'] eqn:Ha.
    + cbn [try_except_value bind] in H. now apply IH in H.
    + apply read_atom_raises in Ha; [|assumption|discriminate]. subst e'.
      cbn [try_except_value bind] in H. injection H as <-. eauto.
Qed.

(** *** After the title *)

Lemma no_fields_split (l : string) : no_fields (split l) = blank l.
Proof. unfold no_fields, blank. now destruct (split l). Qed.

Lemma forallb_no_fields (recs : list string) :
  forallb no_fields (map split recs) = true
  <-> Forall (fun l => blank l = true) recs.
Proof.
  rewrite forallb_forall, Forall_forall. split.
  - intros H l Hl. rewrite <- no_fields_split. apply H. now apply in_map.
  - intros H f Hf. apply in_map_iff in Hf as (l & <- & Hl).
    rewrite no_fields_split. now apply H.
Qed.

Lemma parse_records_empty (start : nat) (n : Z) (t : string)
    (records : list (list string)) :
  n = 0%Z \/ forallb no_fields records = true ->
  parse_records start n t records = Return (set_title Structure_new t).
Proof.
  intros H. unfold parse_records.
  destruct H as [-> | ->]; [reflexivity | now rewrite orb_true_r].
Qed.

Lemma parse_records_read (start : nat) (n : Z) (t : string)
    (lfs : list string) (rest : list (list string)) :
  n <> 0%Z -> List.length lfs = 4 ->
  parse_records start n t (lfs :: rest)
  = (stru <- read_records 4 (lfs :: rest) start (set_title Structure_new t) ;;
     check_count n stru).
Proof.
  intros Hn Hl. unfold parse_records.
  apply Z.eqb_neq in Hn. rewrite Hn. cbn [forallb orb].
  unfold no_fields at 1. rewrite Hl. reflexivity.
Qed.

Lemma parse_records_columns4 (start : nat) (n : Z) (t : string)
    (lfs : list string) (rest : list (list string)) :
  n <> 0%Z -> forallb no_fields (lfs :: rest) = false -> List.length lfs <> 4 ->
  parse_records start n t (lfs :: rest)
  = Raise (InvalidStructureFormat (at_line (start + 1) msg_columns4)).
Proof.
  intros Hn Hb Hl. unfold parse_records.
  apply Z.eqb_neq in Hn. rewrite Hn, Hb. apply Nat.eqb_neq in Hl.
  now rewrite Hl.
Qed.

(** *** The messages *)

Lemma digits_colon_inj (d1 : string) :
  forall d2 x y, all_digits d1 = true -> all_digits d2 = true ->
  d1 ++ String ":" x = d2 ++ String ":" y -> d1 = d2 /\ x = y.
Proof.
  induction d1 as [|c d1 IH]; intros [|c' d2] x y H1 H2 E; simpl in *.
  - injection E as <-. auto.
  - injection E as <- _. discriminate.
  - injection E as -> _. discriminate.
  - apply andb_true_iff in H1 as [_ H1]. apply andb_true_iff in H2 as [_ H2].
    injection E as <- E. destruct (IH _ _ _ H1 H2 E). split; congruence.
Qed.

Lemma at_line_inj (a b : nat) (r1 r2 : string) :
  at_line a r1 = at_line b r2 -> a = b /\ r1 = r2.
Proof.
  unfold at_line.
  destruct (py_str_shape (Z.of_nat a)) as (d1 & H1 & _ & E1).
  destruct (py_str_shape (Z.of_nat b)) as (d2 & H2 & _ & E2).
  assert (Ha : (Z.of_nat a <? 0)%Z = false) by (apply Z.ltb_ge; lia).
  assert (Hb : (Z.of_nat b <? 0)%Z = false) by (apply Z.ltb_ge; lia).
  rewrite Ha in E1. rewrite Hb in E2. intros E.
  assert (E' : d1 ++ String ":" (String " " r1) = d2 ++ String ":" (String " " r2))
    by (rewrite <- E1, <- E2; exact E).
  apply digits_colon_inj in E' as [Ed Er]; [|assumption|assumption].
  split; [|congruence].
  apply Nat2Z.inj, py_str_inj. congruence.
Qed.

Lemma msg_expected_not_at_line (n m : Z) (k : nat) (r : string) :
  msg_expected n m <> at_line k r.
Proof.
  unfold msg_expected, at_line.
  destruct (py_str_shape (Z.of_nat k)) as (d & Hd & He & ->).
  replace (Z.of_nat k <? 0)%Z with false by (symmetry; apply Z.ltb_ge; lia).
  destruct d as [|c d]; [discriminate|]. simpl in *.
  apply andb_true_iff in Hd as [Hc _]. intros [= <- _]. discriminate.
Qed.

(** What the record loop can raise. *)
Lemma read_records_raise_shape (nf : nat) (recs : list (list string)) :
  forall (p_nl : nat) (stru : Structure) (e : exn),
  read_records nf recs p_nl stru = Raise e ->
  e = IndexError
  \/ (exists q, e = InvalidStructureFormat (at_line q msg_columns))
  \/ (exists q, e = InvalidStructureFormat (at_line q msg_number)).
Proof.
  induction recs as [|fields recs IH]; intros p_nl stru e H; [discriminate|].
  destruct fields as [|f0 fs].
  - rewrite read_records_blank in H. now apply IH in H.
  - cbn [read_records] in H.
    destruct (negb _); [injection H as <-; eauto|].
    destruct (read_atom (f0 :: fs)) as [a|e'] eqn:Ha.
    + cbn [try_except_value bind] in H. now apply IH in H.
    + destruct e'; cbn [try_except_value bind] in H;
        injection H as <-; eauto.
      unfold read_atom in Ha. cbn [index nth_error bind] in Ha.
      destruct f0; [discriminate|]. cbn [bind] in Ha.
      destruct (comprehension _ _) eqn:Hc; [discriminate|].
      cbn [bind] in Ha. injection Ha as ->.
      now apply comprehension_float_raises in Hc.
Qed.

(** Once the count line is taken, its error is not raised any more. *)
Lemma parse_records_not_missing (start : nat) (n : Z) (t : string)
    (records : list (list string)) (k : nat) :
  parse_records start n t records
  <> Raise (InvalidStructureFormat (at_line k msg_missing)).
Proof.
  unfold parse_records.
  destruct (_ || _); [discriminate|].
  destruct records as [|lfs rest]; [discriminate|].
  destruct (negb _).
  - intros [= E]. apply at_line_inj in E as [_ E]. discriminate.
  - destruct (read_records _ _ _ _) as [stru|e] eqn:Hr; cbn [bind].
    + unfold check_count. destruct (negb _); [|discriminate].
      intros [= E]. now apply msg_expected_not_at_line in E.
    + apply read_records_raise_shape in Hr as [-> | [[q ->] | [q ->]]];
        [discriminate| |]; intros [= E];
        apply at_line_inj in E as [_ E]; discriminate.
Qed.

Lemma split_records_tokens (recs : list string) :
  Forall (Forall (fun t => is_token t = true)) (map split recs).
Proof.
  apply Forall_forall. intros f Hf.
  apply in_map_iff in Hf as (l & <- & _). apply split_tokens.
Qed.

Lemma parse_records_raises (start : nat) (n : Z) (t : string)
    (recs : list string) (e : exn) :
  parse_records start n t (map split recs) = Raise e ->
  exists msg, e = InvalidStructureFormat msg.
Proof.
  unfold parse_records.
  destruct (_ || _); [discriminate|].
  destruct (map split recs) as [|lfs rest] eqn:E; [discriminate|].
  destruct (negb _); [intros [= <-]; eauto|].
  destruct (read_records _ _ _ _) as [stru|e'] eqn:Hr; cbn [bind].
  - unfold check_count. destruct (negb _); [intros [= <-]; eauto | discriminate].
  - intros [= <-]. rewrite <- E in Hr.
    eapply read_records_raises; [apply split_records_tokens | exact Hr].
Qed.

Lemma parse_records_sound (start : nat) (n : Z) (t : string)
    (records : list (list string)) (stru : Structure) :
  parse_records start n t records = Return stru ->
  title stru = t /\ lattice stru = default_lattice
  /\ ((atoms stru = [] /\ (n = 0%Z \/ forallb no_fields records = true))
      \/ (Z.of_nat (List.length (atoms stru)) = n
          /\ Forall2 (record_of 4) (filter has_fields records) (atoms stru))).
Proof.
  unfold parse_records.
  destruct (n =? 0)%Z eqn:Hn; cbn [orb].
  - intros [= <-]. apply Z.eqb_eq in Hn. simpl. auto 10.
  - destruct (forallb no_fields records) eqn:Hb.
    + intros [= <-]. simpl. auto 10.
    + destruct records as [|lfs rest]; [discriminate|].
      destruct (negb _); [discriminate|].
      destruct (read_records _ _ _ _) as [stru'|] eqn:Hr; [|discriminate].
      cbn [bind]. unfold check_count, len.
      destruct (Z.of_nat _ =? n)%Z eqn:Hc; [|discriminate].
      intros [= <-]. apply Z.eqb_eq in Hc.
      apply read_records_sound in Hr as (l & -> & Hl).
      simpl in *. auto 10.
Qed.

Lemma read_atom_element (fields : list string) (a : Atom) :
  read_atom fields = Return a ->
  exists tok rest, fields = tok :: rest /\ element a = capitalize tok.
Proof.
  destruct fields as [|tok rest]; [discriminate|].
  unfold read_atom. cbn [index nth_error bind].
  destruct tok as [|c r]; [discriminate|]. cbn [bind].
  destruct (comprehension _ _); [|discriminate].
  intros [= <-]. exists (String c r), rest. auto.
Qed.

(** An input whose block of records starts with a record of four fields,
    for a number of atoms that is not zero: the record loop runs. *)
Lemma parseLines_block (pre : list string) (cl tl g0 : string)
    (recs : list string) (n : Z) :
  Forall (fun l => skipped l = true) pre -> count_of cl = Some n ->
  n <> 0%Z -> List.length (split g0) = 4 ->
  parseLines (pre ++ cl :: tl :: g0 :: recs)
  = (stru <- read_records 4 (map split (g0 :: recs)) (List.length pre + 2)
               (set_title Structure_new (strip tl)) ;;
     check_count n stru).
Proof.
  intros Hp Hc Hn Hl.
  rewrite (parseLines_shape pre cl tl (g0 :: recs) n Hp Hc).
  now apply parse_records_read.
Qed.

Lemma record_of_length (nf : nat) (fields : list string) (a : Atom) :
  record_of nf fields a -> List.length fields = nf.
Proof. now intros [H _]. Qed.

Lemma check_count_extend (n : Z) (t : string) (l : list Atom) :
  check_count n (extend (set_title Structure_new t) l)
  = if (Z.of_nat (List.length l) =? n)%Z
    then Return {| title := t; lattice := default_lattice; atoms := l |}
    else Raise (InvalidStructureFormat (msg_expected n (Z.of_nat (List.length l)))).
Proof.
  unfold check_count, len, extend. simpl.
  now destruct (Z.of_nat (List.length l) =? n)%Z.
Qed.

Lemma parseLines_records (pre : list string) (cl tl r0 : string)
    (recs : list string) (n : Z) (l : list Atom) :
  Forall (fun l => skipped l = true) pre -> count_of cl = Some n -> n <> 0%Z ->
  has_fields (split r0) = true ->
  Forall2 (record_of 4) (filter has_fields (map split (r0 :: recs))) l ->
  parseLines (pre ++ cl :: tl :: r0 :: recs)
  = if (Z.of_nat (List.length l) =? n)%Z
    then Return {| title := strip tl; lattice := default_lattice; atoms := l |}
    else Raise (InvalidStructureFormat (msg_expected n (Z.of_nat (List.length l)))).
Proof.
  intros Hp Hc Hn Hf Hl.
  assert (H4 : List.length (split r0) = 4).
  { cbn [map filter] in Hl. rewrite Hf in Hl.
    inversion Hl; subst. eapply record_of_length; eassumption. }
  rewrite (parseLines_block pre cl tl r0 recs n Hp Hc Hn H4).
  rewrite (read_records_complete 4 _ l _ _ Hl). cbn [bind].
  apply check_count_extend.
Qed.

(** The record loop at a line whose first field is ["#"]. *)
Lemma read_records_hash (fs : list string) (rest : list (list string))
    (p_nl : nat) (stru : Structure) :
  List.length fs = 3 ->
  read_records 4 (("#" :: fs) :: rest) p_nl stru
  = match comprehension float_of fs with
    | Return xyz =>
        read_records 4 rest (p_nl + 1) (append stru {| element := "#"; xyz := xyz |})
    | Raise _ => Raise (InvalidStructureFormat (at_line (p_nl + 1) msg_number))
    end.
Proof.
  intros Hl.
  assert (Ha : read_atom ("#" :: fs)
               = (xyz <- comprehension float_of fs ;;
                  Return {| element := "#"; xyz := xyz |})).
  { unfold read_atom. cbn [index nth_error bind skipn].
    now rewrite <- Hl, firstn_all. }
  destruct (comprehension float_of fs) as [xyz|e] eqn:Hc.
  - apply read_records_record; [|reflexivity].
    split; [simpl; now rewrite Hl | now rewrite Ha].
  - apply comprehension_float_raises in Hc as Hv. subst e.
    apply read_records_number; [reflexivity | simpl; now rewrite Hl |].
    now rewrite Ha.
Qed.

Lemma extend_extend (stru : Structure) (l l' : list Atom) :
  extend (extend stru l) l' = extend stru (l ++ l').
Proof. unfold extend. simpl. now rewrite List.app_assoc. Qed.

Lemma append_extend (stru : Structure) (l : list Atom) (a : Atom) :
  append (extend stru l) a = extend stru (l ++ [a]).
Proof. unfold extend, append. simpl. now rewrite List.app_assoc. Qed.

(** A block that starts with records, up to a line of four fields. *)
Lemma parseLines_block_prefix (pre : list string) (cl tl : string)
    (good : list string) (x : string) (rest : list string) (n : Z)
    (l : list Atom) :
  Forall (fun l => skipped l = true) pre -> count_of cl = Some n -> n <> 0%Z ->
  match good with [] => True | g0 :: _ => has_fields (split g0) = true end ->
  Forall2 (record_of 4) (filter has_fields (map split good)) l ->
  List.length (split x) = 4 ->
  parseLines (pre ++ cl :: tl :: good ++ x :: rest)
  = (stru <- read_records 4 (map split (x :: rest))
               (List.length pre + 2 + List.length good)
               (extend (set_title Structure_new (strip tl)) l) ;;
     check_count n stru).
Proof.
  intros Hp Hc Hn Hg Hl Hx. destruct good as [|g0 good].
  - simpl in Hl. inversion Hl; subst. cbn [app List.length].
    rewrite (parseLines_block pre cl tl x rest n Hp Hc Hn Hx).
    now rewrite extend_nil, Nat.add_0_r.
  - assert (H4 : List.length (split g0) = 4).
    { cbn [map filter] in Hl. rewrite Hg in Hl.
      inversion Hl; subst. eapply record_of_length; eassumption. }
    cbn [app].
    rewrite (parseLines_block pre cl tl g0 _ n Hp Hc Hn H4).
    change (g0 :: good ++ x :: rest)%list with ((g0 :: good) ++ x :: rest)%list.
    rewrite map_app, (read_records_prefix 4 _ l _ _ _ Hl), length_map.
    reflexivity.
Qed.

Lemma Forall2_in_right {A B} (R : A -> B -> Prop) (xs : list A) (ys : list B) :
  Forall2 R xs ys -> forall y, In y ys -> exists x, In x xs /\ R x y.
Proof.
  induction 1 as [|x y xs ys Hxy _ IH]; intros b Hb; [contradiction|].
  destruct Hb as [<- | Hb].
  - exists x. simpl. auto.
  - destruct (IH b Hb) as (a & Ha & Hr). exists a. simpl. auto.
Qed.

(** What [parseLines] returns is fully populated, and what it raises is a
    format error. *)
Lemma parseLines_sound (lines : list string) (stru : Structure) :
  parseLines lines = Return stru -> fully_populated lines stru.
Proof.
  intros H.
  destruct (parseLines_cases lines) as [(pre & cl & tl & recs & n & E & Hp & Hc & _) | E];
    [|congruence].
  subst lines. rewrite (parseLines_shape pre cl tl recs n Hp Hc) in H.
  apply parse_records_sound in H as (Ht & Hl & Ha).
  exists pre, cl, tl, recs, n. apply count_of_iff in Hc.
  repeat (split; [assumption || reflexivity|]).
  destruct Ha as [[Ha [Hn | Hb]] | Ha]; auto.
  left. split; [assumption|]. right. now apply forallb_no_fields.
Qed.

Lemma parseLines_raises (lines : list string) (e : exn) :
  parseLines lines = Raise e -> exists msg, e = InvalidStructureFormat msg.
Proof.
  intros H.
  destruct (parseLines_cases lines) as [(pre & cl & tl & recs & n & E & Hp & Hc & _) | E].
  - subst lines. rewrite (parseLines_shape pre cl tl recs n Hp Hc) in H.
    now apply parse_records_raises in H.
  - rewrite E in H. injection H as <-. eauto.
Qed.

End Phases.

(** ** The store *)

Section StoreFacts.
Context {RT : Runtime}.

Lemma update_at_last {A} (f : A -> A) (old : list A) (x : A) :
  update_at (List.length old) f (old ++ [x]) = (old ++ [f x])%list.
Proof. induction old as [|y old IH]; simpl; [reflexivity | now rewrite IH]. Qed.

Lemma nth_last {A} (d : A) (old : list A) (x : A) :
  nth (List.length old) (old ++ [x]) d = x.
Proof. induction old as [|y old IH]; simpl; [reflexivity | exact IH]. Qed.

(** The record loop changes the object of the structure only, as the loop
    on the value does. *)
Lemma read_records_in_spec (nf : nat) (records : list (list string)) :
  forall (p_nl : nat) (lo : list (list string)) (old : list Structure)
         (s0 : Structure),
  exists s',
    read_records_in nf records p_nl (List.length old)
      {| list_objects := lo; structure_objects := (old ++ [s0])%list |}
    = (handed_back (read_records nf records p_nl s0) tt,
       {| list_objects := lo; structure_objects := (old ++ [s'])%list |})
    /\ (forall s'', read_records nf records p_nl s0 = Return s'' -> s' = s'').
Proof.
  induction records as [|fields records IH]; intros p_nl lo old s0.
  - exists s0. split; [reflexivity | now intros s'' [= <-]].
  - destruct fields as [|f0 fs]; [apply IH|].
    cbn [read_records_in read_records].
    destruct (negb _).
    + exists s0. split; [reflexivity | discriminate].
    + unfold bind_py, pure.
      destruct (try_except_value (read_atom (f0 :: fs)) _) as [a|e]; cbn [bind].
      * unfold modify. cbn [list_objects structure_objects].
        rewrite update_at_last. apply IH.
      * exists s0. split; [reflexivity | discriminate].
Qed.

Lemma read_body_in_spec (lines : list string) (lf : list (list string))
    (start : nat) (n : Z) (lo : list (list string)) (old : list Structure)
    (s0 : Structure) :
  exists s',
    read_body_in lines lf start n (List.length old)
      {| list_objects := lo; structure_objects := (old ++ [s0])%list |}
    = (handed_back (read_body lines lf start n s0) (List.length old),
       {| list_objects := lo; structure_objects := (old ++ [s'])%list |})
    /\ (forall s'', read_body lines lf start n s0 = Return s'' -> s' = s'').
Proof.
  unfold read_body_in, read_body.
  destruct (_ || _).
  - exists s0. split; [reflexivity | now intros s'' [= <-]].
  - unfold bind_py at 1. unfold pure at 1.
    destruct (index lf start) as [lfs|e]; cbn [bind].
    + destruct (negb _).
      * exists s0. split; [reflexivity | discriminate].
      * destruct (read_records_in_spec (List.length lfs) (skipn start lf) start lo old s0)
          as (s' & E & Hs).
        exists s'. unfold bind_py at 1. rewrite E.
        destruct (read_records _ _ _ s0) as [s1|e]; cbn [handed_back bind].
        -- specialize (Hs s1 eq_refl). subst s1.
           unfold bind_py, len_at, pure. cbn [structure_objects].
           rewrite nth_last.
           destruct (negb _); split; try reflexivity; try discriminate.
           now intros s'' [= <-].
        -- split; [reflexivity | discriminate].
    + exists s0. split; [reflexivity | discriminate].
Qed.

(** A call of [parseLines] leaves the list objects and the structures of
    the store as they are and adds one object; the caller gets its address
    when the call returns, and nothing when it raises. *)
Lemma parseLines_in_spec (s : Store) (r : nat) (lines : list string) :
  nth_error (list_objects s) r = Some lines ->
  exists stru',
    parseLines_in r s
    = (handed_back (parseLines lines) (List.length (structure_objects s)),
       with_new s stru')
    /\ (forall stru, parseLines lines = Return stru -> stru' = stru).
Proof.
  intros Hr. unfold parseLines_in, parseLines, with_new.
  unfold bind_py at 1. unfold deref.
  rewrite (nth_error_nth _ _ [] Hr).
  unfold bind_py at 1. unfold new_Structure.
  unfold bind_py at 1. unfold pure at 1.
  destruct (read_count lines (map split lines) _) as [[n t]|e]; cbn [bind].
  - unfold bind_py at 1. unfold modify. cbn [list_objects structure_objects].
    rewrite update_at_last. apply read_body_in_spec.
  - exists Structure_new. split; [reflexivity | discriminate].
Qed.

End StoreFacts.

(** * The properties of the specification *)

(** The example of the specification: two atoms, the title ["Title"] and
    the elements C and O. *)
Example parse_two_atoms :
  exists stru,
    parseLines ["2"; "Title"; "C 0 0 0"; "O 1 1 1"] = Return stru
    /\ title stru = "Title" /\ map element (atoms stru) = ["C"; "O"].
Proof. eexists. repeat split. Qed.

(** ** The count line *)

(** C3, as amended.  After the leading lines without fields or with first
    field ["#"], the next line, when a line follows it, is taken as the
    number of atoms exactly when it has one field that is a canonical
    decimal numeral (the [str] of an integer: no plus sign, no leading
    zero, no minus zero); [parseLines] then goes on with that number and
    never raises the count-line error.  A count line of any other shape,
    or none, raises the format error
    ["<line>: invalid XYZ format, missing number of atoms"] with the
    1-based number of that line.  Nothing is said of a count line that is
    the last line of the input. *)
Theorem count_line_canonical {RT : Runtime} (lines : list string) :
  let start := skip_leading (map split lines) 0 in
  let missing :=
    Raise (InvalidStructureFormat (at_line (start + 1) msg_missing)) in
  Forall (fun l => skipped l = true) (firstn start lines)
  /\ match nth_error lines start with
     | None => parseLines lines = missing
     | Some cl =>
         skipped cl = false
         /\ match count_of cl, nth_error lines (start + 1) with
            | Some n, Some tl =>
                split cl = [py_str n]
                /\ parseLines lines
                   = parse_records (start + 2) n (strip tl)
                       (skipn (start + 2) (map split lines))
                /\ parseLines lines <> missing
            | Some n, None => True
            | None, _ =>
                (forall n, split cl <> [py_str n]) /\ parseLines lines = missing
            end
     end.
Proof.
  cbv zeta. rewrite parseLines_spec. cbv zeta.
  destruct (skip_leading_spec lines 0) as (pre & rest & E & Hs & Hp & Hr).
  rewrite Nat.add_0_r in Hs. rewrite Hs. subst lines.
  rewrite firstn_app, Nat.sub_diag, firstn_all, List.app_nil_r.
  split; [exact Hp|].
  rewrite nth_error_app2, Nat.sub_diag by lia.
  destruct rest as [|cl rest]; cbn [nth_error]; [reflexivity|].
  split; [exact Hr|].
  destruct (count_of cl) as [n|] eqn:Hc.
  - pose proof (proj1 (count_of_iff cl n) Hc) as Hcl.
    destruct (nth_error _ _) as [tl|]; [|exact I].
    split; [exact Hcl|]. split; [reflexivity|].
    apply parse_records_not_missing.
  - split; [|reflexivity].
    intros n Hn. apply count_of_iff in Hn. congruence.
Qed.

(** The count line ["03"] is one token that [int] reads as 3, and it is
    refused. *)
Lemma count_line_leading_zero :
  split "03" = ["03"] /\ py_int "03" = Some 3%Z
  /\ parseLines ["03"; "title"]
     = Raise (InvalidStructureFormat
                "1: invalid XYZ format, missing number of atoms").
Proof. repeat split. Qed.

(** ** The title *)

(** C5, as amended.  The title of the structure that [parseLines] returns
    is the line after the count line with its leading and trailing white
    space removed; the white space inside it is kept. *)
Theorem title_is_stripped_line {RT : Runtime} (lines : list string)
    (stru : Structure) :
  parseLines lines = Return stru ->
  exists pre cl tl recs n a b,
    lines = (pre ++ cl :: tl :: recs)%list
    /\ Forall (fun l => skipped l = true) pre
    /\ split cl = [py_str n]
    /\ title stru = strip tl
    /\ tl = a ++ title stru ++ b
    /\ all_space a = true /\ all_space b = true
    /\ starts_with_space (title stru) = false
    /\ ends_with_space (title stru) = false.
Proof.
  intros H.
  destruct (parseLines_cases lines) as [(pre & cl & tl & recs & n & E & Hp & Hc & _) | E];
    [|congruence].
  subst lines. rewrite (parseLines_shape pre cl tl recs n Hp Hc) in H.
  apply parse_records_sound in H as (Ht & _).
  destruct (strip_spec tl) as (a & b & E & Ha & Hb & Hs & He).
  exists pre, cl, tl, recs, n, a, b. rewrite Ht.
  apply count_of_iff in Hc. auto 10.
Qed.

Lemma title_is_stripped_line_witness :
  exists pre cl tl recs n a b,
    ["# water"; "1"; "  two  words "; "O 0 0 0"] = (pre ++ cl :: tl :: recs)%list
    /\ Forall (fun l => skipped l = true) pre
    /\ split cl = [py_str n]
    /\ "two  words" = strip tl
    /\ tl = a ++ "two  words" ++ b
    /\ all_space a = true /\ all_space b = true
    /\ starts_with_space "two  words" = false
    /\ ends_with_space "two  words" = false.
Proof.
  apply (title_is_stripped_line (RT := Binary64.runtime)
           ["# water"; "1"; "  two  words "; "O 0 0 0"]
           (Binary64.structure "two  words"
              [Binary64.atom "O" [Binary64.zero; Binary64.zero; Binary64.zero]])).
  reflexivity.
Defined.

(** The title line [" T "] gives the title ["T"]. *)
Lemma title_not_verbatim :
  exists stru, parseLines ["0"; " T "] = Return stru
               /\ title stru = "T" /\ title stru <> " T ".
Proof. eexists. split; [reflexivity|]. split; [reflexivity | discriminate]. Qed.

(** ** A negative number of atoms *)

(** C9, as amended.  A count line that is the canonical numeral of a
    negative integer, followed by a title line and by lines without fields
    only, gives a structure without atoms and no error. *)
Theorem negative_count_accepted {RT : Runtime} (pre : list string)
    (cl tl : string) (post : list string) (n : Z) :
  Forall (fun l => skipped l = true) pre ->
  split cl = [py_str n] -> (n < 0)%Z ->
  Forall (fun l => blank l = true) post ->
  parseLines (pre ++ cl :: tl :: post)
  = Return (set_title Structure_new (strip tl)).
Proof.
  intros Hp Hc _ Hb. apply count_of_iff in Hc.
  rewrite (parseLines_shape pre cl tl post n Hp Hc).
  apply parse_records_empty. right. now apply forallb_no_fields.
Qed.

Lemma negative_count_accepted_witness :
  parseLines (["# comment"; ""] ++ "-2" :: " no atoms " :: ["  "])
  = Return (set_title Structure_new (strip " no atoms ")).
Proof.
  apply (negative_count_accepted (RT := Binary64.runtime)
           ["# comment"; ""] "-2" " no atoms " ["  "] (-2)).
  - repeat constructor.
  - reflexivity.
  - reflexivity.
  - repeat constructor.
Defined.

(** The count line ["-02"] is one token that [int] reads as -2, and it is
    refused. *)
Lemma negative_count_leading_zero :
  split "-02" = ["-02"] /\ py_int "-02" = Some (-2)%Z
  /\ parseLines ["-02"; "title"]
     = Raise (InvalidStructureFormat
                "1: invalid XYZ format, missing number of atoms").
Proof. repeat split. Qed.

(** ** The number of atoms *)

(** C2, as amended.  For a count line that declares [n] atoms: when [n] is
    not zero and the line after the title is a record, and every line with
    fields of the block is a record of four columns with three numbers,
    [parseLines] returns the atoms of these records if they are as many as
    declared, and otherwise raises the format error
    ["expected N atoms, read M"]; when no line with fields follows the
    title, it returns a structure without atoms whatever [n] is. *)
Theorem atom_count_checked {RT : Runtime} (pre : list string) (cl tl : string)
    (n : Z) :
  Forall (fun l => skipped l = true) pre ->
  split cl = [py_str n] ->
  (forall (r0 : string) (recs : list string) (l : list Atom),
      n <> 0%Z -> has_fields (split r0) = true ->
      Forall2 (record_of 4) (filter has_fields (map split (r0 :: recs))) l ->
      parseLines (pre ++ cl :: tl :: r0 :: recs)
      = if (Z.of_nat (List.length l) =? n)%Z
        then Return {| title := strip tl; lattice := default_lattice; atoms := l |}
        else Raise (InvalidStructureFormat
                      ("expected " ++ py_str n ++ " atoms, read "
                       ++ py_str (Z.of_nat (List.length l)))))
  /\ (forall post : list string,
        Forall (fun l => blank l = true) post ->
        parseLines (pre ++ cl :: tl :: post)
        = Return {| title := strip tl; lattice := default_lattice; atoms := [] |}).
Proof.
  intros Hp Hc. apply count_of_iff in Hc. split.
  - intros r0 recs l Hn Hf Hl.
    apply (parseLines_records pre cl tl r0 recs n l Hp Hc Hn Hf Hl).
  - intros post Hb. rewrite (parseLines_shape pre cl tl post n Hp Hc).
    apply parse_records_empty. right. now apply forallb_no_fields.
Qed.

Lemma atom_count_checked_witness :
  parseLines ([] ++ "3" :: "Title" :: "C 0 0 0" :: ["O 1 1 1"])
  = Raise (InvalidStructureFormat "expected 3 atoms, read 2").
Proof.
  refine (proj1 (atom_count_checked (RT := Binary64.runtime)
                   [] "3" "Title" 3 _ _)
            "C 0 0 0" ["O 1 1 1"]
            [Binary64.atom "C" [Binary64.zero; Binary64.zero; Binary64.zero];
             Binary64.atom "O" [Binary64.one; Binary64.one; Binary64.one]]
            _ _ _).
  - constructor.
  - reflexivity.
  - discriminate.
  - reflexivity.
  - repeat constructor.
Defined.

(** Three atoms are declared and no record follows the title: the parse
    returns a structure without atoms. *)
Lemma declared_count_without_records :
  exists stru, parseLines ["3"; "title"] = Return stru /\ atoms stru = [].
Proof. eexists. split; reflexivity. Qed.

(** ** The columns of the records *)

(** C4, as amended.  For a number of atoms that is not zero and a block
    that starts with a line with fields: if that line has not four fields
    the parse fails at it; if a later line with fields has not four fields,
    the lines before it being records, the parse fails at it with
    ["all lines must have the same number of columns"]; and when all lines
    with fields are records, as many as declared, the atoms returned are
    those of the lines with fields. *)
Theorem record_columns_uniform {RT : Runtime} (pre : list string)
    (cl tl r0 : string) (n : Z) :
  Forall (fun l => skipped l = true) pre ->
  split cl = [py_str n] -> n <> 0%Z ->
  has_fields (split r0) = true ->
  (forall rest, List.length (split r0) <> 4 ->
     parseLines (pre ++ cl :: tl :: r0 :: rest)
     = Raise (InvalidStructureFormat
                (at_line (List.length pre + 3)
                   "invalid XYZ format, expected 4 columns")))
  /\ (forall good bad rest l,
        Forall2 (record_of 4) (filter has_fields (map split (r0 :: good))) l ->
        has_fields (split bad) = true -> List.length (split bad) <> 4 ->
        parseLines (pre ++ cl :: tl :: r0 :: good ++ bad :: rest)
        = Raise (InvalidStructureFormat
                   (at_line (List.length pre + List.length good + 4)
                      "all lines must have the same number of columns")))
  /\ (forall recs l,
        Forall2 (record_of 4) (filter has_fields (map split (r0 :: recs))) l ->
        Z.of_nat (List.length l) = n ->
        parseLines (pre ++ cl :: tl :: r0 :: recs)
        = Return {| title := strip tl; lattice := default_lattice; atoms := l |}).
Proof.
  intros Hp Hc Hn Hf. pose proof Hc as Hc'. apply count_of_iff in Hc.
  split; [|split].
  - intros rest Hl.
    rewrite (parseLines_shape pre cl tl (r0 :: rest) n Hp Hc).
    replace (List.length pre + 3) with (List.length pre + 2 + 1) by lia.
    apply parse_records_columns4; [assumption| |assumption].
    cbn [map forallb]. unfold has_fields in Hf.
    apply negb_true_iff in Hf. now rewrite Hf.
  - intros good bad rest l Hl Hb Hlb.
    assert (H4 : List.length (split r0) = 4).
    { cbn [map filter] in Hl. rewrite Hf in Hl.
      inversion Hl; subst. eapply record_of_length; eassumption. }
    rewrite (parseLines_block pre cl tl r0 _ n Hp Hc Hn H4).
    change (r0 :: good ++ bad :: rest)%list
      with ((r0 :: good) ++ bad :: rest)%list.
    rewrite map_app.
    rewrite (read_records_prefix 4 _ l _ _ _ Hl), length_map. cbn [map].
    rewrite read_records_columns by assumption. cbn [bind].
    do 3 f_equal. simpl. lia.
  - intros recs l Hl Hlen.
    rewrite (parseLines_records pre cl tl r0 recs n l Hp Hc Hn Hf Hl).
    apply Z.eqb_eq in Hlen. now rewrite Hlen.
Qed.

Lemma record_columns_uniform_witness :
  parseLines (["# C2"] ++ "2" :: "t" :: "C 0 0 0" :: [""; "C 1 1 1"] ++ "C 2 2" :: [])
  = Raise (InvalidStructureFormat
             "7: all lines must have the same number of columns").
Proof.
  refine (proj1 (proj2 (record_columns_uniform (RT := Binary64.runtime)
            ["# C2"] "2" "t" "C 0 0 0" 2 _ _ _ _))
            [""; "C 1 1 1"] "C 2 2" []
            [Binary64.atom "C" [Binary64.zero; Binary64.zero; Binary64.zero];
             Binary64.atom "C" [Binary64.one; Binary64.one; Binary64.one]] _ _ _).
  - repeat constructor.
  - reflexivity.
  - discriminate.
  - reflexivity.
  - repeat constructor.
  - reflexivity.
  - discriminate.
Defined.

(** No atom is declared: the line after the title has two fields, and the
    parse returns a structure without atoms. *)
Lemma zero_count_skips_column_check :
  exists stru, parseLines ["0"; "title"; "a b"] = Return stru /\ atoms stru = [].
Proof. eexists. split; reflexivity. Qed.

(** ** Lines that start with ["#"] *)

(** C10, as amended.  Lines whose first field is ["#"] are passed over
    before the count line only.  For a number of atoms that is not zero and
    a block whose lines before it are records, such a line is read as a
    record: with four fields and three numbers it is appended as an atom of
    element ["#"] and the loop goes on, and otherwise the parse fails at
    that line with a format error. *)
Theorem hash_line_is_a_record {RT : Runtime} (pre : list string)
    (cl tl : string) (good : list string) (hash : string)
    (rest : list string) (n : Z) (l : list Atom) (fs : list string) :
  Forall (fun l => skipped l = true) pre ->
  split cl = [py_str n] -> n <> 0%Z ->
  match good with [] => True | g0 :: _ => has_fields (split g0) = true end ->
  Forall2 (record_of 4) (filter has_fields (map split good)) l ->
  split hash = "#" :: fs ->
  let p_nl := List.length pre + List.length good + 3 in
  parseLines (pre ++ cl :: tl :: good ++ hash :: rest)
  = if (List.length fs =? 3)%nat then
      match comprehension float_of fs with
      | Return xyz =>
          stru <- read_records 4 (map split rest) p_nl
                    (extend (set_title Structure_new (strip tl))
                       (l ++ [{| element := "#"; xyz := xyz |}])) ;;
          check_count n stru
      | Raise _ => Raise (InvalidStructureFormat (at_line p_nl msg_number))
      end
    else
      Raise (InvalidStructureFormat
               (at_line p_nl
                  match good with [] => msg_columns4 | _ => msg_columns end)).
Proof.
  intros Hp Hc Hn Hg Hl Hh p_nl. subst p_nl. apply count_of_iff in Hc.
  destruct (List.length fs =? 3)%nat eqn:H3.
  - apply Nat.eqb_eq in H3.
    assert (H4 : List.length (split hash) = 4) by (rewrite Hh; simpl; lia).
    rewrite (parseLines_block_prefix pre cl tl good hash rest n l Hp Hc Hn Hg Hl H4).
    cbn [map]. rewrite Hh, (read_records_hash fs _ _ _ H3).
    replace (List.length pre + 2 + List.length good + 1)
      with (List.length pre + List.length good + 3) by lia.
    destruct (comprehension float_of fs); [|reflexivity].
    now rewrite append_extend.
  - apply Nat.eqb_neq in H3.
    assert (H4 : List.length (split hash) <> 4) by (rewrite Hh; simpl; lia).
    destruct good as [|g0 good].
    + cbn [app List.length].
      rewrite (parseLines_shape pre cl tl (hash :: rest) n Hp Hc).
      replace (List.length pre + 0 + 3) with (List.length pre + 2 + 1) by lia.
      apply parse_records_columns4; [assumption| |assumption].
      cbn [map forallb]. now rewrite Hh.
    + assert (Hg4 : List.length (split g0) = 4).
      { cbn [map filter] in Hl. rewrite Hg in Hl.
        inversion Hl; subst. eapply record_of_length; eassumption. }
      cbn [app].
      rewrite (parseLines_block pre cl tl g0 _ n Hp Hc Hn Hg4).
      change (g0 :: good ++ hash :: rest)%list
        with ((g0 :: good) ++ hash :: rest)%list.
      rewrite map_app, (read_records_prefix 4 _ l _ _ _ Hl), length_map.
      cbn [map]. rewrite read_records_columns;
        [|now rewrite Hh|assumption].
      cbn [bind]. do 3 f_equal. simpl. lia.
Qed.

Lemma hash_line_is_a_record_witness :
  parseLines (["# before the count"] ++ "2" :: "t" :: ["C 0 0 0"] ++ "# 1 1 1" :: [])
  = Return (Binary64.structure "t"
              [Binary64.atom "C" [Binary64.zero; Binary64.zero; Binary64.zero];
               Binary64.atom "#" [Binary64.one; Binary64.one; Binary64.one]]).
Proof.
  apply (hash_line_is_a_record (RT := Binary64.runtime)
           ["# before the count"] "2" "t" ["C 0 0 0"] "# 1 1 1" [] 2
           [Binary64.atom "C" [Binary64.zero; Binary64.zero; Binary64.zero]]
           ["1"; "1"; "1"]).
  - repeat constructor.
  - reflexivity.
  - discriminate.
  - reflexivity.
  - repeat constructor.
  - reflexivity.
Defined.

(** No atom is declared: the line ["# 1 2 3"] after the title is neither
    appended as an atom nor the cause of an error. *)
Lemma zero_count_skips_hash_line :
  exists stru, parseLines ["0"; "title"; "# 1 2 3"] = Return stru
               /\ atoms stru = [].
Proof. eexists. split; reflexivity. Qed.

(** ** All or nothing *)



(** ** Writing and reading back *)

Section RoundTrip.
Context {RT : Runtime}.

Lemma all_space_spaces (k : nat) : all_space (spaces k) = true.
Proof. induction k; simpl; auto. Qed.

Lemma split_from_token_sep (t sp s : string) :
  is_token t = true -> all_space sp = true -> is_empty sp = false ->
  split_from "" (t ++ sp ++ s) = t :: split_from "" s.
Proof.
  intros Ht Hsp Hne. destruct sp as [|c sp]; [discriminate|].
  simpl in Hsp. apply andb_true_iff in Hsp as [Hc Hsp]. simpl.
  rewrite split_from_token_space by assumption.
  f_equal. now apply split_from_all_space.
Qed.

(** The fields of a line written by [toLines]. *)
Lemma split_record_line (el gx gy gz : string) :
  is_token el = true -> is_token gx = true ->
  is_token gy = true -> is_token gz = true ->
  split (ljust 3 el ++ " " ++ gx ++ " " ++ gy ++ " " ++ gz) = [el; gx; gy; gz].
Proof.
  intros He Hx Hy Hz. unfold split, ljust.
  rewrite append_assoc.
  replace (spaces (3 - String.length el) ++ " " ++ gx ++ " " ++ gy ++ " " ++ gz)
    with ((spaces (3 - String.length el) ++ " ") ++ gx ++ " " ++ gy ++ " " ++ gz)
    by (now rewrite append_assoc).
  rewrite split_from_token_sep; try assumption.
  - rewrite (split_from_token_sep gx " "); try assumption; try reflexivity.
    rewrite (split_from_token_sep gy " "); try assumption; try reflexivity.
    fold (split gz). now rewrite (split_token gz Hz).
  - now rewrite all_space_append, all_space_spaces.
  - rewrite append_is_empty. apply andb_false_iff. now right.
Qed.

Lemma atom_line_record (stru : Structure) (a : Atom) :
  expressible stru a ->
  exists r, atom_line stru a = Return r
            /\ has_fields (split r) = true /\ record_of 4 (split r) a.
Proof.
  intros (He & Hc & Hx & Hl & Hv). unfold atom_line. rewrite Hx.
  destruct a as [el c]. simpl in *.
  destruct c as [|x [|y [|z [|]]]]; try discriminate.
  inversion Hv as [|? ? [Hxt Hxf] Hv1]; subst.
  inversion Hv1 as [|? ? [Hyt Hyf] Hv2]; subst.
  inversion Hv2 as [|? ? [Hzt Hzf] _]; subst.
  eexists. split; [reflexivity|].
  change (ljust 3 el
          ++ String " " (fmt_g x ++ String " " (fmt_g y ++ String " " (fmt_g z))))
    with (ljust 3 el ++ " " ++ fmt_g x ++ " " ++ fmt_g y ++ " " ++ fmt_g z).
  rewrite split_record_line by assumption.
  split; [reflexivity|]. split; [reflexivity|].
  unfold read_atom. cbn [index nth_error bind skipn firstn comprehension].
  unfold float_of. rewrite Hxf, Hyf, Hzf. cbn [bind].
  destruct el as [|ch r]; [discriminate|]. simpl in Hc. cbn [bind].
  unfold upper. simpl. now rewrite Hc.
Qed.

Lemma comprehension_atom_lines (stru : Structure) (l : list Atom) :
  Forall (expressible stru) l ->
  exists records,
    comprehension (atom_line stru) l = Return records
    /\ Forall (fun r => has_fields (split r) = true) records
    /\ Forall2 (record_of 4) (map split records) l.
Proof.
  induction 1 as [|a l Ha _ (records & E & Hf & Hr)].
  - exists []. repeat split; constructor.
  - destruct (atom_line_record stru a Ha) as (r & Er & Hfr & Hrr).
    exists (r :: records). simpl. rewrite Er, E. simpl.
    repeat split; constructor; assumption.
Qed.

Lemma filter_has_fields_id (records : list string) :
  Forall (fun r => has_fields (split r) = true) records ->
  filter has_fields (map split records) = map split records.
Proof.
  induction 1 as [|r records Hr _ IH]; [reflexivity|].
  simpl. now rewrite Hr, IH.
Qed.

Lemma toLines_parseLines (stru : Structure) :
  strip (title stru) = title stru ->
  Forall (expressible stru) (atoms stru) ->
  exists lines,
    toLines stru = Return lines
    /\ parseLines lines
       = Return {| title := title stru; lattice := default_lattice;
                   atoms := atoms stru |}.
Proof.
  intros Ht Ha.
  destruct (comprehension_atom_lines stru (atoms stru) Ha) as (records & E & Hf & Hr).
  exists (py_str (len stru) :: title stru :: records).
  unfold toLines. rewrite E. split; [reflexivity|].
  assert (Hc : count_of (py_str (len stru)) = Some (len stru))
    by (apply count_of_iff, split_py_str).
  destruct records as [|r0 recs].
  - assert (E0 : atoms stru = []) by (now inversion Hr).
    unfold len in *. rewrite E0 in *.
    change (parseLines ([] ++ py_str 0%Z :: title stru :: [])
            = Return {| title := title stru; lattice := default_lattice; atoms := [] |}).
    rewrite (parseLines_shape [] _ _ [] 0%Z (Forall_nil _) Hc).
    rewrite parse_records_empty by now left.
    unfold set_title, Structure_new. simpl. now rewrite Ht.
  - inversion Hf; subst.
    rewrite <- (filter_has_fields_id (r0 :: recs) Hf) in Hr.
    assert (Hn : len stru <> 0%Z).
    { unfold len. apply Forall2_length in Hr. rewrite <- Hr.
      rewrite filter_has_fields_id by assumption. simpl. lia. }
    change (py_str (len stru) :: title stru :: r0 :: recs)
      with ([] ++ py_str (len stru) :: title stru :: r0 :: recs)%list.
    rewrite (parseLines_records [] _ (title stru) r0 recs (len stru) (atoms stru));
      try assumption; [|constructor].
    unfold len. now rewrite Z.eqb_refl, Ht.
Qed.

End RoundTrip.

(** C1, as amended.  For a structure whose title has no white space at its
    ends and whose atoms can be held by the format (an element that is one
    token in normalized case, and three coordinates that the lattice leaves
    unchanged and that ["%g"] writes as a token from which [float] reads the
    same value back), the lines of [toLines] are parsed by [parseLines]
    into a structure with the same title and the same atoms: the same
    count, elements and coordinates. *)
Theorem xyz_round_trip {RT : Runtime} (stru : Structure) :
  strip (title stru) = title stru ->
  Forall (fun a =>
            is_token (element a) = true
            /\ capitalize (element a) = element a
            /\ cartesian stru a = xyz a
            /\ List.length (xyz a) = 3
            /\ Forall (fun v => is_token (fmt_g v) = true
                                /\ py_float (fmt_g v) = Some v) (xyz a))
         (atoms stru) ->
  exists lines,
    toLines stru = Return lines
    /\ parseLines lines
       = Return {| title := title stru; lattice := default_lattice;
                   atoms := atoms stru |}.
Proof. exact (toLines_parseLines stru). Qed.

Lemma xyz_round_trip_witness :
  exists lines,
    toLines (Binary64.structure "two atoms"
               [Binary64.atom "C" [Binary64.zero; Binary64.zero; Binary64.zero];
                Binary64.atom "Na" [Binary64.one; Binary64.zero; Binary64.one]])
    = Return lines
    /\ parseLines lines
       = Return (Binary64.structure "two atoms"
                   [Binary64.atom "C" [Binary64.zero; Binary64.zero; Binary64.zero];
                    Binary64.atom "Na" [Binary64.one; Binary64.zero; Binary64.one]]).
Proof.
  apply (xyz_round_trip (RT := Binary64.runtime)
           (Binary64.structure "two atoms"
              [Binary64.atom "C" [Binary64.zero; Binary64.zero; Binary64.zero];
               Binary64.atom "Na" [Binary64.one; Binary64.zero; Binary64.one]])).
  - reflexivity.
  - repeat constructor.
Defined.

(** The structure read from a record with the coordinate [0.1234567] is
    written with ["%g"] as [0.123457], which reads back as another number. *)
Lemma round_trip_loses_digits :
  exists stru stru',
    parseLines ["1"; "t"; "C 0.1234567 0 0"] = Return stru
    /\ toLines stru = Return ["1"; "t"; "C   0.123457 0 0"]
    /\ parseLines ["1"; "t"; "C   0.123457 0 0"] = Return stru'
    /\ map xyz (atoms stru') <> map xyz (atoms stru).
Proof.
  do 2 eexists. split; [reflexivity|]. split; [reflexivity|].
  split; [reflexivity|]. vm_compute. discriminate.
Qed.

(** * Further properties of [parseLines] and [toLines] *)

Section Edges.
Context {RT : Runtime}.

(** The input after its leading passed-over lines decides the parse. *)
Lemma parseLines_normal (pre rest : list string) :
  Forall (fun l => skipped l = true) pre ->
  match rest with [] => True | l :: _ => skipped l = false end ->
  parseLines (pre ++ rest)
  = match rest with
    | cl :: tl :: recs =>
        match count_of cl with
        | Some n =>
            parse_records (List.length pre + 2) n (strip tl) (map split recs)
        | None =>
            Raise (InvalidStructureFormat (at_line (List.length pre + 1) msg_missing))
        end
    | _ => Raise (InvalidStructureFormat (at_line (List.length pre + 1) msg_missing))
    end.
Proof.
  intros Hp Hr. rewrite parseLines_spec. cbv zeta.
  assert (Hs : skip_leading (map split (pre ++ rest)) 0 = List.length pre).
  { rewrite skip_leading_app by assumption. destruct rest as [|l rest].
    - simpl. lia.
    - rewrite skip_leading_stop by assumption. lia. }
  rewrite Hs. rewrite nth_error_app2, Nat.sub_diag by lia.
  destruct rest as [|cl rest]; cbn [nth_error]; [reflexivity|].
  rewrite nth_error_app2 by lia.
  replace (List.length pre + 1 - List.length pre) with 1 by lia.
  destruct rest as [|tl recs]; cbn [nth_error];
    [now destruct (count_of cl)|].
  destruct (count_of cl) as [n|]; [|reflexivity].
  f_equal. rewrite skipn_map. f_equal.
  rewrite skipn_app, skipn_all2 by lia.
  now replace (List.length pre + 2 - List.length pre) with 2 by lia.
Qed.

Lemma read_records_all_blank (nf : nat) (post : list (list string)) :
  forallb no_fields post = true ->
  forall (p_nl : nat) (stru : Structure),
  read_records nf post p_nl stru = Return stru.
Proof.
  induction post as [|f post IH]; intros H p_nl stru; [reflexivity|].
  simpl in H. apply andb_true_iff in H as [Hf H].
  destruct f; [|discriminate]. rewrite read_records_blank. now apply IH.
Qed.

Lemma read_records_trailing (nf : nat) (recs post : list (list string)) :
  forallb no_fields post = true ->
  forall (p_nl : nat) (stru : Structure),
  read_records nf (recs ++ post) p_nl stru = read_records nf recs p_nl stru.
Proof.
  intros Hb. induction recs as [|f recs IH]; intros p_nl stru.
  - now apply read_records_all_blank.
  - destruct f as [|f0 fs].
    + cbn [app]. rewrite !read_records_blank. apply IH.
    + cbn [app read_records]. destruct (negb _); [reflexivity|].
      destruct (try_except_value _ _); cbn [bind]; [apply IH | reflexivity].
Qed.

Lemma parse_records_trailing (start : nat) (n : Z) (t : string)
    (recs post : list (list string)) :
  forallb no_fields post = true ->
  parse_records start n t (recs ++ post) = parse_records start n t recs.
Proof.
  intros Hb. unfold parse_records.
  rewrite forallb_app, Hb, andb_true_r.
  destruct (_ || _) eqn:E; [reflexivity|].
  destruct recs as [|lfs rest].
  - simpl in E. now rewrite orb_true_r in E.
  - cbn [app]. destruct (negb _); [reflexivity|].
    change (lfs :: rest ++ post)%list with ((lfs :: rest) ++ post)%list.
    now rewrite read_records_trailing.
Qed.

End Edges.

(** X1.  Blank lines at the end of an input that has a line after its
    count line change nothing: the parse returns the same structure, or
    raises the same error. *)
Theorem trailing_blank_lines_ignored {RT : Runtime} (lines post : list string) :
  skip_leading (map split lines) 0 + 1 < List.length lines ->
  Forall (fun l => blank l = true) post ->
  parseLines (lines ++ post) = parseLines lines.
Proof.
  intros Hlen Hb.
  destruct (skip_leading_spec lines 0) as (pre & rest & E & Hs & Hp & Hr).
  rewrite Hs in Hlen. subst lines. rewrite length_app in Hlen.
  destruct rest as [|cl [|tl recs]]; simpl in Hlen; try lia.
  rewrite <- List.app_assoc. cbn [app].
  change (cl :: tl :: recs ++ post)%list with (cl :: tl :: (recs ++ post))%list.
  rewrite !parseLines_normal by assumption.
  destruct (count_of cl); [|reflexivity].
  rewrite map_app. apply parse_records_trailing.
  now apply forallb_no_fields.
Qed.

Lemma trailing_blank_lines_ignored_witness :
  parseLines (["# c"; "2"; "t"; "C 0 0 0"; "O 1 x 1"] ++ [""; "   "])
  = parseLines ["# c"; "2"; "t"; "C 0 0 0"; "O 1 x 1"].
Proof.
  apply (trailing_blank_lines_ignored (RT := Binary64.runtime)).
  - vm_compute. lia.
  - repeat constructor.
Defined.

(** X2.  An input with at most one line after its leading blank lines and
    lines of first field ["#"] has no title line and is refused, whatever
    that line is: the error is the missing number of atoms, at the line
    after the leading ones.  The empty input is refused at line 1. *)
Theorem input_without_title_line {RT : Runtime} (pre rest : list string) :
  Forall (fun l => skipped l = true) pre ->
  match rest with
  | [] => True
  | [cl] => skipped cl = false
  | _ => False
  end ->
  parseLines (pre ++ rest)
  = Raise (InvalidStructureFormat
             (py_str (Z.of_nat (List.length pre + 1))
              ++ ": invalid XYZ format, missing number of atoms")).
Proof.
  intros Hp Hr. destruct rest as [|cl [|tl recs]]; try contradiction.
  - now rewrite parseLines_normal.
  - rewrite parseLines_normal by assumption. now destruct (count_of cl).
Qed.

Lemma input_without_title_line_witness :
  parseLines (["# only a count"; ""] ++ ["3"])
  = Raise (InvalidStructureFormat "3: invalid XYZ format, missing number of atoms").
Proof.
  apply (input_without_title_line (RT := Binary64.runtime)
           ["# only a count"; ""] ["3"]).
  - repeat constructor.
  - reflexivity.
Defined.

(** X3.  With a count line ["0"], everything after the title line is left
    unread: the parse returns the structure without atoms, with the
    stripped title, whatever the lines that follow are. *)
Theorem zero_count_reads_no_record {RT : Runtime} (pre : list string)
    (cl tl : string) (recs : list string) :
  Forall (fun l => skipped l = true) pre ->
  split cl = ["0"] ->
  parseLines (pre ++ cl :: tl :: recs)
  = Return {| title := strip tl; lattice := default_lattice; atoms := [] |}.
Proof.
  intros Hp Hc. apply (count_of_iff cl 0%Z) in Hc.
  rewrite (parseLines_shape pre cl tl recs 0%Z Hp Hc).
  apply parse_records_empty. now left.
Qed.

Lemma zero_count_reads_no_record_witness :
  parseLines ([""] ++ " 0 " :: " none " :: ["C 0 0"; "not a record at all"; "O x y z"])
  = Return (Binary64.structure "none" []).
Proof.
  apply (zero_count_reads_no_record (RT := Binary64.runtime)
           [""] " 0 " " none " ["C 0 0"; "not a record at all"; "O x y z"]).
  - repeat constructor.
  - reflexivity.
Defined.

(** X4.  For a number of atoms that is not zero, a blank line directly
    after the title, with a line with fields somewhere after it, is taken
    as the first record: the parse fails at that line for its columns. *)
Theorem blank_line_after_title {RT : Runtime} (pre : list string)
    (cl tl r0 : string) (recs : list string) (n : Z) :
  Forall (fun l => skipped l = true) pre ->
  split cl = [py_str n] -> n <> 0%Z ->
  blank r0 = true ->
  Exists (fun l => blank l = false) recs ->
  parseLines (pre ++ cl :: tl :: r0 :: recs)
  = Raise (InvalidStructureFormat
             (py_str (Z.of_nat (List.length pre + 3))
              ++ ": invalid XYZ format, expected 4 columns")).
Proof.
  intros Hp Hc Hn Hb He. apply count_of_iff in Hc.
  rewrite (parseLines_shape pre cl tl (r0 :: recs) n Hp Hc).
  replace (List.length pre + 3) with (List.length pre + 2 + 1) by lia.
  apply parse_records_columns4; [assumption| |].
  - apply not_true_is_false. intros E.
    apply (proj1 (forallb_no_fields (r0 :: recs))) in E.
    inversion E as [|? ? _ E']; subst.
    apply Exists_exists in He as (l & Hl & Hbl).
    rewrite Forall_forall in E'. rewrite (E' l Hl) in Hbl. discriminate.
  - rewrite <- no_fields_split in Hb. unfold no_fields in Hb.
    apply Nat.eqb_eq in Hb. rewrite Hb. discriminate.
Qed.

Lemma blank_line_after_title_witness :
  parseLines ([] ++ "1" :: "t" :: "" :: ["C 0 0 0"])
  = Raise (InvalidStructureFormat "3: invalid XYZ format, expected 4 columns").
Proof.
  apply (blank_line_after_title (RT := Binary64.runtime)
           [] "1" "t" "" ["C 0 0 0"] 1).
  - constructor.
  - reflexivity.
  - discriminate.
  - reflexivity.
  - constructor. reflexivity.
Defined.

(** ** What the lines after the title give, whatever their place *)

Section Outcomes.
Context {RT : Runtime}.

(** The record loop on fields made by [split]: it appends one atom for
    each record with fields, or stops at its [d]-th line for the columns
    or the numbers of that line; the line it starts at only moves the
    number in the message. *)
Lemma read_records_outcome (nf : nat) (recs : list (list string)) :
  Forall (Forall (fun t => is_token t = true)) recs ->
  forall stru : Structure,
  (exists l, Forall2 (record_of nf) (filter has_fields recs) l
             /\ forall p, read_records nf recs p stru = Return (extend stru l))
  \/ (exists d r, 1 <= d <= List.length recs
                  /\ (r = msg_columns \/ r = msg_number)
                  /\ forall p, read_records nf recs p stru
                               = Raise (InvalidStructureFormat (at_line (p + d) r))).
Proof.
  induction 1 as [|fields recs Hf _ IH]; intros stru.
  - left. exists []. split; [constructor|]. intros p. now rewrite extend_nil.
  - destruct fields as [|f0 fs].
    + destruct (IH stru) as [(l & Hl & E) | (d & r & Hd & Hr & E)].
      * left. exists l. split; [exact Hl|].
        intros p. now rewrite read_records_blank.
      * right. exists (S d), r. split; [simpl; lia|]. split; [exact Hr|].
        intros p. rewrite read_records_blank, E.
        now replace (p + S d) with (p + 1 + d) by lia.
    + destruct (Nat.eq_dec (List.length (f0 :: fs)) nf) as [Hlen | Hlen].
      * destruct (read_atom (f0 :: fs)) as [a|e] eqn:Ha.
        -- assert (Hrec : record_of nf (f0 :: fs) a) by now split.
           destruct (IH (append stru a)) as [(l & Hl & E) | (d & r & Hd & Hr & E)].
           ++ left. exists (a :: l). split.
              ** cbn [filter]. change (has_fields (f0 :: fs)) with true.
                 now constructor.
              ** intros p.
                 rewrite (read_records_record nf _ _ _ _ a Hrec eq_refl).
                 now rewrite E, extend_append.
           ++ right. exists (S d), r. split; [simpl; lia|]. split; [exact Hr|].
              intros p.
              rewrite (read_records_record nf _ _ _ _ a Hrec eq_refl), E.
              now replace (p + S d) with (p + 1 + d) by lia.
        -- assert (He : e = ValueError)
             by (apply (read_atom_raises (f0 :: fs)); [assumption|discriminate|exact Ha]).
           subst e. right. exists 1, msg_number. split; [simpl; lia|].
           split; [now right|]. intros p. now apply read_records_number.
      * right. exists 1, msg_columns. split; [simpl; lia|].
        split; [now left|]. intros p. now apply read_records_columns.
Qed.

(** The three outcomes of the lines after the title: a structure, an
    error at the [d]-th of them, or a number of atoms that is not the one
    declared. *)
Lemma parse_records_outcome (n : Z) (t : string) (recs : list string) :
  (exists stru, forall s, parse_records s n t (map split recs) = Return stru)
  \/ (exists d r, 1 <= d <= List.length recs
                  /\ In r [msg_columns4; msg_columns; msg_number]
                  /\ forall s, parse_records s n t (map split recs)
                               = Raise (InvalidStructureFormat (at_line (s + d) r)))
  \/ (exists m, (1 <= m <= Z.of_nat (List.length recs))%Z /\ m <> n
                /\ forall s, parse_records s n t (map split recs)
                             = Raise (InvalidStructureFormat (msg_expected n m))).
Proof.
  unfold parse_records.
  destruct ((n =? 0)%Z || forallb no_fields (map split recs)) eqn:Hg;
    [left; eexists; reflexivity|].
  destruct recs as [|r0 recs]; [left; eexists; reflexivity|].
  cbn [map].
  destruct (Nat.eqb_spec (List.length (split r0)) 4) as [H4|H4]; cbn [negb].
  - destruct (read_records_outcome 4 (map split (r0 :: recs))
                (split_records_tokens (r0 :: recs))
                (set_title Structure_new t))
      as [(l & Hl & E) | (d & r & Hd & Hr & E)]; cbn [map] in *.
    + destruct (Z.eqb_spec (Z.of_nat (List.length l)) n) as [Hn|Hn].
      * left. exists {| title := t; lattice := default_lattice; atoms := l |}.
        intros s. rewrite E. cbn [bind]. rewrite check_count_extend.
        now rewrite (proj2 (Z.eqb_eq _ _) Hn).
      * right; right. exists (Z.of_nat (List.length l)).
        apply Forall2_length in Hl.
        assert (Hf : has_fields (split r0) = true)
          by (unfold has_fields, no_fields; now rewrite H4).
        split; [|split; [exact Hn|]].
        -- rewrite <- Hl. cbn [filter]. rewrite Hf.
           pose proof (filter_length_le has_fields (map split recs)) as Hle.
           rewrite length_map in Hle. simpl. lia.
        -- intros s. rewrite E. cbn [bind]. rewrite check_count_extend.
           now rewrite (proj2 (Z.eqb_neq _ _) Hn).
    + right; left. exists d, r.
      split; [simpl in *; rewrite length_map in Hd; lia|]. split; [destruct Hr as [-> | ->]; simpl; auto|].
      intros s. now rewrite E.
  - right; left. exists 1, msg_columns4. split; [simpl; lia|].
    split; [simpl; auto|]. reflexivity.
Qed.

(** The inputs that the lines after the title accept. *)
Lemma parse_records_accepts (s : nat) (n : Z) (t : string)
    (records : list (list string)) (stru : Structure) :
  parse_records s n t records = Return stru
  <-> title stru = t /\ lattice stru = default_lattice
      /\ ((atoms stru = [] /\ (n = 0%Z \/ forallb no_fields records = true))
          \/ (n <> 0%Z
              /\ (exists lfs rest, records = lfs :: rest /\ List.length lfs = 4)
              /\ Z.of_nat (List.length (atoms stru)) = n
              /\ Forall2 (record_of 4) (filter has_fields records) (atoms stru))).
Proof.
  split.
  - unfold parse_records.
    destruct (n =? 0)%Z eqn:Hn; cbn [orb].
    + intros [= <-]. apply Z.eqb_eq in Hn. simpl. auto 10.
    + destruct (forallb no_fields records) eqn:Hb.
      * intros [= <-]. simpl. auto 10.
      * destruct records as [|lfs rest]; [discriminate|].
        destruct (Nat.eqb_spec (List.length lfs) 4) as [H4|H4]; cbn [negb];
          [|discriminate].
        destruct (read_records _ _ _ _) as [stru'|] eqn:Hr; [|discriminate].
        cbn [bind]. unfold check_count, len.
        destruct (Z.of_nat _ =? n)%Z eqn:Hc; [|discriminate].
        intros [= <-]. apply Z.eqb_eq in Hc. apply Z.eqb_neq in Hn.
        apply read_records_sound in Hr as (l & -> & Hl).
        simpl in *. repeat split; try reflexivity.
        right. repeat split; try assumption. now exists lfs, rest.
  - intros (Ht & Hl & H). destruct stru as [t' la l]. simpl in *. subst t' la.
    destruct H as [[-> H] | (Hn & (lfs & rest & -> & H4) & Hc & Hr)].
    + now rewrite parse_records_empty.
    + rewrite parse_records_read by assumption.
      rewrite (read_records_complete 4 _ l _ _ Hr). cbn [bind].
      rewrite check_count_extend. now rewrite (proj2 (Z.eqb_eq _ _) Hc).
Qed.

Lemma comprehension_float_exists (fs : list string) :
  Exists (fun f => py_float f = None) fs ->
  comprehension float_of fs = Raise ValueError.
Proof.
  induction fs as [|f fs IH]; intros H; [now inversion H|].
  cbn [comprehension]. unfold float_of at 1.
  destruct (py_float f) eqn:Hf; [|reflexivity]. cbn [bind].
  inversion H as [? ? H0 | ? ? H1]; subst; [congruence|].
  now rewrite (IH H1).
Qed.

Lemma comprehension_length {A B} (f : A -> result B) (l : list A) :
  forall ys, comprehension f l = Return ys -> List.length ys = List.length l.
Proof.
  induction l as [|x l IH]; intros ys; cbn [comprehension].
  - now intros [= <-].
  - destruct (f x); [|discriminate]. cbn [bind].
    destruct (comprehension f l) as [ys'|]; [|discriminate]. cbn [bind].
    intros [= <-]. simpl. now rewrite (IH ys' eq_refl).
Qed.

End Outcomes.

(** ** The element symbol *)

Section Casing.
Context {RT : Runtime}.

(** The elements of the atoms read from records. *)
Lemma record_elements (nf : nat) (fs : list (list string)) (l : list Atom) :
  Forall2 (record_of nf) fs l ->
  map element l = map (fun f => capitalize (hd "" f)) fs.
Proof.
  induction 1 as [|f a fs l [_ Hr] _ IH]; [reflexivity|].
  apply read_atom_element in Hr as (tok & rest & -> & He).
  simpl. now rewrite He, IH.
Qed.

Lemma comprehension_float_reads (ws : list string) :
  Forall (fun w => py_float w <> None) ws ->
  exists v, comprehension float_of ws = Return v.
Proof.
  induction 1 as [|w ws Hw _ (v & E)]; [now exists []|].
  cbn [comprehension]. unfold float_of at 1.
  destruct (py_float w) as [x|]; [|congruence].
  cbn [bind]. rewrite E. cbn [bind]. eauto.
Qed.

Lemma read_atom_reads (f : list string) :
  Forall (fun t => is_token t = true) f -> f <> [] ->
  Forall (fun w => py_float w <> None) (firstn 3 (skipn 1 f)) ->
  exists a, read_atom f = Return a.
Proof.
  intros Ht Hne Hf. destruct f as [|tok rest]; [congruence|].
  inversion Ht as [|? ? Htok _]; subst.
  unfold read_atom. cbn [index nth_error bind skipn] in *.
  destruct tok as [|c r]; [discriminate|]. cbn [bind].
  destruct (comprehension_float_reads _ Hf) as (v & ->). cbn [bind]. eauto.
Qed.

(** Lines that are blank or have four fields of which [float] reads the
    last three are read as atoms. *)
Lemma records_read (recs : list string) :
  Forall (fun f => f = []
                   \/ (List.length f = 4
                       /\ Forall (fun w => py_float w <> None) (firstn 3 (skipn 1 f))))
         (map split recs) ->
  exists l, Forall2 (record_of 4) (filter has_fields (map split recs)) l.
Proof.
  induction recs as [|r recs IH]; intros H; [exists []; constructor|].
  cbn [map] in H. inversion H as [|? ? Hr Hrest]; subst.
  destruct (IH Hrest) as (l & Hl). cbn [map filter].
  destruct Hr as [E | [H4 Hf]].
  - rewrite E. now exists l.
  - assert (Hh : has_fields (split r) = true)
      by (unfold has_fields, no_fields; now rewrite H4).
    rewrite Hh.
    destruct (read_atom_reads (split r) (split_tokens r)) as (a & Ha);
      [intros E; now rewrite E in H4 | exact Hf |].
    exists (a :: l). constructor; [now split | exact Hl].
Qed.

Lemma filter_no_fields (records : list (list string)) :
  forallb no_fields records = true -> filter has_fields records = [].
Proof.
  induction records as [|f records IH]; [reflexivity|]. simpl.
  intros H. apply andb_true_iff in H as [Hf H].
  assert (Hh : has_fields f = false) by (unfold has_fields; now rewrite Hf).
  rewrite Hh. now apply IH.
Qed.

(** The elements of what [parseLines] returns. *)
Lemma parseLines_elements (pre : list string) (cl tl : string)
    (recs : list string) (n : Z) (stru : Structure) :
  Forall (fun l => skipped l = true) pre -> count_of cl = Some n ->
  parseLines (pre ++ cl :: tl :: recs) = Return stru ->
  map element (atoms stru)
  = if (n =? 0)%Z then []
    else map (fun f => capitalize (hd "" f)) (filter has_fields (map split recs)).
Proof.
  intros Hp Hc H. rewrite (parseLines_shape pre cl tl recs n Hp Hc) in H.
  apply parse_records_accepts in H as (_ & _ & H).
  destruct H as [[-> [-> | Hb]] | (Hn & _ & _ & Hr)].
  - reflexivity.
  - rewrite (filter_no_fields _ Hb). now destruct (n =? 0)%Z.
  - apply Z.eqb_neq in Hn. rewrite Hn. now apply record_elements with (nf := 4).
Qed.

End Casing.

(** C8.  The element symbol of the atoms that [parseLines] stores is the
    first field of their record with its first character in upper case and
    the others in lower case, [element[0].upper() + element[1:].lower()].
    For an input of leading lines, a count line [str(n)], a title and the
    lines [recs]: the elements of a structure that is returned are, in
    order, the normalized first fields of the lines of [recs] that have
    fields (none when [n] is zero); for [n] not zero, a first line of four
    fields, lines that are blank or have four fields of which [float]
    reads the last three, and [n] lines with fields, a structure with
    these elements is returned; and a record whose first field is ["NA"],
    ["na"] or ["Na"] is read as an atom of element ["Na"]. *)
Theorem element_casing {RT : Runtime} (pre : list string) (cl tl : string)
    (recs : list string) (n : Z) :
  Forall (fun l => skipped l = true) pre ->
  split cl = [py_str n] ->
  (forall stru,
      parseLines (pre ++ cl :: tl :: recs) = Return stru ->
      map element (atoms stru)
      = if (n =? 0)%Z then []
        else map (fun f => capitalize (hd "" f))
                 (filter has_fields (map split recs)))
  /\ (n <> 0%Z ->
      (exists r0 rest, recs = r0 :: rest /\ List.length (split r0) = 4) ->
      Forall (fun f => f = []
                       \/ (List.length f = 4
                           /\ Forall (fun w => py_float w <> None)
                                     (firstn 3 (skipn 1 f))))
             (map split recs) ->
      Z.of_nat (List.length (filter has_fields (map split recs))) = n ->
      exists stru,
        parseLines (pre ++ cl :: tl :: recs) = Return stru
        /\ map element (atoms stru)
           = map (fun f => capitalize (hd "" f))
                 (filter has_fields (map split recs)))
  /\ (forall tok fs a,
         In tok ["NA"; "na"; "Na"] ->
         read_atom (tok :: fs) = Return a -> element a = "Na")
  /\ (forall c r,
         capitalize (String c r) = upper (String c "") ++ lower r).
Proof.
  intros Hp Hc. apply count_of_iff in Hc.
  split; [|split; [|split]].
  - intros stru H. now apply (parseLines_elements pre cl tl recs n stru).
  - intros Hn (r0 & rest & -> & H4) Hf Hlen.
    destruct (records_read (r0 :: rest) Hf) as (l & Hl).
    assert (Hh : has_fields (split r0) = true)
      by (unfold has_fields, no_fields; now rewrite H4).
    pose proof (parseLines_records pre cl tl r0 rest n l Hp Hc Hn Hh Hl) as E.
    assert (Hll : Z.of_nat (List.length l) = n)
      by (apply Forall2_length in Hl; now rewrite <- Hl).
    rewrite (proj2 (Z.eqb_eq _ _) Hll) in E.
    eexists. split; [exact E|]. cbn [atoms].
    now apply record_elements with (nf := 4).
  - intros tok fs a Hin Hr.
    apply read_atom_element in Hr as (tok' & rest & [= <- _] & ->).
    destruct Hin as [<- | [<- | [<- | []]]]; reflexivity.
  - reflexivity.
Qed.

Lemma element_casing_witness :
  exists stru,
    parseLines ([] ++ "3" :: "t" :: ["NA 0 0 0"; ""; "na 1 1 1"; "Na 0 0 0"])
    = Return stru
    /\ map element (atoms stru) = ["Na"; "Na"; "Na"].
Proof.
  apply (proj1 (proj2 (element_casing (RT := Binary64.runtime)
                         [] "3" "t" ["NA 0 0 0"; ""; "na 1 1 1"; "Na 0 0 0"] 3
                         (Forall_nil _) eq_refl))).
  - discriminate.
  - now exists "NA 0 0 0", [""; "na 1 1 1"; "Na 0 0 0"].
  - repeat (apply Forall_cons;
            [(left; reflexivity)
             || (right; split; [reflexivity | repeat constructor; discriminate])|]).
    apply Forall_nil.
  - reflexivity.
Defined.

(** X5.  Blank lines and lines of first field ["#"] put before an input
    change the line numbers of the errors and nothing else: a structure
    is returned unchanged, an error that names a line names it further by
    the number of lines put before, and the error of the number of atoms
    stays as it is.  Every error of [parseLines] has one of the two
    forms. *)
Theorem leading_lines_renumber {RT : Runtime} (pre lines : list string) :
  Forall (fun l => skipped l = true) pre ->
  match parseLines lines with
  | Return stru => parseLines (pre ++ lines) = Return stru
  | Raise e =>
      (exists q r,
          e = InvalidStructureFormat (py_str (Z.of_nat q) ++ ": " ++ r)
          /\ parseLines (pre ++ lines)
             = Raise (InvalidStructureFormat
                        (py_str (Z.of_nat (List.length pre + q)) ++ ": " ++ r)))
      \/ (exists n m,
             e = InvalidStructureFormat
                   ("expected " ++ py_str n ++ " atoms, read " ++ py_str m)
             /\ parseLines (pre ++ lines) = Raise e)
  end.
Proof.
  intros Hp.
  destruct (skip_leading_spec lines 0) as (pre' & rest & -> & _ & Hp' & Hr).
  rewrite List.app_assoc.
  assert (Hpp : Forall (fun l => skipped l = true) (pre ++ pre')%list)
    by (apply Forall_app; auto).
  rewrite (parseLines_normal (pre ++ pre') rest Hpp Hr).
  rewrite (parseLines_normal pre' rest Hp' Hr).
  rewrite length_app.
  assert (Hm : (exists q r,
                   InvalidStructureFormat (at_line (List.length pre' + 1) msg_missing)
                   = InvalidStructureFormat (py_str (Z.of_nat q) ++ ": " ++ r)
                   /\ @Raise Structure
                        (InvalidStructureFormat
                           (at_line (List.length pre + List.length pre' + 1) msg_missing))
                      = Raise (InvalidStructureFormat
                                 (py_str (Z.of_nat (List.length pre + q)) ++ ": " ++ r)))
               \/ (exists n m,
                      InvalidStructureFormat (at_line (List.length pre' + 1) msg_missing)
                      = InvalidStructureFormat
                          ("expected " ++ py_str n ++ " atoms, read " ++ py_str m)
                      /\ @Raise Structure
                           (InvalidStructureFormat
                              (at_line (List.length pre + List.length pre' + 1) msg_missing))
                         = Raise (InvalidStructureFormat
                                    (at_line (List.length pre' + 1) msg_missing)))).
  { left. exists (List.length pre' + 1), msg_missing. split; [reflexivity|].
    now rewrite Nat.add_assoc. }
  destruct rest as [|cl [|tl recs]]; [exact Hm | exact Hm |].
  destruct (count_of cl) as [n|]; [|exact Hm]. clear Hm.
  destruct (parse_records_outcome n (strip tl) recs)
    as [(stru & E) | [(d & r & Hd & Hr' & E) | (m & Hm & Hne & E)]];
    rewrite !E.
  - reflexivity.
  - left. exists (List.length pre' + 2 + d), r. split; [reflexivity|].
    unfold at_line. do 4 f_equal. lia.
  - right. exists n, m. split; reflexivity.
Qed.

Lemma leading_lines_renumber_witness :
  match parseLines ["1"; "t"; "C 0 0"] with
  | Return stru => parseLines (["# c"; " "] ++ ["1"; "t"; "C 0 0"]) = Return stru
  | Raise e =>
      (exists q r,
          e = InvalidStructureFormat (py_str (Z.of_nat q) ++ ": " ++ r)
          /\ parseLines (["# c"; " "] ++ ["1"; "t"; "C 0 0"])
             = Raise (InvalidStructureFormat
                        (py_str (Z.of_nat (List.length ["# c"; " "] + q)) ++ ": " ++ r)))
      \/ (exists n m,
             e = InvalidStructureFormat
                   ("expected " ++ py_str n ++ " atoms, read " ++ py_str m)
             /\ parseLines (["# c"; " "] ++ ["1"; "t"; "C 0 0"]) = Raise e)
  end.
Proof.
  apply (leading_lines_renumber (RT := Binary64.runtime)
           ["# c"; " "] ["1"; "t"; "C 0 0"]).
  repeat constructor.
Defined.

(** X6.  The errors of [parseLines]: the missing number of atoms, at a
    line from 1 to one past the last; the columns or the numbers of a
    record, at a line of the input after the first two; or a number of
    atoms read, at least one and at most the number of lines less two,
    that is not the number declared. *)
Theorem errors_of_parseLines {RT : Runtime} (lines : list string) (e : exn) :
  parseLines lines = Raise e ->
  (exists q, 1 <= q <= List.length lines + 1
             /\ e = InvalidStructureFormat
                      (py_str (Z.of_nat q)
                       ++ ": invalid XYZ format, missing number of atoms"))
  \/ (exists q r, 3 <= q <= List.length lines
                  /\ In r ["invalid XYZ format, expected 4 columns";
                           "all lines must have the same number of columns";
                           "invalid number format"]
                  /\ e = InvalidStructureFormat (py_str (Z.of_nat q) ++ ": " ++ r))
  \/ (exists n m, (1 <= m <= Z.of_nat (List.length lines) - 2)%Z /\ m <> n
                  /\ e = InvalidStructureFormat
                           ("expected " ++ py_str n ++ " atoms, read " ++ py_str m)).
Proof.
  destruct (skip_leading_spec lines 0) as (pre & rest & -> & _ & Hp & Hr).
  rewrite (parseLines_normal pre rest Hp Hr), length_app.
  assert (Hm : forall e',
             @Raise Structure
               (InvalidStructureFormat (at_line (List.length pre + 1) msg_missing))
             = Raise e' ->
             exists q, 1 <= q <= List.length pre + List.length rest + 1
                       /\ e' = InvalidStructureFormat
                                 (py_str (Z.of_nat q)
                                  ++ ": invalid XYZ format, missing number of atoms")).
  { intros e' [= <-]. exists (List.length pre + 1). split; [lia | reflexivity]. }
  destruct rest as [|cl [|tl recs]]; [left; auto | left; auto |].
  destruct (count_of cl) as [n|]; [|left; auto]. clear Hm.
  destruct (parse_records_outcome n (strip tl) recs)
    as [(stru & E) | [(d & r & Hd & Hr' & E) | (m & Hm & Hne & E)]];
    rewrite E; [discriminate| |]; intros [= <-]; right.
  - left. exists (List.length pre + 2 + d), r.
    split; [simpl; lia|]. split; [exact Hr' | reflexivity].
  - right. exists n, m. split; [simpl; lia|]. split; [exact Hne | reflexivity].
Qed.

Lemma errors_of_parseLines_witness :
  (exists q, 1 <= q <= List.length ["2"; "t"; "C 0 0 0"; ""; "O 1 1"] + 1
             /\ InvalidStructureFormat "5: all lines must have the same number of columns"
                = InvalidStructureFormat
                    (py_str (Z.of_nat q)
                     ++ ": invalid XYZ format, missing number of atoms"))
  \/ (exists q r, 3 <= q <= List.length ["2"; "t"; "C 0 0 0"; ""; "O 1 1"]
                  /\ In r ["invalid XYZ format, expected 4 columns";
                           "all lines must have the same number of columns";
                           "invalid number format"]
                  /\ InvalidStructureFormat
                       "5: all lines must have the same number of columns"
                     = InvalidStructureFormat (py_str (Z.of_nat q) ++ ": " ++ r))
  \/ (exists n m,
         (1 <= m <= Z.of_nat (List.length ["2"; "t"; "C 0 0 0"; ""; "O 1 1"]) - 2)%Z
         /\ m <> n
         /\ InvalidStructureFormat "5: all lines must have the same number of columns"
            = InvalidStructureFormat
                ("expected " ++ py_str n ++ " atoms, read " ++ py_str m)).
Proof.
  apply (errors_of_parseLines (RT := Binary64.runtime)
           ["2"; "t"; "C 0 0 0"; ""; "O 1 1"]).
  reflexivity.
Defined.

(** X7.  The inputs that [parseLines] accepts, and what it returns for
    them.  A structure is returned exactly when the input is leading blank
    lines and lines of first field ["#"], a count line of one field that
    is [str(n)], a title line, and then either nothing to read (the count
    is zero, or all the lines are blank) or, for a count that is not zero,
    a first line of four fields and as many records with fields as the
    count says, each of them read as an atom.  The structure has the
    stripped title, the lattice of a new structure and these atoms. *)
Theorem accepted_inputs {RT : Runtime} (lines : list string) (stru : Structure) :
  parseLines lines = Return stru
  <-> exists pre cl tl recs n,
        lines = (pre ++ cl :: tl :: recs)%list
        /\ Forall (fun l => skipped l = true) pre
        /\ split cl = [py_str n]
        /\ title stru = strip tl
        /\ lattice stru = default_lattice
        /\ ((atoms stru = []
             /\ (n = 0%Z \/ Forall (fun l => blank l = true) recs))
            \/ (n <> 0%Z
                /\ (exists r0 rest, recs = r0 :: rest /\ List.length (split r0) = 4)
                /\ Z.of_nat (List.length (atoms stru)) = n
                /\ Forall2 (record_of 4) (filter has_fields (map split recs))
                           (atoms stru))).
Proof.
  split.
  - intros H.
    destruct (parseLines_cases lines)
      as [(pre & cl & tl & recs & n & E & Hp & Hc & _) | E]; [|congruence].
    subst lines. rewrite (parseLines_shape pre cl tl recs n Hp Hc) in H.
    apply parse_records_accepts in H as (Ht & Hl & Ha).
    exists pre, cl, tl, recs, n. apply count_of_iff in Hc.
    repeat (split; [assumption || reflexivity|]).
    destruct Ha as [[Ha [Hn | Hb]] | (Hn & (lfs & rest & E & H4) & Hc' & Hr)].
    + left. auto.
    + left. split; [assumption|]. right. now apply forallb_no_fields.
    + right. repeat split; try assumption.
      destruct recs as [|r0 recs]; [discriminate|].
      injection E as <- _. now exists r0, recs.
  - intros (pre & cl & tl & recs & n & -> & Hp & Hc & Ht & Hl & Ha).
    apply count_of_iff in Hc.
    rewrite (parseLines_shape pre cl tl recs n Hp Hc).
    apply parse_records_accepts.
    repeat (split; [assumption|]).
    destruct Ha as [[Ha [Hn | Hb]] | (Hn & (r0 & rest & -> & H4) & Hc' & Hr)].
    + left. auto.
    + left. split; [assumption|]. right. now apply forallb_no_fields.
    + right. repeat split; try assumption.
      now exists (split r0), (map split rest).
Qed.

(** X8.  For a number of atoms that is not zero, the first line of four
    fields one of whose last three [float] does not read stops the parse
    at its line with the error of the number format, when the lines of
    the block before it are records that are read or blank lines, and the
    first line of the block is not blank. *)
Theorem bad_coordinate_reported {RT : Runtime} (pre : list string)
    (cl tl : string) (good : list string) (bad : string) (rest : list string)
    (n : Z) (l : list Atom) (el : string) (fs : list string) :
  Forall (fun l => skipped l = true) pre ->
  split cl = [py_str n] -> n <> 0%Z ->
  match good with [] => True | g0 :: _ => has_fields (split g0) = true end ->
  Forall2 (record_of 4) (filter has_fields (map split good)) l ->
  split bad = el :: fs -> List.length fs = 3 ->
  Exists (fun f => py_float f = None) fs ->
  parseLines (pre ++ cl :: tl :: good ++ bad :: rest)
  = Raise (InvalidStructureFormat
             (py_str (Z.of_nat (List.length pre + List.length good + 3))
              ++ ": invalid number format")).
Proof.
  intros Hp Hc Hn Hg Hl Hb Hlen Hx. apply count_of_iff in Hc.
  assert (H4 : List.length (split bad) = 4) by (rewrite Hb; simpl; lia).
  rewrite (parseLines_block_prefix pre cl tl good bad rest n l Hp Hc Hn Hg Hl H4).
  cbn [map]. rewrite Hb.
  assert (Hel : is_token el = true).
  { pose proof (split_tokens bad) as Ht. rewrite Hb in Ht. now inversion Ht. }
  rewrite read_records_number.
  - cbn [bind]. unfold at_line, msg_number. do 4 f_equal. lia.
  - reflexivity.
  - simpl. lia.
  - unfold read_atom. cbn [index nth_error bind skipn].
    destruct el as [|c r]; [discriminate|]. cbn [bind].
    rewrite <- Hlen, firstn_all.
    now rewrite (comprehension_float_exists fs Hx).
Qed.

Lemma bad_coordinate_reported_witness :
  parseLines (["# two atoms"] ++ "2" :: "t" :: ["C 0 0 0"; ""] ++ "O 1 1e 1" :: ["junk"])
  = Raise (InvalidStructureFormat "6: invalid number format").
Proof.
  apply (bad_coordinate_reported (RT := Binary64.runtime)
           ["# two atoms"] "2" "t" ["C 0 0 0"; ""] "O 1 1e 1" ["junk"] 2
           [Binary64.atom "C" [Binary64.zero; Binary64.zero; Binary64.zero]]
           "O" ["1"; "1e"; "1"]).
  - repeat constructor.
  - reflexivity.
  - discriminate.
  - reflexivity.
  - repeat constructor.
  - reflexivity.
  - reflexivity.
  - apply Exists_cons_tl, Exists_cons_hd. reflexivity.
Defined.

(** X9.  A negative number of atoms is accepted only when there is nothing
    to read: after such a count line and the title, a structure is
    returned if and only if all the lines that follow are blank. *)
Theorem negative_count_needs_no_record {RT : Runtime} (pre : list string)
    (cl tl : string) (recs : list string) (n : Z) :
  Forall (fun l => skipped l = true) pre ->
  split cl = [py_str n] -> (n < 0)%Z ->
  (exists stru, parseLines (pre ++ cl :: tl :: recs) = Return stru)
  <-> Forall (fun l => blank l = true) recs.
Proof.
  intros Hp Hc Hn. apply count_of_iff in Hc.
  rewrite (parseLines_shape pre cl tl recs n Hp Hc). split.
  - intros (stru & H). apply parse_records_accepts in H as (_ & _ & H).
    destruct H as [[_ [Hz | Hb]] | (_ & _ & Hl & _)]; [lia | | lia].
    now apply forallb_no_fields.
  - intros Hb. eexists. apply parse_records_empty. right.
    now apply forallb_no_fields.
Qed.

Lemma negative_count_needs_no_record_witness :
  (exists stru, parseLines ([] ++ "-1" :: "t" :: [""; "C 0 0 0"]) = Return stru)
  <-> Forall (fun l => blank l = true) [""; "C 0 0 0"].
Proof.
  apply (negative_count_needs_no_record (RT := Binary64.runtime)
           [] "-1" "t" [""; "C 0 0 0"] (-1)).
  - constructor.
  - reflexivity.
  - lia.
Defined.

(** ** The atoms of a parsed structure, and reading what was written *)

Lemma isspace_upper_char (c : ascii) : isspace (upper_char c) = isspace c.
Proof. destruct c as [[] [] [] [] [] [] [] []]; reflexivity. Qed.

Lemma isspace_lower_char (c : ascii) : isspace (lower_char c) = isspace c.
Proof. destruct c as [[] [] [] [] [] [] [] []]; reflexivity. Qed.

Lemma upper_char_idempotent (c : ascii) : upper_char (upper_char c) = upper_char c.
Proof. destruct c as [[] [] [] [] [] [] [] []]; reflexivity. Qed.

Lemma lower_char_idempotent (c : ascii) : lower_char (lower_char c) = lower_char c.
Proof. destruct c as [[] [] [] [] [] [] [] []]; reflexivity. Qed.

Lemma no_space_lower (s : string) : no_space (lower s) = no_space s.
Proof.
  induction s as [|c s IH]; [reflexivity|].
  unfold lower in *. simpl. now rewrite isspace_lower_char, IH.
Qed.

Lemma lower_idempotent (s : string) : lower (lower s) = lower s.
Proof.
  induction s as [|c s IH]; [reflexivity|].
  unfold lower in *. simpl. now rewrite lower_char_idempotent, IH.
Qed.

Lemma capitalize_token (tok : string) :
  is_token tok = true -> is_token (capitalize tok) = true.
Proof.
  destruct tok as [|c r]; [discriminate|]. unfold is_token. simpl.
  now rewrite isspace_upper_char, no_space_lower.
Qed.

Lemma capitalize_idempotent (tok : string) :
  capitalize (capitalize tok) = capitalize tok.
Proof.
  destruct tok as [|c r]; [reflexivity|]. simpl.
  now rewrite upper_char_idempotent, lower_idempotent.
Qed.

Lemma split_from_trailing_space (s b : string) :
  all_space b = true -> forall cur, split_from cur (s ++ b) = split_from cur s.
Proof.
  intros Hb. induction s as [|c s IH]; intros cur.
  - simpl. destruct b as [|c b]; [reflexivity|].
    simpl in Hb. apply andb_true_iff in Hb as [Hc Hb]. simpl. rewrite Hc.
    apply split_nil_iff in Hb. unfold split in Hb. now rewrite Hb.
  - simpl. destruct (isspace c); [|apply IH].
    now rewrite IH.
Qed.

Lemma split_strip (l : string) : split (strip l) = split l.
Proof.
  destruct (strip_spec l) as (a & b & E & Ha & Hb & _).
  rewrite E at 2. unfold split.
  rewrite split_from_all_space by assumption.
  now rewrite split_from_trailing_space.
Qed.

Lemma count_of_strip (l : string) : count_of (strip l) = count_of l.
Proof. unfold count_of. now rewrite split_strip. Qed.

Section Written.
Context {RT : Runtime}.

Lemma read_atom_well_formed (fields : list string) (a : Atom) :
  Forall (fun t => is_token t = true) fields -> List.length fields = 4 ->
  read_atom fields = Return a ->
  List.length (xyz a) = 3 /\ is_token (element a) = true
  /\ capitalize (element a) = element a.
Proof.
  intros Ht Hl. destruct fields as [|tok rest]; [discriminate|].
  inversion Ht as [|? ? Htok _]; subst.
  unfold read_atom. cbn [index nth_error bind skipn].
  destruct tok as [|c r]; [discriminate|]. cbn [bind].
  destruct (comprehension float_of (firstn 3 rest)) as [v|] eqn:Hc; [|discriminate].
  intros [= <-]. cbn [xyz element]. split; [|split].
  - rewrite (comprehension_length _ _ _ Hc), length_firstn.
    simpl in Hl. lia.
  - exact (capitalize_token (String c r) Htok).
  - exact (capitalize_idempotent (String c r)).
Qed.

(** An atom that [toLines] writes as a record that [parseLines] reads:
    its element is one token, and each of its first three cartesian
    coordinates is written by ["%g"] as a token that [float] reads. *)
Lemma atom_line_reads (stru : Structure) (a : Atom) :
  is_token (element a) = true ->
  3 <= List.length (cartesian stru a) ->
  Forall (fun v => is_token (fmt_g v) = true /\ py_float (fmt_g v) <> None)
         (firstn 3 (cartesian stru a)) ->
  exists r a',
    atom_line stru a = Return r
    /\ has_fields (split r) = true /\ record_of 4 (split r) a'
    /\ element a' = capitalize (element a)
    /\ map Some (xyz a')
       = map (fun v => py_float (fmt_g v)) (firstn 3 (cartesian stru a)).
Proof.
  intros He Hl Hv. unfold atom_line.
  destruct (cartesian stru a) as [|x [|y [|z rest]]]; simpl in Hl; try lia.
  cbn [firstn] in Hv.
  inversion Hv as [|? ? [Hxt Hxf] Hv1]; subst.
  inversion Hv1 as [|? ? [Hyt Hyf] Hv2]; subst.
  inversion Hv2 as [|? ? [Hzt Hzf] _]; subst.
  destruct (py_float (fmt_g x)) as [x'|] eqn:Ex; [|congruence].
  destruct (py_float (fmt_g y)) as [y'|] eqn:Ey; [|congruence].
  destruct (py_float (fmt_g z)) as [z'|] eqn:Ez; [|congruence].
  cbn [index nth_error bind].
  eexists. exists {| element := capitalize (element a); xyz := [x'; y'; z'] |}.
  split; [reflexivity|].
  change (ljust 3 (element a)
          ++ String " " (fmt_g x ++ String " " (fmt_g y ++ String " " (fmt_g z))))
    with (ljust 3 (element a) ++ " " ++ fmt_g x ++ " " ++ fmt_g y ++ " " ++ fmt_g z).
  rewrite split_record_line by assumption.
  split; [reflexivity|]. split; [|split].
  - split; [reflexivity|].
    unfold read_atom. cbn [index nth_error bind skipn firstn comprehension].
    unfold float_of. rewrite Ex, Ey, Ez. cbn [bind].
    destruct (element a) as [|ch r]; [discriminate|]. reflexivity.
  - reflexivity.
  - cbn [firstn map xyz]. now rewrite Ex, Ey, Ez.
Qed.

Lemma comprehension_atom_lines_read (stru : Structure) (l : list Atom) :
  Forall (fun a =>
            is_token (element a) = true
            /\ 3 <= List.length (cartesian stru a)
            /\ Forall (fun v => is_token (fmt_g v) = true /\ py_float (fmt_g v) <> None)
                      (firstn 3 (cartesian stru a))) l ->
  exists records l',
    comprehension (atom_line stru) l = Return records
    /\ Forall (fun r => has_fields (split r) = true) records
    /\ Forall2 (record_of 4) (map split records) l'
    /\ Forall2 (fun a a' =>
                  element a' = capitalize (element a)
                  /\ map Some (xyz a')
                     = map (fun v => py_float (fmt_g v)) (firstn 3 (cartesian stru a)))
               l l'.
Proof.
  induction 1 as [|a l (He & Hl & Hv) _ (records & l' & E & Hf & Hr & Hn)].
  - exists [], []. repeat split; constructor.
  - destruct (atom_line_reads stru a He Hl Hv) as (r & a' & Er & Hfr & Hrr & Hel & Hx).
    exists (r :: records), (a' :: l'). simpl. rewrite Er, E. simpl.
    repeat split; constructor; auto.
Qed.

End Written.

(** X10.  Every atom of a structure that [parseLines] returns has three
    coordinates, and an element that is one token, not empty and without
    white space, in normalized case. *)
Theorem parsed_atoms_well_formed {RT : Runtime} (lines : list string)
    (stru : Structure) :
  parseLines lines = Return stru ->
  Forall (fun a => List.length (xyz a) = 3
                   /\ is_token (element a) = true
                   /\ capitalize (element a) = element a) (atoms stru).
Proof.
  intros H. apply parseLines_sound in H.
  destruct H as (pre & cl & tl & recs & n & _ & _ & _ & _ & _ & H).
  destruct H as [[-> _] | [_ H]]; [constructor|].
  apply Forall_forall. intros a Ha.
  destruct (Forall2_in_right _ _ _ H a Ha) as (fields & Hin & Hlen & Hr).
  apply filter_In in Hin as [Hin _].
  apply (read_atom_well_formed fields a); try assumption.
  pose proof (split_records_tokens recs) as Ht.
  rewrite Forall_forall in Ht. now apply Ht.
Qed.

Lemma parsed_atoms_well_formed_witness :
  Forall (fun a => List.length (xyz a) = 3
                   /\ is_token (element a) = true
                   /\ capitalize (element a) = element a)
         [Binary64.atom "Na" [Binary64.zero; Binary64.one; Binary64.zero];
          Binary64.atom "#" [Binary64.one; Binary64.one; Binary64.one]].
Proof.
  apply (parsed_atoms_well_formed (RT := Binary64.runtime)
           ["2"; "t"; "nA 0 1 0 "; "# 1 1 1"]
           (Binary64.structure "t"
              [Binary64.atom "Na" [Binary64.zero; Binary64.one; Binary64.zero];
               Binary64.atom "#" [Binary64.one; Binary64.one; Binary64.one]])).
  reflexivity.
Defined.

(** X11.  What reading back the lines of [toLines] keeps.  For a structure
    whose atoms each have an element that is one token and three
    cartesian coordinates that ["%g"] writes as tokens that [float] reads,
    [toLines] gives two lines and one line for each atom, and [parseLines]
    reads them into a structure with the stripped title, the lattice of a
    new structure, and the atoms in the same order: each with the element
    in normalized case and, as coordinates, what [float] reads of the
    cartesian coordinates as ["%g"] wrote them. *)
Theorem written_lines_read_back {RT : Runtime} (stru : Structure) :
  Forall (fun a =>
            is_token (element a) = true
            /\ 3 <= List.length (cartesian stru a)
            /\ Forall (fun v => is_token (fmt_g v) = true /\ py_float (fmt_g v) <> None)
                      (firstn 3 (cartesian stru a)))
         (atoms stru) ->
  exists lines stru',
    toLines stru = Return lines
    /\ List.length lines = 2 + List.length (atoms stru)
    /\ parseLines lines = Return stru'
    /\ title stru' = strip (title stru)
    /\ lattice stru' = default_lattice
    /\ Forall2 (fun a a' =>
                  element a' = capitalize (element a)
                  /\ map Some (xyz a')
                     = map (fun v => py_float (fmt_g v)) (firstn 3 (cartesian stru a)))
               (atoms stru) (atoms stru').
Proof.
  intros Ha.
  destruct (comprehension_atom_lines_read stru (atoms stru) Ha)
    as (records & l' & E & Hf & Hr & Hn).
  exists (py_str (len stru) :: title stru :: records).
  exists {| title := strip (title stru); lattice := default_lattice; atoms := l' |}.
  unfold toLines. rewrite E. split; [reflexivity|].
  assert (Hlen : List.length records = List.length (atoms stru)).
  { apply Forall2_length in Hr. apply Forall2_length in Hn.
    rewrite length_map in Hr. congruence. }
  split; [simpl; now rewrite Hlen|].
  split; [|repeat split; assumption].
  assert (Hc : count_of (py_str (len stru)) = Some (len stru))
    by (apply count_of_iff, split_py_str).
  destruct records as [|r0 recs].
  - inversion Hr; subst.
    change (parseLines ([] ++ py_str (len stru) :: title stru :: [])
            = Return {| title := strip (title stru); lattice := default_lattice;
                        atoms := [] |}).
    rewrite (parseLines_shape [] _ _ [] _ (Forall_nil _) Hc).
    apply parse_records_empty. now right.
  - inversion Hf; subst.
    rewrite <- (filter_has_fields_id (r0 :: recs) Hf) in Hr.
    assert (Hl' : List.length l' = List.length (atoms stru))
      by (apply Forall2_length in Hn; congruence).
    assert (Hnz : len stru <> 0%Z) by (unfold len; simpl in Hlen; lia).
    change (py_str (len stru) :: title stru :: r0 :: recs)
      with ([] ++ py_str (len stru) :: title stru :: r0 :: recs)%list.
    rewrite (parseLines_records [] _ (title stru) r0 recs (len stru) l');
      try assumption; [|constructor].
    unfold len. now rewrite Hl', Z.eqb_refl.
Qed.

Lemma written_lines_read_back_witness :
  exists lines stru',
    toLines (Binary64.structure " two atoms "
               [Binary64.atom "C" [Binary64.zero; Binary64.zero; Binary64.zero];
                Binary64.atom "NA" [Binary64.one; Binary64.zero; Binary64.one]])
    = Return lines
    /\ List.length lines = 2 + 2
    /\ parseLines lines = Return stru'
    /\ title stru' = "two atoms"
    /\ lattice stru' = Binary64.unit_cell
    /\ Forall2 (fun a a' =>
                  element a' = capitalize (element a)
                  /\ map Some (xyz a')
                     = map (fun v => Binary64.of_string (Binary64.to_g v))
                           (firstn 3 (Binary64.dot Binary64.unit_cell (xyz a))))
               [Binary64.atom "C" [Binary64.zero; Binary64.zero; Binary64.zero];
                Binary64.atom "NA" [Binary64.one; Binary64.zero; Binary64.one]]
               (atoms stru').
Proof.
  apply (written_lines_read_back (RT := Binary64.runtime)
           (Binary64.structure " two atoms "
              [Binary64.atom "C" [Binary64.zero; Binary64.zero; Binary64.zero];
               Binary64.atom "NA" [Binary64.one; Binary64.zero; Binary64.one]])).
  repeat constructor; vm_compute; try lia; discriminate.
Defined.

(** X12.  The white space at the two ends of the lines does not count:
    [parseLines] gives for the stripped lines what it gives for the
    lines, structure or error. *)
Theorem stripped_lines_parse_alike {RT : Runtime} (lines : list string) :
  parseLines (map strip lines) = parseLines lines.
Proof.
  rewrite !parseLines_spec. cbv zeta.
  assert (E : map split (map strip lines) = map split lines).
  { rewrite map_map. apply map_ext. intros l. apply split_strip. }
  rewrite E, !nth_error_map.
  destruct (nth_error lines (skip_leading (map split lines) 0)) as [cl|];
    cbn [option_map]; [|reflexivity].
  rewrite count_of_strip. destruct (count_of cl); [|reflexivity].
  destruct (nth_error lines _) as [tl|]; cbn [option_map]; [|reflexivity].
  now rewrite strip_idempotent.
Qed.

(** ** The formula of [anyeye] *)

Section FormulaFacts.
Import Anyeye.
Variable maxsize : Z.

Lemma upper_not_lower (c : ascii) : is_upper c = true -> is_lower c = false.
Proof. destruct c as [[] [] [] [] [] [] [] []]; vm_compute; congruence. Qed.

Lemma digit_not_letter (c : ascii) :
  is_digit c = true -> is_upper c = false /\ is_lower c = false.
Proof.
  destruct c as [[] [] [] [] [] [] [] []]; vm_compute; intros H;
    (discriminate H || auto).
Qed.

Lemma all_digits_no_upper (s : string) : all_digits s = true -> no_upper s = true.
Proof.
  induction s as [|c s IH]; [reflexivity|]. simpl.
  intros H. apply andb_true_iff in H as [Hc Hs].
  destruct (digit_not_letter c Hc) as [-> _]. now apply IH.
Qed.

Lemma uint_of_string_digits (s : string) (d : Decimal.uint) :
  NilEmpty.uint_of_string s = Some d -> all_digits s = true.
Proof.
  revert d. induction s as [|c s IH]; intros d; [reflexivity|]. simpl.
  destruct (NilEmpty.uint_of_string s) as [d0|]; [|discriminate].
  intros H. rewrite (IH d0 eq_refl), andb_true_r.
  apply uint_of_char_spec in H.
  repeat (destruct H as [[-> _] | H]; [reflexivity|]).
  now destruct H as [-> _].
Qed.

Lemma nilzero_uint_of_string_digits (s : string) (d : Decimal.uint) :
  NilZero.uint_of_string s = Some d -> all_digits s = true.
Proof.
  destruct s as [|c s]; [discriminate|]. apply uint_of_string_digits.
Qed.

(** What [int] reads has a sign or a digit first, and then digits. *)
Lemma py_int_plain (s : string) (n : Z) :
  py_int s = Some n -> no_upper s = true /\ starts_lower s = false.
Proof.
  destruct s as [|c r]; [discriminate|]. unfold py_int.
  destruct (Ascii.eqb_spec c "-") as [->|_].
  - destruct (NilZero.uint_of_string r) as [d|] eqn:E; [|discriminate].
    intros _. apply nilzero_uint_of_string_digits in E.
    simpl. split; [now apply all_digits_no_upper | reflexivity].
  - destruct (Ascii.eqb_spec c "+") as [->|_].
    + destruct (NilZero.uint_of_string r) as [d|] eqn:E; [|discriminate].
      intros _. apply nilzero_uint_of_string_digits in E.
      simpl. split; [now apply all_digits_no_upper | reflexivity].
    + destruct (NilZero.uint_of_string (String c r)) as [d|] eqn:E; [|discriminate].
      intros _. apply nilzero_uint_of_string_digits in E.
      split; [now apply all_digits_no_upper|].
      simpl in E. apply andb_true_iff in E as [Hc _].
      simpl. now destruct (digit_not_letter c Hc).
Qed.

Lemma is_count_plain (cnt : string) :
  is_count cnt = true -> no_upper cnt = true /\ starts_lower cnt = false.
Proof.
  unfold is_count. destruct cnt as [|c r]; [auto|]. cbn [is_empty orb].
  destruct (py_int (String c r)) as [n|] eqn:E; [|discriminate].
  intros _. exact (py_int_plain _ _ E).
Qed.

(** *** [re.split] *)

Lemma re_split_text (c : string) :
  no_upper c = true -> forall cur s, re_split cur (c ++ s) = re_split (cur ++ c) s.
Proof.
  induction c as [|a c IH]; intros H cur s.
  - now rewrite append_nil_r.
  - simpl in H. apply andb_true_iff in H as [Ha Hc].
    apply negb_true_iff in Ha. simpl. rewrite Ha, (IH Hc).
    now rewrite append_assoc.
Qed.

Lemma re_split_symbol (sym rest cur : string) :
  is_symbol sym = true ->
  String.length sym = 2 \/ starts_lower rest = false ->
  re_split cur (sym ++ rest) = cur :: sym :: re_split "" rest.
Proof.
  intros Hs Hl. destruct sym as [|c [|d [|]]]; try discriminate; simpl in Hs.
  - simpl. rewrite Hs. destruct Hl as [Hl | Hl]; [discriminate|].
    destruct rest as [|d r]; [reflexivity|]. simpl in Hl. now rewrite Hl.
  - apply andb_true_iff in Hs as [Hc Hd]. simpl. now rewrite Hc, Hd.
Qed.

Lemma formula_text_starts (items : list (string * string)) :
  Forall is_item items -> starts_lower (formula_text items) = false.
Proof.
  destruct 1 as [|[sym cnt] items (Hs & _) _]; [reflexivity|].
  simpl in *. destruct sym as [|c [|d [|]]]; try discriminate; simpl in *.
  - now apply upper_not_lower.
  - apply andb_true_iff in Hs as [Hc _]. now apply upper_not_lower.
Qed.

Lemma starts_lower_append (a b : string) :
  starts_lower a = false -> starts_lower b = false -> starts_lower (a ++ b) = false.
Proof. destruct a; simpl; auto. Qed.

(** The cut of a text made of items. *)
Lemma re_split_formula_text (items : list (string * string)) :
  Forall is_item items ->
  forall cur,
  re_split cur (formula_text items)
  = cur :: flat_map (fun it => [fst it; snd it]) items.
Proof.
  induction 1 as [|[sym cnt] items Hi Hr IH]; intros cur; [reflexivity|].
  destruct Hi as (Hs & Hu & Hl). simpl in *.
  rewrite re_split_symbol, re_split_text, IH; try assumption; [reflexivity|].
  destruct Hl as [Hl | Hl]; [now left | right].
  apply starts_lower_append; [assumption | now apply formula_text_starts].
Qed.

(** Every text is a text without upper-case letter followed by items. *)
Lemma re_split_items (k : nat) :
  forall s, String.length s <= k ->
  exists p items,
    s = p ++ formula_text items /\ no_upper p = true
    /\ (starts_lower s = false -> starts_lower p = false)
    /\ Forall is_item items.
Proof.
  induction k as [|k IH]; intros s Hk.
  - destruct s; [|simpl in Hk; lia]. exists "", []. repeat split; auto.
  - destruct s as [|c r]; [exists "", []; repeat split; auto|].
    simpl in Hk. destruct (is_upper c) eqn:Hc.
    + assert (Hsym : forall d r', r = String d r' -> is_lower d = true ->
                exists p items, String c r = p ++ formula_text items
                  /\ no_upper p = true
                  /\ (starts_lower (String c r) = false -> starts_lower p = false)
                  /\ Forall is_item items).
      { intros d r' -> Hd. simpl in Hk.
        destruct (IH r' ltac:(lia)) as (p & items & E & Hp & _ & Hi).
        exists "", ((String c (String d ""), p) :: items). simpl.
        split; [now rewrite E|]. repeat split; auto.
        constructor; [|assumption]. repeat split; simpl; auto.
        now rewrite Hc, Hd. }
      destruct r as [|d r'].
      * exists "", [(String c "", "")]. simpl. repeat split; auto.
        constructor; [|constructor]. repeat split; simpl; auto.
      * destruct (is_lower d) eqn:Hd; [now apply (Hsym d r')|].
        destruct (IH (String d r') ltac:(simpl in *; lia))
          as (p & items & E & Hp & Hsl & Hi).
        exists "", ((String c "", p) :: items). simpl.
        split; [now rewrite E|]. repeat split; auto.
        constructor; [|assumption]. repeat split; simpl; auto.
    + destruct (IH r ltac:(lia)) as (p & items & E & Hp & _ & Hi).
      exists (String c p), items. simpl. rewrite Hc.
      split; [now rewrite E|]. repeat split; auto.
Qed.

(** The cut of a text that starts with an upper-case letter. *)
Lemma re_split_match_upper (s : string) :
  match_upper s = true ->
  exists items,
    items <> [] /\ s = formula_text items /\ Forall is_item items
    /\ tl (re_split "" s) = flat_map (fun it => [fst it; snd it]) items.
Proof.
  intros Hm.
  destruct (re_split_items (String.length s) s (le_n _))
    as (p & items & E & Hp & _ & Hi).
  destruct p as [|c p].
  - simpl in E. exists items. split; [|split; [exact E|split; [exact Hi|]]].
    + intros ->. subst s. discriminate.
    + rewrite E at 1. now rewrite re_split_formula_text.
  - subst s. simpl in *. rewrite Hm in Hp. discriminate.
Qed.

(** *** The loop *)

Lemma count_value_count (cnt : string) :
  is_count cnt = true -> count_value cnt = Returns (number_of cnt).
Proof.
  unfold is_count, count_value, number_of.
  destruct (is_empty cnt); [reflexivity|]. cbn [orb].
  now destruct (py_int cnt).
Qed.

Lemma count_value_bad (cnt : string) :
  is_count cnt = false -> count_value cnt = Raises ValueError.
Proof.
  unfold is_count, count_value.
  destruct (is_empty cnt); [discriminate|]. cbn [orb].
  now destruct (py_int cnt).
Qed.

Lemma times_cases (n : Z) (el : string) :
  (fits maxsize n /\ times maxsize n el = Returns (repeat el (Z.to_nat n)))
  \/ (~ fits maxsize n /\ times maxsize n el = Raises OverflowError).
Proof.
  unfold times, fits.
  destruct (Z.ltb_spec n (- maxsize - 1)); cbn [orb]; [right; split; [lia | reflexivity]|].
  destruct (Z.ltb_spec maxsize n); [right | left]; split; (lia || reflexivity).
Qed.

(** The three ways out of the loop: all the counts are counts that fit,
    or the first that is not is no count, or it does not fit. *)
Lemma expand_outcome (items : list (string * string)) :
  forall acc,
  (Forall (fun it => is_count (snd it) = true /\ fits maxsize (number_of (snd it)))
          items
   /\ expand maxsize (flat_map (fun it => [fst it; snd it]) items) acc
      = Returns (acc ++ elements_of items)%list)
  \/ (exists good sym cnt rest,
         items = (good ++ (sym, cnt) :: rest)%list
         /\ Forall (fun it => is_count (snd it) = true
                              /\ fits maxsize (number_of (snd it))) good
         /\ ((is_count cnt = false
              /\ expand maxsize (flat_map (fun it => [fst it; snd it]) items) acc
                 = Raises (RuntimeError
                             ("Invalid formula, " ++ py_repr cnt
                              ++ " is not valid count")))
             \/ (is_count cnt = true /\ ~ fits maxsize (number_of cnt)
                 /\ expand maxsize (flat_map (fun it => [fst it; snd it]) items) acc
                    = Raises OverflowError))).
Proof.
  induction items as [|[sym cnt] items IH]; intros acc.
  - left. split; [constructor|]. simpl. now rewrite List.app_nil_r.
  - cbn [flat_map fst snd app expand].
    destruct (is_count cnt) eqn:Hc.
    + rewrite (count_value_count cnt Hc).
      destruct (times_cases (number_of cnt) sym) as [[Hf ->] | [Hf ->]].
      * destruct (IH (acc ++ repeat sym (Z.to_nat (number_of cnt)))%list)
          as [[Hi E] | (good & s & c & rest & -> & Hg & H)].
        -- left. split; [constructor; auto|]. rewrite E.
           unfold elements_of. cbn [flat_map fst snd].
           now rewrite List.app_assoc.
        -- right. exists ((sym, cnt) :: good), s, c, rest.
           split; [reflexivity|]. split; [constructor; auto|]. exact H.
      * right. exists [], sym, cnt, items. split; [reflexivity|].
        split; [constructor|]. right. auto.
    + rewrite (count_value_bad cnt Hc).
      right. exists [], sym, cnt, items. split; [reflexivity|].
      split; [constructor|]. left. auto.
Qed.

Lemma expand_stops_at_bad (good : list (string * string)) (sym bad : string)
    (rest : list (string * string)) :
  Forall (fun it => is_count (snd it) = true /\ fits maxsize (number_of (snd it)))
         good ->
  is_count bad = false ->
  forall acc,
  expand maxsize (flat_map (fun it => [fst it; snd it]) (good ++ (sym, bad) :: rest)) acc
  = Raises (RuntimeError ("Invalid formula, " ++ py_repr bad ++ " is not valid count")).
Proof.
  induction 1 as [|[s c] good [Hc Hf] _ IH]; intros Hb acc;
    cbn [app flat_map fst snd expand].
  - now rewrite (count_value_bad bad Hb).
  - simpl in Hc, Hf. rewrite (count_value_count c Hc).
    destruct (times_cases (number_of c) s) as [[_ ->] | [Hn _]];
      [now apply IH | contradiction].
Qed.

Lemma expand_stops_at_overflow (good : list (string * string)) (sym cnt : string)
    (rest : list (string * string)) :
  Forall (fun it => is_count (snd it) = true /\ fits maxsize (number_of (snd it)))
         good ->
  is_count cnt = true -> ~ fits maxsize (number_of cnt) ->
  forall acc,
  expand maxsize (flat_map (fun it => [fst it; snd it]) (good ++ (sym, cnt) :: rest)) acc
  = Raises OverflowError.
Proof.
  induction 1 as [|[s c] good [Hc Hf] _ IH]; intros Hb Hn acc;
    cbn [app flat_map fst snd expand].
  - rewrite (count_value_count cnt Hb).
    destruct (times_cases (number_of cnt) sym) as [[Hf _] | [_ ->]];
      [contradiction | reflexivity].
  - simpl in Hc, Hf. rewrite (count_value_count c Hc).
    destruct (times_cases (number_of c) s) as [[_ ->] | [Hn' _]];
      [now apply IH | contradiction].
Qed.

Lemma formula_text_match_upper (items : list (string * string)) :
  Forall is_item items -> items <> [] -> match_upper (formula_text items) = true.
Proof.
  destruct 1 as [|[sym cnt] items (Hs & _) _]; [congruence|]. intros _.
  simpl in *. destruct sym as [|c [|d [|]]]; try discriminate; simpl in *.
  - assumption.
  - now apply andb_true_iff in Hs as [Hc _].
Qed.

(** [parseFormula] on a text made of items is the loop on them. *)
Lemma parseFormula_items (formula : string) (items : list (string * string)) :
  Forall is_item items -> items <> [] ->
  remove_blanks formula = formula_text items ->
  parseFormula maxsize formula
  = expand maxsize (flat_map (fun it => [fst it; snd it]) items) [].
Proof.
  intros Hi Hn E. unfold parseFormula. rewrite E.
  rewrite (formula_text_match_upper items Hi Hn). cbn [negb].
  now rewrite re_split_formula_text.
Qed.

Lemma symbol_count_item (it : string * string) :
  is_symbol (fst it) = true -> is_count (snd it) = true -> is_item it.
Proof.
  intros Hs Hc. destruct (is_count_plain _ Hc) as [Hu Hl].
  repeat split; auto.
Qed.

(** The formulas that [parseFormula] takes. *)
Lemma parseFormula_returns (formula : string) (l : list string) :
  parseFormula maxsize formula = Returns l
  <-> exists items,
        items <> []
        /\ remove_blanks formula = formula_text items
        /\ Forall (fun it => is_symbol (fst it) = true
                             /\ is_count (snd it) = true
                             /\ fits maxsize (number_of (snd it)))
                  items
        /\ l = elements_of items.
Proof.
  split.
  - intros H. pose proof H as H0. unfold parseFormula in H.
    destruct (match_upper (remove_blanks formula)) eqn:Hm;
      [|discriminate].
    destruct (re_split_match_upper _ Hm) as (items & Hn & E & Hi & _).
    rewrite (parseFormula_items formula items Hi Hn E) in H0.
    destruct (expand_outcome items [])
      as [[Hc E'] | (good & s & c & rest & _ & _ & [[_ E'] | (_ & _ & E')])];
      rewrite E' in H0; try discriminate.
    injection H0 as <-. exists items. repeat split; try assumption.
    rewrite Forall_forall in *. intros it Hin.
    destruct (Hi it Hin) as (Hs & _). destruct (Hc it Hin). auto.
  - intros (items & Hn & E & Hi & ->).
    assert (Hitem : Forall is_item items).
    { eapply Forall_impl; [|exact Hi]. intros it (Hs & Hc & _).
      now apply symbol_count_item. }
    rewrite (parseFormula_items formula items Hitem Hn E).
    destruct (expand_outcome items [])
      as [[_ E'] | (good & s & c & rest & -> & _ & H)]; [exact E'|].
    apply Forall_app in Hi as [_ Hi]. inversion Hi as [|? ? (_ & Hc & Hf)]; subst.
    simpl in *. destruct H as [[H _] | (_ & H & _)]; [congruence | contradiction].
Qed.

Lemma elements_of_length (items : list (string * string)) :
  List.length (elements_of items)
  = fold_right (fun it k => Z.to_nat (number_of (snd it)) + k) 0 items.
Proof.
  unfold elements_of. induction items as [|it items IH]; [reflexivity|].
  cbn [flat_map fold_right]. now rewrite length_app, repeat_length, IH.
Qed.

End FormulaFacts.

Example formula_of_salt :
  Anyeye.parseFormula 9223372036854775807 "Na4 Cl4"
  = Anyeye.Returns ["Na"; "Na"; "Na"; "Na"; "Cl"; "Cl"; "Cl"; "Cl"].
Proof. reflexivity. Qed.

Example formula_with_a_letter_as_count :
  Anyeye.parseFormula 9223372036854775807 "H2 O 2x"
  = Anyeye.Raises (Anyeye.RuntimeError "Invalid formula, '2x' is not valid count").
Proof. reflexivity. Qed.

(** X13.  The formulas that [parseFormula] expands.  A list of elements is
    returned exactly when the formula, its white space removed, is one or
    more symbols (an upper-case letter, or one followed by a lower-case
    letter), each followed by a count that is empty or that [int] reads
    as an index of the platform; the list has each symbol as many times as
    its count says, once for an empty count and not at all for a count
    that is zero or negative, in the order of the formula. *)
Theorem formula_expansion (maxsize : Z) (formula : string) (l : list string) :
  Anyeye.parseFormula maxsize formula = Anyeye.Returns l
  <-> exists items,
        items <> []
        /\ Anyeye.remove_blanks formula = Anyeye.formula_text items
        /\ Forall (fun it => Anyeye.is_symbol (fst it) = true
                             /\ Anyeye.is_count (snd it) = true
                             /\ Anyeye.fits maxsize (Anyeye.number_of (snd it)))
                  items
        /\ l = Anyeye.elements_of items.
Proof. exact (parseFormula_returns maxsize formula l). Qed.

(** X14.  The first count that [int] does not read stops [parseFormula]:
    for a formula whose pieces are symbols each followed by a text without
    upper-case letter, the counts before a text that is neither empty nor
    read by [int] being counts that fit, the error is a [RuntimeError]
    that shows this text as [repr] writes it. *)
Theorem bad_count_reported (maxsize : Z) (formula : string)
    (good : list (string * string)) (sym bad : string)
    (rest : list (string * string)) :
  Anyeye.remove_blanks formula
  = Anyeye.formula_text (good ++ (sym, bad) :: rest) ->
  Forall Anyeye.is_item (good ++ (sym, bad) :: rest) ->
  Forall (fun it => Anyeye.is_count (snd it) = true
                    /\ Anyeye.fits maxsize (Anyeye.number_of (snd it))) good ->
  Anyeye.is_count bad = false ->
  Anyeye.parseFormula maxsize formula
  = Anyeye.Raises
      (Anyeye.RuntimeError
         ("Invalid formula, " ++ Anyeye.py_repr bad ++ " is not valid count")).
Proof.
  intros E Hi Hg Hb.
  rewrite (parseFormula_items maxsize formula _ Hi ltac:(now destruct good) E).
  now apply expand_stops_at_bad.
Qed.

Lemma bad_count_reported_witness :
  Anyeye.parseFormula 9223372036854775807 "Na2 Cl x3 O"
  = Anyeye.Raises
      (Anyeye.RuntimeError
         ("Invalid formula, " ++ Anyeye.py_repr "x3" ++ " is not valid count")).
Proof.
  apply (bad_count_reported 9223372036854775807 "Na2 Cl x3 O"
           [("Na", "2")] "Cl" "x3" [("O", "")]).
  - reflexivity.
  - repeat (apply Forall_cons;
            [split; [reflexivity
                    | split; [reflexivity
                             | (left; reflexivity) || (right; reflexivity)]]|]).
    apply Forall_nil.
  - constructor; [|constructor].
    split; [reflexivity | split; vm_compute; discriminate].
  - reflexivity.
Defined.

(** X15.  The errors of [parseFormula], each with the formulas that give
    it.  The error is the [RuntimeError] of an invalid formula, with the
    formula in the message, exactly for a formula that, its white space
    removed, does not start with an upper-case letter (the empty formula
    is one).  Otherwise the formula is a sequence of symbols, each
    followed by a text without upper-case letter, and the error comes from
    the first of these texts that is not a count that fits: a
    [RuntimeError] that shows the text as [repr] writes it when the text
    is not empty and [int] does not read it, and the [OverflowError] of
    the repetition when it is a count that is not an index of the
    platform.  There is no other error: the [ValueError] of [int] does
    not leave the function, and no index is out of range. *)
Theorem errors_of_parseFormula (maxsize : Z) (formula : string)
    (e : Anyeye.error) :
  Anyeye.parseFormula maxsize formula = Anyeye.Raises e
  <-> (Anyeye.match_upper (Anyeye.remove_blanks formula) = false
       /\ e = Anyeye.RuntimeError
                ("InvalidFormula '" ++ Anyeye.remove_blanks formula ++ "'"))
      \/ (exists good sym cnt rest,
             Anyeye.remove_blanks formula
             = Anyeye.formula_text (good ++ (sym, cnt) :: rest)
             /\ Forall Anyeye.is_item (good ++ (sym, cnt) :: rest)
             /\ Forall (fun it => Anyeye.is_count (snd it) = true
                                  /\ Anyeye.fits maxsize (Anyeye.number_of (snd it)))
                       good
             /\ ((Anyeye.is_count cnt = false
                  /\ e = Anyeye.RuntimeError
                           ("Invalid formula, " ++ Anyeye.py_repr cnt
                            ++ " is not valid count"))
                 \/ (Anyeye.is_count cnt = true
                     /\ ~ Anyeye.fits maxsize (Anyeye.number_of cnt)
                     /\ e = Anyeye.OverflowError))).
Proof.
  split.
  - intros H. pose proof H as H0. unfold Anyeye.parseFormula in H.
    destruct (Anyeye.match_upper (Anyeye.remove_blanks formula)) eqn:Hm.
    + right.
      destruct (re_split_match_upper _ Hm) as (items & Hn & E & Hi & _).
      rewrite (parseFormula_items maxsize formula items Hi Hn E) in H0.
      destruct (expand_outcome maxsize items [])
        as [[Hc E'] | (good & s & c & rest & -> & Hg & [[Hb E'] | (Hc & Hf & E')])];
        rewrite E' in H0; [discriminate| |]; injection H0 as <-;
        exists good, s, c, rest; auto 10.
    + left. cbn [negb] in H. injection H as <-. auto.
  - intros [[Hm ->] | (good & sym & cnt & rest & E & Hi & Hg & H)].
    + unfold Anyeye.parseFormula. now rewrite Hm.
    + rewrite (parseFormula_items maxsize formula _ Hi ltac:(now destruct good) E).
      destruct H as [[Hb ->] | (Hc & Hf & ->)].
      * now apply expand_stops_at_bad.
      * now apply expand_stops_at_overflow.
Qed.

(** ** The elements that [anyeye] sets *)

Section ElementsFacts.
Import Anyeye.
Context {RT : Runtime}.

Lemma set_element_at_app (done : list Atom) (a : Atom) (todo : list Atom)
    (e : string) :
  set_element_at (done ++ a :: todo) (List.length done) e
  = Returns (done ++ set_element a e :: todo)%list.
Proof. induction done as [|d done IH]; simpl; [reflexivity | now rewrite IH]. Qed.

(** The loop over the indices, from any of them on. *)
Lemma assign_elements_from (todo : list Atom) :
  forall (ftodo : list string) (done : list Atom) (fdone : list string),
  List.length done = List.length fdone ->
  List.length todo = List.length ftodo ->
  assign_elements (seq (List.length done) (List.length todo))
    (fdone ++ ftodo) (done ++ todo)
  = Returns (done ++ map (fun p => set_element (fst p) (snd p))
                         (combine todo ftodo))%list.
Proof.
  induction todo as [|a todo IH]; intros [|e ftodo] done fdone Hd Ht;
    try discriminate; cbn [List.length seq assign_elements combine map].
  - reflexivity.
  - rewrite Hd at 1. rewrite nth_error_app2, Nat.sub_diag by lia.
    cbn [nth_error]. rewrite set_element_at_app.
    replace (S (List.length done)) with (List.length (done ++ [set_element a e]))
      by (rewrite length_app; simpl; lia).
    replace (done ++ set_element a e :: todo)%list
      with ((done ++ [set_element a e]) ++ todo)%list
      by (now rewrite <- List.app_assoc).
    replace (fdone ++ e :: ftodo)%list with ((fdone ++ [e]) ++ ftodo)%list
      by (now rewrite <- List.app_assoc).
    rewrite IH.
    + now rewrite <- List.app_assoc.
    + rewrite !length_app. simpl. lia.
    + simpl in Ht. lia.
Qed.

Lemma combine_elements (l : list Atom) :
  forall formula : list string,
  List.length formula = List.length l ->
  map element (map (fun p => set_element (fst p) (snd p)) (combine l formula))
  = formula
  /\ map xyz (map (fun p => set_element (fst p) (snd p)) (combine l formula))
     = map xyz l.
Proof.
  induction l as [|a l IH]; intros [|e formula] H; try discriminate.
  - auto.
  - simpl in H. destruct (IH formula ltac:(lia)) as [He Hx].
    simpl. now rewrite He, Hx.
Qed.

(** The loop with a formula of the length of the structure, and the
    error for a formula of another length. *)
Lemma convert_same_length (formula : list string) (format : string)
    (stru : Structure) :
  List.length formula = List.length (atoms stru) ->
  exists l,
    convertStructureFile_elements (Some formula) format stru
    = Returns {| title := title stru; lattice := lattice stru; atoms := l |}
    /\ map element l = formula /\ map xyz l = map xyz (atoms stru).
Proof.
  intros H. unfold convertStructureFile_elements.
  rewrite (proj2 (Nat.eqb_eq _ _) H). cbn [negb].
  pose proof (assign_elements_from (atoms stru) formula [] [] eq_refl
                (eq_sym H)) as E.
  cbn [List.length app] in E. rewrite E.
  destruct (combine_elements (atoms stru) formula H) as [He Hx].
  eexists. split; [reflexivity|]. auto.
Qed.

Lemma convert_other_length (formula : list string) (format : string)
    (stru : Structure) :
  List.length formula <> List.length (atoms stru) ->
  convertStructureFile_elements (Some formula) format stru
  = Raises (RuntimeError
              ("Formula has " ++ py_str (Z.of_nat (List.length formula))
               ++ " atoms while structure "
               ++ py_str (Z.of_nat (List.length (atoms stru))))).
Proof.
  intros H. unfold convertStructureFile_elements.
  now rewrite (proj2 (Nat.eqb_neq _ _) H).
Qed.

End ElementsFacts.

(** X16.  The elements of the structure that [convertStructureFile]
    writes.  With a formula of as many elements as the structure has
    atoms, the atoms get the elements of the formula, in order, and keep
    their coordinates; with a formula of another length the error is a
    [RuntimeError] that gives the two lengths.  Without formula, in the
    format [rawxyz], the atoms with an empty element get the element
    ["C"] and the others are kept; in the other formats the structure is
    kept as it is.  The title and the lattice are kept in all cases. *)
Theorem elements_before_writing {RT : Runtime} (format : string)
    (stru : Structure) :
  (forall formula,
      List.length formula = List.length (atoms stru) ->
      exists l,
        Anyeye.convertStructureFile_elements (Some formula) format stru
        = Anyeye.Returns {| title := title stru; lattice := lattice stru; atoms := l |}
        /\ map element l = formula /\ map xyz l = map xyz (atoms stru))
  /\ (forall formula,
         List.length formula <> List.length (atoms stru) ->
         Anyeye.convertStructureFile_elements (Some formula) format stru
         = Anyeye.Raises
             (Anyeye.RuntimeError
                ("Formula has " ++ py_str (Z.of_nat (List.length formula))
                 ++ " atoms while structure "
                 ++ py_str (Z.of_nat (List.length (atoms stru))))))
  /\ (exists l,
         Anyeye.convertStructureFile_elements None "rawxyz" stru
         = Anyeye.Returns {| title := title stru; lattice := lattice stru; atoms := l |}
         /\ Forall2 (fun a a' =>
                       xyz a' = xyz a
                       /\ element a' = (if is_empty (element a) then "C" else element a))
                    (atoms stru) l)
  /\ (format <> "rawxyz" ->
      Anyeye.convertStructureFile_elements None format stru = Anyeye.Returns stru).
Proof.
  split; [|split; [|split]].
  - intros formula H. unfold Anyeye.convertStructureFile_elements.
    rewrite (proj2 (Nat.eqb_eq _ _) H). cbn [negb].
    pose proof (assign_elements_from (atoms stru) formula [] [] eq_refl
                  (eq_sym H)) as E.
    cbn [List.length app] in E. rewrite E.
    destruct (combine_elements (atoms stru) formula H) as [He Hx].
    eexists. split; [reflexivity|]. auto.
  - intros formula H. unfold Anyeye.convertStructureFile_elements.
    now rewrite (proj2 (Nat.eqb_neq _ _) H).
  - eexists. split; [reflexivity|].
    induction (atoms stru) as [|a l IH]; [constructor|].
    cbn [map]. constructor; [|exact IH].
    unfold Anyeye.default_element. now destruct (is_empty (element a)).
  - intros H. unfold Anyeye.convertStructureFile_elements.
    now rewrite (proj2 (String.eqb_neq _ _) H).
Qed.

Lemma elements_before_writing_witness :
  Anyeye.convertStructureFile_elements (Some ["Na"; "Cl"; "Cl"]) "xyz"
    (Binary64.structure "salt"
       [Binary64.atom "C" [Binary64.zero; Binary64.zero; Binary64.zero];
        Binary64.atom "C" [Binary64.one; Binary64.one; Binary64.one]])
  = Anyeye.Raises (Anyeye.RuntimeError "Formula has 3 atoms while structure 2").
Proof.
  apply (proj1 (proj2 (elements_before_writing (RT := Binary64.runtime) "xyz"
                         (Binary64.structure "salt"
                            [Binary64.atom "C" [Binary64.zero; Binary64.zero; Binary64.zero];
                             Binary64.atom "C" [Binary64.one; Binary64.one; Binary64.one]])))
           ["Na"; "Cl"; "Cl"]).
  discriminate.
Defined.

(** X17.  The formula of the command line and the structure.  For a
    text that, its white space removed, is one or more symbols, each with
    a count that is empty or that [int] reads as an index of the platform,
    [parseFormula] returns the elements that the counts stand for, as many
    as the counts add up to, a count that is zero or negative adding
    nothing; with this list [convertStructureFile] gives the atoms of a
    structure that has as many atoms the elements of the list, in order,
    and leaves their coordinates, and for a structure with another number
    of atoms it raises the [RuntimeError] that gives the two numbers. *)
Theorem formula_fits_structure {RT : Runtime} (maxsize : Z) (text format : string)
    (items : list (string * string)) (stru : Structure) :
  items <> [] ->
  Anyeye.remove_blanks text = Anyeye.formula_text items ->
  Forall (fun it => Anyeye.is_symbol (fst it) = true
                    /\ Anyeye.is_count (snd it) = true
                    /\ Anyeye.fits maxsize (Anyeye.number_of (snd it))) items ->
  Anyeye.parseFormula maxsize text = Anyeye.Returns (Anyeye.elements_of items)
  /\ List.length (Anyeye.elements_of items)
     = fold_right (fun it k => Z.to_nat (Anyeye.number_of (snd it)) + k) 0 items
  /\ (fold_right (fun it k => Z.to_nat (Anyeye.number_of (snd it)) + k) 0 items
      = List.length (atoms stru) ->
      exists l,
        Anyeye.convertStructureFile_elements
          (Some (Anyeye.elements_of items)) format stru
        = Anyeye.Returns {| title := title stru; lattice := lattice stru; atoms := l |}
        /\ map element l = Anyeye.elements_of items
        /\ map xyz l = map xyz (atoms stru))
  /\ (fold_right (fun it k => Z.to_nat (Anyeye.number_of (snd it)) + k) 0 items
      <> List.length (atoms stru) ->
      Anyeye.convertStructureFile_elements
        (Some (Anyeye.elements_of items)) format stru
      = Anyeye.Raises
          (Anyeye.RuntimeError
             ("Formula has "
              ++ py_str (Z.of_nat
                           (fold_right
                              (fun it k => Z.to_nat (Anyeye.number_of (snd it)) + k)
                              0 items))
              ++ " atoms while structure "
              ++ py_str (Z.of_nat (List.length (atoms stru)))))).
Proof.
  intros Hn E Hi. pose proof (elements_of_length items) as Hl.
  split; [|split; [exact Hl|split]].
  - apply parseFormula_returns. exists items. auto.
  - intros H. apply convert_same_length. congruence.
  - intros H. rewrite <- Hl. apply convert_other_length. congruence.
Qed.

Lemma formula_fits_structure_witness :
  Anyeye.parseFormula 9223372036854775807 "Na Cl2 O0"
  = Anyeye.Returns ["Na"; "Cl"; "Cl"]
  /\ exists l,
       Anyeye.convertStructureFile_elements (Some ["Na"; "Cl"; "Cl"]) "xyz"
         (Binary64.structure "salt"
            [Binary64.atom "C" [Binary64.zero; Binary64.zero; Binary64.zero];
             Binary64.atom "C" [Binary64.one; Binary64.one; Binary64.one];
             Binary64.atom "C" [Binary64.one; Binary64.zero; Binary64.one]])
       = Anyeye.Returns (Binary64.structure "salt" l)
       /\ map element l = ["Na"; "Cl"; "Cl"]
       /\ map xyz l
          = [[Binary64.zero; Binary64.zero; Binary64.zero];
             [Binary64.one; Binary64.one; Binary64.one];
             [Binary64.one; Binary64.zero; Binary64.one]].
Proof.
  destruct (formula_fits_structure (RT := Binary64.runtime) 9223372036854775807
              "Na Cl2 O0" "xyz" [("Na", ""); ("Cl", "2"); ("O", "0")]
              (Binary64.structure "salt"
                 [Binary64.atom "C" [Binary64.zero; Binary64.zero; Binary64.zero];
                  Binary64.atom "C" [Binary64.one; Binary64.one; Binary64.one];
                  Binary64.atom "C" [Binary64.one; Binary64.zero; Binary64.one]]))
    as (Hp & _ & Hs & _).
  - discriminate.
  - reflexivity.
  - repeat (apply Forall_cons;
            [split; [reflexivity
                    | split; [reflexivity | split; vm_compute; discriminate]]|]).
    apply Forall_nil.
  - split; [exact Hp | exact (Hs eq_refl)].
Defined.

(** ** The exit status of [anyeye] *)

Lemma signalHandler_bytes (code low : Z) :
  (0 <= low < 256)%Z ->
  Anyeye.signalHandler true (code * 256 + low) = (code + low)%Z.
Proof.
  intros Hl. unfold Anyeye.signalHandler.
  rewrite Z.shiftr_div_pow2 by lia.
  change 255%Z with (Z.ones 8). rewrite Z.land_ones by lia.
  change (2 ^ 8)%Z with 256%Z.
  assert (Hd : ((code * 256 + low) / 256 = code)%Z)
    by (rewrite Z.div_add_l, Z.div_small by lia; lia).
  assert (Hm : ((code * 256 + low) mod 256 = low)%Z)
    by (rewrite Z.add_comm, Z.mod_add, Z.mod_small by lia; reflexivity).
  now rewrite Hd, Hm.
Qed.

(** X18.  The status that the script exits with when its child ends.  A
    wait status with the exit code of the child in its high byte and the
    signal that ended it in its low byte gives their sum: the exit code of
    a child that exited, the signal byte of a child that was killed, and
    zero only for a child that exited with zero.  Any other signal makes
    the script exit with 1. *)
Theorem exit_status_of_child (code low : Z) :
  (0 <= code < 256)%Z -> (0 <= low < 256)%Z ->
  Anyeye.signalHandler true (code * 256 + low) = (code + low)%Z
  /\ Anyeye.signalHandler true (code * 256) = code
  /\ Anyeye.signalHandler true low = low
  /\ (Anyeye.signalHandler true (code * 256 + low) = 0%Z
      <-> code = 0%Z /\ low = 0%Z)
  /\ forall status, Anyeye.signalHandler false status = 1%Z.
Proof.
  intros Hc Hl. pose proof (signalHandler_bytes code low Hl) as E.
  split; [exact E|]. split; [|split; [|split]].
  - replace (code * 256)%Z with (code * 256 + 0)%Z by lia.
    rewrite signalHandler_bytes by lia. lia.
  - replace low with (0 * 256 + low)%Z at 1 by lia.
    rewrite signalHandler_bytes by lia. lia.
  - rewrite E. lia.
  - reflexivity.
Qed.

Lemma exit_status_of_child_witness :
  Anyeye.signalHandler true (2 * 256 + 0) = (2 + 0)%Z
  /\ Anyeye.signalHandler true (2 * 256) = 2%Z
  /\ Anyeye.signalHandler true 0 = 0%Z
  /\ (Anyeye.signalHandler true (2 * 256 + 0) = 0%Z <-> 2%Z = 0%Z /\ 0%Z = 0%Z)
  /\ forall status, Anyeye.signalHandler false status = 1%Z.
Proof. apply (exit_status_of_child 2 0); lia. Defined.
